(** * The research agent's workflow: state threading, routing and the advisor

    A shallow embedding of [agent/app/state.py], [agent/app/agent.py] and
    [agent/app/memory.py].  The workflow state is the [AgentState] TypedDict,
    which at run time is a plain dict: any of its seven keys may be absent
    (the runner's own initial state has no ["user_feedback"]), so every field
    is an [option] and [state.get(k, d)] is [dict_get d].  Node functions
    return update dicts of the same shape; the graph engine merges them into
    the stored state.

    External services (the chat model, the search provider, the memory
    store) are arguments of the functions that call them and may raise. *)

From Stdlib Require Import ZArith List String Ascii Bool Lia DecimalString.
From Stdlib Require Import Floats.PrimFloat.
Import ListNotations.
Local Open Scope string_scope.
Local Open Scope Z_scope.
Set Warnings "-register-all".

(** ** Exceptions and fallible computations *)

Inductive PyExn : Type :=
| KeyError (key : string)
| IndexError
| StopIteration
| AttributeError (attr : string)
| ValidationError
| ServiceError (what : string)
| GraphInterrupt (payload : string).

Inductive result (A : Type) : Type :=
| Ok (a : A)
| Raise (e : PyExn).
Arguments Ok {A} a.
Arguments Raise {A} e.

Definition bind {A B : Type} (r : result A) (k : A -> result B) : result B :=
  match r with
  | Ok a => k a
  | Raise e => Raise e
  end.

Notation "x <- r ;; k" := (bind r (fun x => k))
  (at level 61, r at next level, right associativity).

(** [try: body except Exception: handler]. *)
Definition try_except {A : Type} (body : result A) (handler : PyExn -> result A)
  : result A :=
  match body with
  | Ok a => Ok a
  | Raise e => handler e
  end.

(** ** Python values that cross the boundary untyped

    The resume value handed to [human_review] and the records kept in the
    memory store are arbitrary JSON-like values.  A dict keeps its insertion
    order, which is what [iter(d.values())] walks. *)

Inductive PyVal : Type :=
| PyNone
| PyBool (b : bool)
| PyInt (z : Z)
| PyStr (s : string)
| PyList (items : list PyVal)
| PyDict (entries : list (string * PyVal)).

(** Truth value testing, as [if v:] and [v and ...] use it. *)
Definition truthy (v : PyVal) : bool :=
  match v with
  | PyNone => false
  | PyBool b => b
  | PyInt z => negb (z =? 0)
  | PyStr s => negb (s =? "")%string
  | PyList items => match items with [] => false | _ => true end
  | PyDict entries => match entries with [] => false | _ => true end
  end.

(** ** Strings *)

Definition newline : string := String (ascii_of_nat 10) "".

Definition quoted (s : string) : string :=
  String (ascii_of_nat 34) s ++ String (ascii_of_nat 34) "".

(** [str(n)] for an integer. *)
Definition str_of_Z (z : Z) : string := NilZero.string_of_int (Z.to_int z).

Definition len {A : Type} (l : list A) : Z := Z.of_nat (List.length l).

(** [sep.join(parts)]. *)
Fixpoint join (sep : string) (parts : list string) : string :=
  match parts with
  | [] => ""
  | [p] => p
  | p :: rest => p ++ sep ++ join sep rest
  end.

(** A byte of the UTF-8 encoding of the text. *)
Definition byte (c : ascii) : nat := nat_of_ascii c.

(** [str.lower] on one ASCII character. *)
Definition lower_ascii (c : ascii) : ascii :=
  let n := nat_of_ascii c in
  if andb (Nat.leb 65 n) (Nat.leb n 90) then ascii_of_nat (n + 32) else c.

(** The two characters outside ASCII whose lower case holds an ASCII
    letter: U+0130 (bytes C4 B0), which becomes ["i"] followed by U+0307
    (CC 87), and the Kelvin sign U+212A (E2 84 AA), which becomes ["k"]. *)
Definition is_dotted_capital_i (a b : ascii) : bool :=
  (byte a =? 196)%nat && (byte b =? 176)%nat.

Definition is_kelvin_sign (a b c : ascii) : bool :=
  (byte a =? 226)%nat && (byte b =? 132)%nat && (byte c =? 170)%nat.

Definition dotted_i : string :=
  String "i" (String (ascii_of_nat 204) (String (ascii_of_nat 135) "")).

(** [s.lower()], as far as a comparison with ASCII text can tell: an ASCII
    letter, U+0130 and U+212A get their lower case; any other character
    outside ASCII has a lower case outside ASCII and is left as it is.  So
    for an ASCII [w], [lower s = w] is [s.lower() == w], and [w] occurs in
    [lower s] exactly when [w in s.lower()]. *)
Fixpoint lower (s : string) : string :=
  match s with
  | EmptyString => EmptyString
  | String a rest =>
      match rest with
      | String b rest2 =>
          if is_dotted_capital_i a b then dotted_i ++ lower rest2
          else
            match rest2 with
            | String c rest3 =>
                if is_kelvin_sign a b c then String "k" (lower rest3)
                else String (lower_ascii a) (lower rest)
            | EmptyString => String (lower_ascii a) (lower rest)
            end
      | EmptyString => String (lower_ascii a) (lower rest)
      end
  end.

(** The one-byte characters for which [str.isspace] holds. *)
Definition is_space (c : ascii) : bool :=
  let n := nat_of_ascii c in
  orb (andb (Nat.leb 9 n) (Nat.leb n 13))
      (andb (Nat.leb 28 n) (Nat.leb n 32)).

(** The two-byte characters for which [str.isspace] holds: U+0085 (C2 85)
    and U+00A0 (C2 A0). *)
Definition is_space2 (a b : ascii) : bool :=
  (byte a =? 194)%nat && ((byte b =? 133)%nat || (byte b =? 160)%nat).

(** The three-byte ones: U+1680 (E1 9A 80), U+2000 to U+200A (E2 80 80 to
    E2 80 8A), U+2028, U+2029, U+202F (E2 80 A8, A9, AF), U+205F (E2 81 9F)
    and U+3000 (E3 80 80). *)
Definition is_space3 (a b c : ascii) : bool :=
  (byte a =? 225)%nat && (byte b =? 154)%nat && (byte c =? 128)%nat
  || (byte a =? 226)%nat && (byte b =? 128)%nat
     && ((128 <=? byte c)%nat && (byte c <=? 138)%nat
         || (byte c =? 168)%nat || (byte c =? 169)%nat || (byte c =? 175)%nat)
  || (byte a =? 226)%nat && (byte b =? 129)%nat && (byte c =? 159)%nat
  || (byte a =? 227)%nat && (byte b =? 128)%nat && (byte c =? 128)%nat.

(** The text without the white-space characters at its head.  With
    [backwards] the text is read from its last byte, as [rstrip] does. *)
Fixpoint strip_head (backwards : bool) (s : string) : string :=
  match s with
  | EmptyString => EmptyString
  | String a rest =>
      if is_space a then strip_head backwards rest
      else
        match rest with
        | String b rest2 =>
            if (if backwards then is_space2 b a else is_space2 a b)
            then strip_head backwards rest2
            else
              match rest2 with
              | String c rest3 =>
                  if (if backwards then is_space3 c b a else is_space3 a b c)
                  then strip_head backwards rest3
                  else s
              | EmptyString => s
              end
        | EmptyString => s
        end
  end.

(** [s.lstrip()]. *)
Definition lstrip (s : string) : string := strip_head false s.

Fixpoint rev_string (s : string) (acc : string) : string :=
  match s with
  | EmptyString => acc
  | String c rest => rev_string rest (String c acc)
  end.

(** [s.rstrip()]. *)
Definition rstrip (s : string) : string :=
  rev_string (strip_head true (rev_string s "")) "".

(** [s.strip()]. *)
Definition strip (s : string) : string := rstrip (lstrip s).

(** A byte that continues a character (10xxxxxx). *)
Definition is_continuation (c : ascii) : bool :=
  (128 <=? byte c)%nat && (byte c <? 192)%nat.

(** [len(s)] for a text: the number of its characters. *)
Fixpoint str_len (s : string) : nat :=
  match s with
  | EmptyString => O
  | String c rest => if is_continuation c then str_len rest else S (str_len rest)
  end.

(** [s[:n]] for a text: its first [n] characters. *)
Fixpoint str_take (n : nat) (s : string) : string :=
  match s with
  | EmptyString => EmptyString
  | String c rest =>
      if is_continuation c then String c (str_take n rest)
      else match n with
           | O => EmptyString
           | S n' => String c (str_take n' rest)
           end
  end.

(** [s.split("\n")]: the pieces between line feeds, empty ones included. *)
Fixpoint split_lines_aux (s : string) (cur : string) : list string :=
  match s with
  | EmptyString => [rev_string cur ""]
  | String c rest =>
      if Ascii.eqb c (ascii_of_nat 10)
      then rev_string cur "" :: split_lines_aux rest ""
      else split_lines_aux rest (String c cur)
  end.

Definition split_lines (s : string) : list string := split_lines_aux s "".

(** [s.startswith(p)]. *)
Definition startswith (s p : string) : bool := String.prefix p s.

(** ** Sequences *)

(** [l[i]] with Python's negative indices. *)
Definition py_index {A : Type} (l : list A) (i : Z) : result A :=
  let j := if i <? 0 then i + len l else i in
  if j <? 0 then Raise IndexError
  else match nth_error l (Z.to_nat j) with
       | Some x => Ok x
       | None => Raise IndexError
       end.

(** [l[:-1]]. *)
Definition all_but_last {A : Type} (l : list A) : list A := removelast l.

(** [l[:n]] for a natural [n]. *)
Definition take {A : Type} (n : nat) (l : list A) : list A := firstn n l.

(** [enumerate(l, start)]. *)
Fixpoint enumerate {A : Type} (start : Z) (l : list A) : list (Z * A) :=
  match l with
  | [] => []
  | x :: rest => (start, x) :: enumerate (start + 1) rest
  end.

(** ** Messages and the workflow state ([state.py]) *)

Inductive MessageType : Type := Human | AI | Tool.

(** A conversation message.  [msg_id] is the identifier the [add_messages]
    reducer merges by; a message built by a node has none yet. *)
Record Message : Type := mkMessage {
  msg_type : MessageType;
  content : string;
  tool_call_id : option string;
  msg_id : option nat
}.

Definition HumanMessage (c : string) : Message := mkMessage Human c None None.
Definition AIMessage (c : string) : Message := mkMessage AI c None None.
Definition ToolMessage (c call_id : string) : Message :=
  mkMessage Tool c (Some call_id) None.

(** One entry of [search_results]: [{"query": ..., "results": ...}]. *)
Record SearchResult : Type := mkSearchResult {
  query : string;
  results : string
}.

(** The [AgentState] dict.  [user_feedback] is declared [str], but
    [human_review] stores whatever the resume value holds. *)
Record AgentState : Type := mkState {
  messages : option (list Message);
  search_count : option Z;
  original_query : option string;
  planned_queries : option (list string);
  search_results : option (list SearchResult);
  needs_search : option bool;
  user_feedback : option PyVal
}.

(** [state.get(key, default)]. *)
Definition dict_get {A : Type} (default : A) (field : option A) : A :=
  match field with
  | Some v => v
  | None => default
  end.

(** [state[key]]. *)
Definition get_item {A : Type} (key : string) (field : option A) : result A :=
  match field with
  | Some v => Ok v
  | None => Raise (KeyError key)
  end.

(** The empty dict, and keyword arguments added to it one at a time. *)
Definition no_updates : AgentState :=
  mkState None None None None None None None.

Definition set_messages (v : list Message) (u : AgentState) : AgentState :=
  mkState (Some v) (search_count u) (original_query u) (planned_queries u)
          (search_results u) (needs_search u) (user_feedback u).
Definition set_search_count (v : Z) (u : AgentState) : AgentState :=
  mkState (messages u) (Some v) (original_query u) (planned_queries u)
          (search_results u) (needs_search u) (user_feedback u).
Definition set_original_query (v : string) (u : AgentState) : AgentState :=
  mkState (messages u) (search_count u) (Some v) (planned_queries u)
          (search_results u) (needs_search u) (user_feedback u).
Definition set_planned_queries (v : list string) (u : AgentState) : AgentState :=
  mkState (messages u) (search_count u) (original_query u) (Some v)
          (search_results u) (needs_search u) (user_feedback u).
Definition set_search_results (v : list SearchResult) (u : AgentState)
  : AgentState :=
  mkState (messages u) (search_count u) (original_query u) (planned_queries u)
          (Some v) (needs_search u) (user_feedback u).
Definition set_needs_search (v : bool) (u : AgentState) : AgentState :=
  mkState (messages u) (search_count u) (original_query u) (planned_queries u)
          (search_results u) (Some v) (user_feedback u).
Definition set_user_feedback (v : PyVal) (u : AgentState) : AgentState :=
  mkState (messages u) (search_count u) (original_query u) (planned_queries u)
          (search_results u) (needs_search u) (Some v).

(** A key of [updates] wins over the entry built from the state. *)
Definition overridden {A : Type} (update : option A) (base : A) : option A :=
  match update with
  | Some v => Some v
  | None => Some base
  end.

(** [create_state_update(state, **updates)]: the seven keys read from the
    state with their defaults, then [**updates] on top. *)
Definition create_state_update (state updates : AgentState) : AgentState :=
  {| messages := overridden (messages updates) (dict_get [] (messages state));
     search_count :=
       overridden (search_count updates) (dict_get 0 (search_count state));
     original_query :=
       overridden (original_query updates) (dict_get "" (original_query state));
     planned_queries :=
       overridden (planned_queries updates)
                  (dict_get [] (planned_queries state));
     search_results :=
       overridden (search_results updates)
                  (dict_get [] (search_results state));
     needs_search :=
       overridden (needs_search updates) (dict_get false (needs_search state));
     user_feedback :=
       overridden (user_feedback updates)
                  (dict_get (PyStr "") (user_feedback state)) |}.

(** ** Graph vocabulary *)

Inductive Node : Type :=
| classification_node
| direct_answer_node
| planning_node
| memory_check
| human_review_node
| process_feedback
| search
| pre_summarize
| summarize.

(** What a router returns: a node name or ["__end__"]. *)
Inductive Next : Type :=
| Goto (n : Node)
| END.

(** [Command(goto=..., update=...)]. *)
Record Command : Type := mkCommand {
  goto : Node;
  update : AgentState
}.

(** ** Conversation history handed to the chat model *)

(** Human and assistant messages are kept, except assistant messages that
    start with "Classification:"; tool messages are dropped. *)
Definition in_history (m : Message) : bool :=
  match msg_type m with
  | Human => true
  | AI => negb (startswith (content m) "Classification:")
  | Tool => false
  end.

Definition history_part (m : Message) : list string :=
  match msg_type m with
  | Human => ["User: " ++ content m]
  | AI => ["Assistant: " ++ content m]
  | Tool => []
  end.

Definition format_history (msgs : list Message) : string :=
  match filter in_history msgs with
  | [] => "No previous conversation history."
  | conversation_messages =>
      join newline (flat_map history_part conversation_messages)
  end.

(** [str(last_message.content) if isinstance(last_message, HumanMessage)
    else ""]. *)
Definition human_content (m : Message) : string :=
  match msg_type m with
  | Human => content m
  | _ => ""
  end.

(** Text accumulated from a stream: chunks with empty content are skipped. *)
Definition collect_stream (chunks : list string) : string :=
  fold_left (fun acc c => if (c =? "")%string then acc else acc ++ c) chunks "".

(** ** The episodic advisor ([memory.py]) *)

Inductive Decision : Type := approve | skip | review.

Definition decision_text (d : Decision) : string :=
  match d with
  | approve => "approve"
  | skip => "skip"
  | review => "review"
  end.

(** The chat model's structured answer. *)
Record EpisodicDecision : Type := mkEpisodicDecision {
  decision : Decision;
  ed_reasoning : string;
  ed_confidence : float
}.

Record EpisodicReviewMemory : Type := mkEpisodicReviewMemory {
  erm_original_query : string;
  erm_planned_searches : list string;
  erm_user_decision : string;
  erm_user_feedback_text : option string;
  erm_decision_context : string;
  erm_query_complexity : string;
  erm_search_quality : string;
  erm_timestamp : string
}.

(** [EpisodicReviewMemory.get_searchable_content]. *)
Definition get_searchable_content (self : EpisodicReviewMemory) : string :=
  "Query: " ++ erm_original_query self ++ newline
  ++ "Planned searches: " ++ join ", " (erm_planned_searches self) ++ newline
  ++ "Complexity: " ++ erm_query_complexity self
  ++ ", Search quality: " ++ erm_search_quality self ++ newline
  ++ "User decision: " ++ erm_user_decision self ++ newline
  ++ match erm_user_feedback_text self with
     | Some text =>
         if (text =? "")%string then ""
         else "User feedback: " ++ text ++ newline
     | None => ""
     end
  ++ "Context: " ++ erm_decision_context self.

(** *** Building an episode from a stored dict

    The constructor, called with the dict's entries as keyword arguments,
    checks the declared fields: the [str]
    fields take a string, [planned_searches] a list of strings, the
    [Literal] fields one of their listed strings, and [user_feedback_text]
    may be missing or [None]. *)

Fixpoint lookup (key : string) (entries : list (string * PyVal))
  : option PyVal :=
  match entries with
  | [] => None
  | (k, v) :: rest => if (k =? key)%string then Some v else lookup key rest
  end.

Definition str_field (key : string) (entries : list (string * PyVal))
  : result string :=
  match lookup key entries with
  | Some (PyStr s) => Ok s
  | _ => Raise ValidationError
  end.

Definition literal_field (key : string) (allowed : list string)
    (entries : list (string * PyVal)) : result string :=
  s <- str_field key entries ;;
  if existsb (String.eqb s) allowed then Ok s else Raise ValidationError.

Fixpoint str_items (items : list PyVal) : result (list string) :=
  match items with
  | [] => Ok []
  | PyStr s :: rest => tail <- str_items rest ;; Ok (s :: tail)
  | _ :: _ => Raise ValidationError
  end.

Definition str_list_field (key : string) (entries : list (string * PyVal))
  : result (list string) :=
  match lookup key entries with
  | Some (PyList items) => str_items items
  | _ => Raise ValidationError
  end.

Definition optional_str_field (key : string) (entries : list (string * PyVal))
  : result (option string) :=
  match lookup key entries with
  | None => Ok None
  | Some PyNone => Ok None
  | Some (PyStr s) => Ok (Some s)
  | Some _ => Raise ValidationError
  end.

Definition validate_episode (entries : list (string * PyVal))
  : result EpisodicReviewMemory :=
  original_query <- str_field "original_query" entries ;;
  planned_searches <- str_list_field "planned_searches" entries ;;
  user_decision <-
    literal_field "user_decision" ["approve"; "skip"; "feedback"] entries ;;
  user_feedback_text <- optional_str_field "user_feedback_text" entries ;;
  decision_context <- str_field "decision_context" entries ;;
  query_complexity <-
    literal_field "query_complexity" ["simple"; "moderate"; "complex"] entries ;;
  search_quality <-
    literal_field "search_quality"
      ["focused"; "broad"; "specific"; "comprehensive"] entries ;;
  timestamp <- str_field "timestamp" entries ;;
  Ok (mkEpisodicReviewMemory original_query planned_searches user_decision
        user_feedback_text decision_context query_complexity search_quality
        timestamp).

(** *** The manager *)

(** The part of a [RunnableConfig] the manager reads: the ["user_id"] under
    ["configurable"], and whether the dict has any other key. *)
Record RunnableConfig : Type := mkRunnableConfig {
  configurable : option (option string);
  other_keys : bool
}.

(** Truth value of a config: [None] and the empty dict are falsy. *)
Definition config_given (config : option RunnableConfig) : bool :=
  match config with
  | None => false
  | Some c =>
      match configurable c with
      | Some _ => true
      | None => other_keys c
      end
  end.

Definition user_id_of (config : option RunnableConfig) : string :=
  match config with
  | Some c =>
      if config_given config then
        match configurable c with
        | Some (Some uid) => uid
        | _ => "default_user"
        end
      else "default_user"
  | None => "default_user"
  end.

(** One hit of [store.search]: [value] is [None] when the object has no
    such attribute. *)
Record StoreItem : Type := mkStoreItem {
  value : option PyVal
}.

(** [store.search(namespace=..., query=..., limit=...)]. *)
Record Store : Type := mkStore {
  store_search : list string -> string -> Z -> result (list StoreItem)
}.

(** The slots of [EPISODIC_DECISION_TEMPLATE]. *)
Record DecisionPrompt : Type := mkDecisionPrompt {
  dc_current_query : string;
  dc_planned_searches : string;
  dc_episodes_context : string
}.

(** The manager after [__init__]: [episode_manager] and [llm] stay [None]
    when [langmem] cannot be imported. *)
Record EpisodicMemoryManager : Type := mkManager {
  config : option RunnableConfig;
  episode_manager : option unit;
  llm : option (DecisionPrompt -> result EpisodicDecision)
}.

Definition is_enabled (self : EpisodicMemoryManager) : bool :=
  match episode_manager self, llm self with
  | Some _, Some _ => true
  | _, _ => false
  end.

(** The episode a search hit yields, if it is a well-formed one. *)
Definition episode_of (item : StoreItem) : list EpisodicReviewMemory :=
  match value item with
  | Some (PyDict entries) =>
      match validate_episode entries with
      | Ok episode => [episode]
      | Raise _ => []
      end
  | _ => []
  end.

(** [_find_similar_episodes]; [get_store] is langgraph's accessor of the
    store of the current run. *)
Definition find_similar_episodes (get_store : result (option Store))
    (self : EpisodicMemoryManager) (current_query : string)
    (planned_searches : list string) : result (list EpisodicReviewMemory) :=
  try_except
    (store <- (if config_given (config self) then get_store else Ok None) ;;
     match store with
     | None => Ok []
     | Some store =>
         let user_id := user_id_of (config self) in
         let search_content :=
           "Query: " ++ current_query ++ newline ++ "Planned searches: "
           ++ join ", " planned_searches in
         hits <- store_search store ["users"; user_id; "episodic_reviews"]
                   search_content 5 ;;
         Ok (flat_map episode_of hits)
     end)
    (fun _ => Ok []).

(** The double that the literal [0.8] denotes. *)
Definition confidence_threshold : float := 0x1.999999999999ap-1%float.

(** [confidence >= 0.8 and decision in ["approve", "skip"]]. *)
Definition confident (r : EpisodicDecision) : bool :=
  PrimFloat.leb confidence_threshold (ed_confidence r)
  && match decision r with
     | approve | skip => true
     | review => false
     end.

Definition episodes_context (similar_episodes : list EpisodicReviewMemory)
  : string :=
  join (newline ++ newline)
    (map (fun '(i, episode) =>
            "Episode " ++ str_of_Z (i + 1) ++ ":" ++ newline
            ++ get_searchable_content episode)
         (enumerate 0 similar_episodes)).

(** [_llm_decide_with_episodes]. *)
Definition llm_decide_with_episodes (self : EpisodicMemoryManager)
    (current_query : string) (planned_searches : list string)
    (similar_episodes : list EpisodicReviewMemory) : result (option Decision) :=
  let prompt :=
    mkDecisionPrompt current_query (join ", " planned_searches)
      (episodes_context similar_episodes) in
  try_except
    (invoke <- match llm self with
               | Some f => Ok f
               | None => Raise (AttributeError "invoke")
               end ;;
     decision_result <- invoke prompt ;;
     if confident decision_result
     then Ok (Some (decision decision_result))
     else Ok None)
    (fun _ => Ok None).

(** [should_auto_decide]. *)
Definition should_auto_decide (get_store : result (option Store))
    (self : EpisodicMemoryManager) (current_query : string)
    (planned_searches : list string) : result (option Decision) :=
  if negb (is_enabled self) then Ok None
  else
    try_except
      (similar_episodes <-
         find_similar_episodes get_store self current_query planned_searches ;;
       if len similar_episodes <? 3 then Ok None
       else llm_decide_with_episodes self current_query planned_searches
              similar_episodes)
      (fun _ => Ok None).

(** ** Steps ([agent.py]) *)

Inductive ClassLabel : Type := NEEDS_SEARCH | DIRECT_ANSWER.

Record QueryClassification : Type := mkQueryClassification {
  classification_label : ClassLabel;
  reasoning : string;
  confidence : float
}.

(** The two slots of [QUERY_CLASSIFICATION_TEMPLATE]; the user message
    repeats [cp_current_query]. *)
Record ClassificationPrompt : Type := mkClassificationPrompt {
  cp_current_query : string;
  cp_conversation_history : string
}.

(** [classification(state)]. *)
Definition classification
    (llm : ClassificationPrompt -> result QueryClassification)
    (state : AgentState) : result Command :=
  msgs <- get_item "messages" (messages state) ;;
  last_message <- py_index msgs (-1) ;;
  let current_query := human_content last_message in
  let conversation_history := format_history (all_but_last msgs) in
  classification_result <-
    llm (mkClassificationPrompt current_query conversation_history) ;;
  match classification_label classification_result with
  | NEEDS_SEARCH =>
      Ok (mkCommand planning_node
            (set_original_query current_query
              (set_planned_queries []
                (set_search_results []
                  (set_search_count 0
                    (set_needs_search true no_updates))))))
  | DIRECT_ANSWER =>
      Ok (mkCommand direct_answer_node
            (set_original_query current_query
              (set_needs_search false no_updates)))
  end.

(** The slots of [DIRECT_ANSWER_TEMPLATE]. *)
Record DirectAnswerPrompt : Type := mkDirectAnswerPrompt {
  dp_original_query : string;
  dp_conversation_history : string
}.

(** [direct_answer(state)]. *)
Definition direct_answer
    (astream : DirectAnswerPrompt -> result (list string))
    (state : AgentState) : result AgentState :=
  original_query <- get_item "original_query" (original_query state) ;;
  msgs <- get_item "messages" (messages state) ;;
  let conversation_history := format_history msgs in
  chunks <- astream (mkDirectAnswerPrompt original_query conversation_history) ;;
  let response_content := collect_stream chunks in
  Ok (create_state_update state
        (set_messages [AIMessage response_content]
          (set_original_query original_query no_updates))).

(** The slots of [QUERY_PLANNING_TEMPLATE], and the feedback paragraph
    appended to it when [user_feedback] is truthy. *)
Record PlanningPrompt : Type := mkPlanningPrompt {
  pp_current_query : string;
  pp_conversation_history : string;
  pp_user_feedback : option PyVal
}.

(** [[q.strip() for q in response.strip().split("\n") if q.strip()][:3]]. *)
Definition parse_queries (response_content : string) : list string :=
  let kept :=
    filter (fun q => negb (strip q =? "")%string)
           (split_lines (strip response_content)) in
  take 3 (map strip kept).

(** The prompt [planning] builds from the state. *)
Definition planning_prompt (state : AgentState) : result PlanningPrompt :=
  msgs <- get_item "messages" (messages state) ;;
  last_message <- py_index msgs (-1) ;;
  let current_query := human_content last_message in
  let conversation_history := format_history (all_but_last msgs) in
  let user_feedback := dict_get (PyStr "") (user_feedback state) in
  Ok (mkPlanningPrompt current_query conversation_history
        (if truthy user_feedback then Some user_feedback else None)).

(** [planning(state)]. *)
Definition planning
    (astream : PlanningPrompt -> result (list string))
    (state : AgentState) : result AgentState :=
  planning_message <- planning_prompt state ;;
  let current_query := pp_current_query planning_message in
  chunks <- astream planning_message ;;
  let response_content := collect_stream chunks in
  let queries := parse_queries response_content in
  Ok (create_state_update state
        (set_messages
           [AIMessage ("Planned " ++ str_of_Z (len queries) ++ " search queries")]
          (set_original_query current_query
            (set_planned_queries queries
              (set_search_results []
                (set_search_count 0
                  (set_user_feedback (PyStr "") no_updates))))))).

(** The numbered list shown to the user. *)
Definition numbered_queries (queries : list string) : string :=
  join newline
    (map (fun '(i, q) => str_of_Z (i + 1) ++ ". " ++ q) (enumerate 0 queries)).

(** The text [human_review] passes to [interrupt]. *)
Definition review_message (state : AgentState) : string :=
  let queries := dict_get [] (planned_queries state) in
  let current_query := dict_get "" (original_query state) in
  "I've planned the following search queries for: " ++ quoted current_query
    ++ newline ++ newline
    ++ "Planned queries:" ++ newline
    ++ numbered_queries queries ++ newline ++ newline
    ++ "Options:" ++ newline
    ++ "- Type " ++ quoted "approve" ++ " to proceed with these queries"
    ++ newline
    ++ "- Provide feedback to improve the queries (e.g., "
    ++ quoted "focus more on recent developments" ++ " or "
    ++ quoted "add query about pricing" ++ ")" ++ newline
    ++ "- Type " ++ quoted "skip" ++ " to answer without searching".

(** [next(iter(d.values()))]. *)
Definition first_value (entries : list (string * PyVal)) : result PyVal :=
  match entries with
  | [] => Raise StopIteration
  | (_, v) :: _ => Ok v
  end.

(** [human_review(state)].  [interrupt] is langgraph's: it raises
    [GraphInterrupt] with the message while the run waits for the user,
    and returns the resume value once the run has been resumed. *)
Definition human_review (interrupt : string -> result PyVal)
    (state : AgentState) : result AgentState :=
  user_feedback_raw <- interrupt (review_message state) ;;
  user_feedback <-
    match user_feedback_raw with
    | PyDict entries => first_value entries
    | _ => Ok user_feedback_raw
    end ;;
  Ok (create_state_update state (set_user_feedback user_feedback no_updates)).

(** The two behaviours of [interrupt]. *)
Definition waiting_for_review (payload : string) : result PyVal :=
  Raise (GraphInterrupt payload).

Definition resumed_with (resume_value : PyVal) (payload : string)
  : result PyVal :=
  Ok resume_value.

(** [v.lower()]: only a [str] has the method. *)
Definition py_lower (v : PyVal) : result string :=
  match v with
  | PyStr s => Ok (lower s)
  | _ => Raise (AttributeError "lower")
  end.

(** [v and test] in a condition: a falsy [v] short-circuits. *)
Definition and_then (v : PyVal) (test : result bool) : result bool :=
  if truthy v then test else Ok false.

(** [v and v.lower() == target]. *)
Definition lower_equals (v : PyVal) (target : string) : result bool :=
  and_then v (lowered <- py_lower v ;; Ok (lowered =? target)%string).

(** [str(v)] inside an f-string.  [process_feedback_node] formats a value
    only after [lower_equals] went through on it or a literal replaced it,
    so containers, whose [repr] is not modelled, never get here. *)
Definition format_value (v : PyVal) : string :=
  match v with
  | PyNone => "None"
  | PyBool true => "True"
  | PyBool false => "False"
  | PyInt z => str_of_Z z
  | PyStr s => s
  | PyList _ => ""
  | PyDict _ => ""
  end.

(** The arguments of one [store_episode] call. *)
Record EpisodeCall : Type := mkEpisodeCall {
  ec_original_query : string;
  ec_planned_searches : list string;
  ec_user_decision : string;
  ec_user_feedback_text : option PyVal
}.

(** The action [process_feedback_node] records for the user's input. *)
Definition user_action (user_input : PyVal) : result string :=
  is_approve <- lower_equals user_input "approve" ;;
  if is_approve then Ok "approve"
  else
    is_skip <- lower_equals user_input "skip" ;;
    if is_skip then Ok "skip" else Ok "feedback".

(** [process_feedback_node(state, config)], with the manager its first line
    builds from [config]; next to the update the function yields the
    episode it asked the manager to store, if any. *)
Definition process_feedback_node (memory_manager : EpisodicMemoryManager)
    (state : AgentState)
  : result (AgentState * option EpisodeCall) :=
  let user_input := dict_get (PyStr "") (user_feedback state) in
  let current_query := dict_get "" (original_query state) in
  let planned := dict_get [] (planned_queries state) in
  stored <-
    (if is_enabled memory_manager && negb (current_query =? "")%string
        && negb (len planned =? 0)
     then
       action <- user_action user_input ;;
       Ok (Some (mkEpisodeCall current_query planned action
                   (if (action =? "feedback")%string
                    then Some user_input else None)))
     else Ok None) ;;
  is_approve <- lower_equals user_input "approve" ;;
  if is_approve then Ok (create_state_update state no_updates, stored)
  else
    is_skip <- lower_equals user_input "skip" ;;
    if is_skip then Ok (create_state_update state no_updates, stored)
    else
      let feedback :=
        if truthy user_input then user_input
        else PyStr "Please revise the queries" in
      msgs <- get_item "messages" (messages state) ;;
      Ok (create_state_update state
            (set_messages
               (msgs ++ [HumanMessage ("User feedback on planned queries: "
                                       ++ format_value feedback)])
              (set_user_feedback feedback no_updates)),
          stored).

(** [search_execution_node(state)].  The source appends to the list it read
    from the state and passes that same list on; the returned dict sees the
    old entries followed by the new one. *)
Definition search_execution_node (tavily_search : string -> result string)
    (state : AgentState) : result AgentState :=
  let planned := dict_get [] (planned_queries state) in
  let count := dict_get 0 (search_count state) in
  let found := dict_get [] (search_results state) in
  if count >=? len planned then Ok state
  else
    current_query <- py_index planned count ;;
    results <- tavily_search current_query ;;
    let found := (found ++ [mkSearchResult current_query results])%list in
    Ok (create_state_update state
          (set_messages [ToolMessage results ("search_" ++ str_of_Z count)]
            (set_search_count (count + 1)
              (set_search_results found no_updates)))).

(** [pre_summarize_node(state)]. *)
Definition pre_summarize_node (state : AgentState) : AgentState :=
  create_state_update state no_updates.

(** The slots of [SUMMARIZATION_TEMPLATE]. *)
Record SummaryPrompt : Type := mkSummaryPrompt {
  sp_original_query : string;
  sp_combined_results : string
}.

Definition combine_results (found : list SearchResult) : string :=
  fold_left
    (fun acc '(i, r) =>
       acc ++ newline ++ "--- Search " ++ str_of_Z i ++ ": " ++ query r
           ++ " ---" ++ newline ++ results r ++ newline)
    (enumerate 1 found) "".

(** [summarization_node(state)]; a failing stream is logged and re-raised. *)
Definition summarization_node
    (astream : SummaryPrompt -> result (list string))
    (state : AgentState) : result AgentState :=
  let original_query := dict_get "" (original_query state) in
  let found := dict_get [] (search_results state) in
  let summary_prompt := mkSummaryPrompt original_query (combine_results found) in
  chunks <- try_except (astream summary_prompt) (fun e => Raise e) ;;
  let response_content := collect_stream chunks in
  Ok (create_state_update state
        (set_messages [AIMessage response_content] no_updates)).

(** [memory_check_node(state, config)], with the manager its first lines
    build from [config]. *)
Definition memory_check_node (get_store : result (option Store))
    (memory_manager : EpisodicMemoryManager) (state : AgentState)
  : result AgentState :=
  let current_query := dict_get "" (original_query state) in
  let planned_searches := dict_get [] (planned_queries state) in
  if is_enabled memory_manager && negb (current_query =? "")%string
     && negb (len planned_searches =? 0)
  then
    auto_decision <-
      should_auto_decide get_store memory_manager current_query
        planned_searches ;;
    match auto_decision with
    | Some d =>
        Ok (create_state_update state
              (set_user_feedback (PyStr (decision_text d)) no_updates))
    | None => Ok (create_state_update state no_updates)
    end
  else Ok (create_state_update state no_updates).

(** ** Routers ([agent.py]) *)

(** [v in ["approve", "skip"]]. *)
Definition is_approve_or_skip (v : PyVal) : bool :=
  match v with
  | PyStr s => (s =? "approve")%string || (s =? "skip")%string
  | _ => false
  end.

Definition after_memory_check (state : AgentState) : Next :=
  let user_feedback := dict_get (PyStr "") (user_feedback state) in
  if is_approve_or_skip user_feedback then Goto process_feedback
  else Goto human_review_node.

Definition after_planning (state : AgentState) : Next := Goto memory_check.

Definition after_human_review (state : AgentState) : Next :=
  Goto process_feedback.

(** [after_process_feedback(state)]. *)
Definition after_process_feedback (state : AgentState) : result Next :=
  let user_feedback := dict_get (PyStr "") (user_feedback state) in
  wants_revision <-
    and_then user_feedback
      (lowered <- py_lower user_feedback ;;
       Ok (negb (existsb (String.eqb lowered) ["approve"; "skip"]))) ;;
  if wants_revision then Ok (Goto planning_node)
  else
    wants_skip <- lower_equals user_feedback "skip" ;;
    if wants_skip then Ok (Goto direct_answer_node)
    else Ok (Goto search).

(** [after_search(state)]. *)
Definition after_search (state : AgentState) : Next :=
  let planned := dict_get [] (planned_queries state) in
  let count := dict_get 0 (search_count state) in
  if count <? len planned then Goto search
  else if (count >=? len planned) && (count >? 0) then Goto pre_summarize
  else END.

Definition after_pre_summarize (state : AgentState) : Next := Goto summarize.

(** ** The graph engine

    [create_agent] wires the nodes and routers into a langgraph
    [StateGraph].  The engine itself is library code and not part of the
    sources; this section models what the workflow relies on: after a step
    the stored state is the previous one with the step's update applied. *)

Definition with_id (i : nat) (m : Message) : Message :=
  mkMessage (msg_type m) (content m) (tool_call_id m) (Some i).

Definition has_id (i : nat) (m : Message) : bool :=
  match msg_id m with
  | Some j => Nat.eqb i j
  | None => false
  end.

Fixpoint max_id (ms : list Message) : nat :=
  match ms with
  | [] => O
  | m :: rest =>
      match msg_id m with
      | Some i => Nat.max i (max_id rest)
      | None => max_id rest
      end
  end.

(** Messages without an identifier get a new one ([fresh] onwards). *)
Fixpoint assign_ids (fresh : nat) (ms : list Message) : nat * list Message :=
  match ms with
  | [] => (fresh, [])
  | m :: rest =>
      match msg_id m with
      | Some _ =>
          let '(next, rest') := assign_ids fresh rest in (next, m :: rest')
      | None =>
          let '(next, rest') := assign_ids (S fresh) rest in
          (next, with_id fresh m :: rest')
      end
  end.

(** The list with the last message of identifier [i] replaced by [m], if
    there is one. *)
Fixpoint replace_by_id (i : nat) (m : Message) (merged : list Message)
  : option (list Message) :=
  match merged with
  | [] => None
  | x :: rest =>
      match replace_by_id i m rest with
      | Some rest' => Some (x :: rest')
      | None => if has_id i x then Some (m :: rest) else None
      end
  end.

Definition merge_message (merged : list Message) (m : Message)
  : list Message :=
  match msg_id m with
  | Some i =>
      match replace_by_id i m merged with
      | Some merged' => merged'
      | None => (merged ++ [m])%list
      end
  | None => (merged ++ [m])%list
  end.

(** Modelled from the spec: the reducer [add_messages] that [state.py]
    names for ["messages"] (langgraph's, not in the sources).  The turns
    are append-only: a message of [incoming] whose identifier is already in
    the list takes that place, any other is appended.  Natural numbers
    stand for the identifiers; a new one is above every identifier of
    either list. *)
Definition add_messages (existing incoming : list Message) : list Message :=
  let fresh := S (Nat.max (max_id existing) (max_id incoming)) in
  let '(fresh, existing) := assign_ids fresh existing in
  let '(_, incoming) := assign_ids fresh incoming in
  fold_left merge_message incoming existing.

Definition written {A : Type} (update current : option A) : option A :=
  match update with
  | Some v => Some v
  | None => current
  end.

(** Modelled from the spec: the Workflow Engine's state after a step
    (langgraph's, not in the sources).  A key the update names is
    overwritten, except ["messages"], which goes through its reducer; a key
    the update leaves out keeps its stored value. *)
Definition apply_update (state update : AgentState) : AgentState :=
  {| messages :=
       match messages update with
       | Some incoming =>
           Some (add_messages (dict_get [] (messages state)) incoming)
       | None => messages state
       end;
     search_count := written (search_count update) (search_count state);
     original_query := written (original_query update) (original_query state);
     planned_queries :=
       written (planned_queries update) (planned_queries state);
     search_results := written (search_results update) (search_results state);
     needs_search := written (needs_search update) (needs_search state);
     user_feedback := written (user_feedback update) (user_feedback state) |}.

(** Modelled from the spec: how the Workflow Engine starts a run, from
    the reducer's empty list for ["messages"] with the caller's input
    applied. *)
Definition start (input : AgentState) : AgentState :=
  apply_update (set_messages [] no_updates) input.

(** What the outside world answers during one step. *)
Record Services : Type := mkServices {
  classify_llm : ClassificationPrompt -> result QueryClassification;
  direct_answer_stream : DirectAnswerPrompt -> result (list string);
  planning_stream : PlanningPrompt -> result (list string);
  summary_stream : SummaryPrompt -> result (list string);
  tavily_search : string -> result string;
  get_store : result (option Store);
  memory_manager : EpisodicMemoryManager;
  interrupt : string -> result PyVal
}.

(** One node's update and, for [classification], its own routing. *)
Definition run_node (env : Services) (n : Node) (state : AgentState)
  : result (AgentState * option Node) :=
  match n with
  | classification_node =>
      c <- classification (classify_llm env) state ;;
      Ok (update c, Some (goto c))
  | direct_answer_node =>
      u <- direct_answer (direct_answer_stream env) state ;; Ok (u, None)
  | planning_node =>
      u <- planning (planning_stream env) state ;; Ok (u, None)
  | memory_check =>
      u <- memory_check_node (get_store env) (memory_manager env) state ;;
      Ok (u, None)
  | human_review_node =>
      u <- human_review (interrupt env) state ;; Ok (u, None)
  | process_feedback =>
      r <- process_feedback_node (memory_manager env) state ;;
      Ok (fst r, None)
  | search =>
      u <- search_execution_node (tavily_search env) state ;; Ok (u, None)
  | pre_summarize => Ok (pre_summarize_node state, None)
  | summarize =>
      u <- summarization_node (summary_stream env) state ;; Ok (u, None)
  end.

(** The conditional edge of a node, evaluated on the merged state. *)
Definition route (n : Node) (state : AgentState) : result Next :=
  match n with
  | classification_node => Ok END
  | direct_answer_node => Ok END
  | planning_node => Ok (after_planning state)
  | memory_check => Ok (after_memory_check state)
  | human_review_node => Ok (after_human_review state)
  | process_feedback => after_process_feedback state
  | search => Ok (after_search state)
  | pre_summarize => Ok (after_pre_summarize state)
  | summarize => Ok END
  end.

(** One superstep: run the node, merge its update, pick the successor. *)
Definition step (env : Services) (n : Node) (state : AgentState)
  : result (AgentState * Next) :=
  r <- run_node env n state ;;
  let state' := apply_update state (fst r) in
  match snd r with
  | Some target => Ok (state', Goto target)
  | None => next <- route n state' ;; Ok (state', next)
  end.

(** Runs of the workflow: each step may meet different services. *)
Inductive reaches : Node * AgentState -> Node * AgentState -> Prop :=
| reaches_here : forall n state, reaches (n, state) (n, state)
| reaches_step : forall env n state state' n' final,
    step env n state = Ok (state', Goto n') ->
    reaches (n', state') final ->
    reaches (n, state) final.

(** [fuel] steps of a run under fixed services, stopping at [END]. *)
Fixpoint run (env : Services) (fuel : nat) (n : Node) (state : AgentState)
  : result (AgentState * Next) :=
  match fuel with
  | O => Ok (state, Goto n)
  | S fuel' =>
      r <- step env n state ;;
      match snd r with
      | END => Ok (fst r, END)
      | Goto n' => run env fuel' n' (fst r)
      end
  end.

(** ** The state invariants of the search phase *)

Definition count_of (state : AgentState) : Z :=
  dict_get 0 (search_count state).

Definition plan_of (state : AgentState) : list string :=
  dict_get [] (planned_queries state).

Definition found_of (state : AgentState) : list SearchResult :=
  dict_get [] (search_results state).

(** [len(search_results) == search_count]. *)
Definition results_match_count (state : AgentState) : Prop :=
  len (found_of state) = count_of state.

(** [search_count <= len(planned_queries)]. *)
Definition count_within_plan (state : AgentState) : Prop :=
  count_of state <= len (plan_of state).

(** The feedback [process_feedback_node] hands back to planning. *)
Definition feedback_text (text : string) : string :=
  if (text =? "")%string then "Please revise the queries" else text.

(** ** Complete dicts and carried keys *)








(** Every message has an identifier, and it is below [bound]. *)
Definition identified_below (bound : nat) (ms : list Message) : Prop :=
  Forall (fun m => exists i, msg_id m = Some i /\ (i < bound)%nat) ms.

(** The identifiers that are there are below [bound]. *)
Definition ids_below (bound : nat) (ms : list Message) : Prop :=
  Forall (fun m => forall i, msg_id m = Some i -> (i < bound)%nat) ms.

(** ** Recording episodes ([memory.py]) *)

(** [needle in haystack] for two strings. *)
Fixpoint contains (haystack needle : string) : bool :=
  match haystack with
  | EmptyString => (needle =? "")%string
  | String _ rest => String.prefix needle haystack || contains rest needle
  end.

(** [_assess_query_complexity]. *)
Definition assess_query_complexity (query : string) : string :=
  let query_lower := lower query in
  if existsb (contains query_lower) ["weather"; "time"; "what is"]
  then "simple"
  else if existsb (contains query_lower)
            ["compare"; "analyze"; "research"; "comprehensive"]
  then "complex"
  else "moderate".

(** [_assess_search_quality]. *)
Definition assess_search_quality (searches : list string) : string :=
  if len searches <=? 1 then "focused"
  else if len searches >=? 4 then "comprehensive"
  else if existsb (fun search => (50 <? str_len search)%nat) searches
  then "specific"
  else "broad".

(** [_generate_decision_context].  The feedback is formatted only when it
    is truthy; [store_episode] keeps the text only if the feedback then
    passes as a [str]. *)
Definition generate_decision_context (query : string) (searches : list string)
    (decision : string) (feedback : option PyVal) : string :=
  "User " ++ decision ++ "ed a " ++ assess_query_complexity query ++ " query "
  ++ "with " ++ str_of_Z (len searches) ++ " "
  ++ assess_search_quality searches ++ " searches. "
  ++ (match feedback with
      | Some v => if truthy v then "Feedback: " ++ format_value v ++ ". " else ""
      | None => ""
      end)
  ++ (if (decision =? "approve")%string
      then "Searches were well-aligned with user intent."
      else if (decision =? "skip")%string
      then "User preferred direct answer without search."
      else "User provided feedback to improve searches.").

(** The keyword arguments [store_episode] builds its episode from. *)
Definition episode_fields (original_query : string)
    (planned_searches : list string) (user_decision : string)
    (user_feedback_text : option PyVal) (timestamp : string)
  : list (string * PyVal) :=
  [("original_query", PyStr original_query);
   ("planned_searches", PyList (map PyStr planned_searches));
   ("user_decision", PyStr user_decision);
   ("user_feedback_text", dict_get PyNone user_feedback_text);
   ("decision_context",
    PyStr (generate_decision_context original_query planned_searches
             user_decision user_feedback_text));
   ("query_complexity", PyStr (assess_query_complexity original_query));
   ("search_quality", PyStr (assess_search_quality planned_searches));
   ("timestamp", PyStr timestamp)].

(** What a call of [store_episode] did: nothing, or handed the manager a
    message, or logged an error. *)
Inductive StoreOutcome : Type :=
| store_skipped
| store_sent (message : string)
| store_error (e : PyExn).

(** [store_episode].  [invoke] is the [invoke] of the langmem manager, given
    the content of the one message it is sent, and [now] the value of
    [datetime.now().isoformat()]. *)
Definition store_episode (invoke : string -> result unit) (now : string)
    (self : EpisodicMemoryManager) (original_query : string)
    (planned_searches : list string) (user_decision : string)
    (user_feedback_text : option PyVal) : result StoreOutcome :=
  if negb (is_enabled self) then Ok store_skipped
  else
    try_except
      (episode <-
         validate_episode
           (episode_fields original_query planned_searches user_decision
              user_feedback_text now) ;;
       let message :=
         "Store this review episode: " ++ get_searchable_content episode in
       match episode_manager self with
       | Some _ => _ <- invoke message ;; Ok (store_sent message)
       | None => Ok store_skipped
       end)
      (fun e => Ok (store_error e)).

(** The [store_episode] call that [process_feedback_node] makes. *)
Definition store_call (invoke : string -> result unit) (now : string)
    (self : EpisodicMemoryManager) (call : EpisodeCall) : result StoreOutcome :=
  store_episode invoke now self (ec_original_query call)
    (ec_planned_searches call) (ec_user_decision call)
    (ec_user_feedback_text call).

(** Whether a feedback passes as [Optional[str]]: [None] or a [str]. *)
Definition optional_text (feedback : option PyVal) : bool :=
  match feedback with
  | None => true
  | Some PyNone => true
  | Some (PyStr _) => true
  | Some _ => false
  end.

(** ** The search tool ([tools.py]) *)

(** One entry of the ["results"] list of Tavily's answer; a field is [None]
    when the entry has no such key.  The values are taken to be strings. *)
Record TavilyHit : Type := mkTavilyHit {
  hit_title : option string;
  hit_url : option string;
  hit_content : option string
}.

(** The text block built for one entry: the content is cut to its first
    200 characters and followed by three dots. *)
Definition format_hit (hit : TavilyHit) : result string :=
  title <- get_item "title" (hit_title hit) ;;
  url <- get_item "url" (hit_url hit) ;;
  content <- get_item "content" (hit_content hit) ;;
  Ok ("Title: " ++ title ++ newline ++ "URL: " ++ url ++ newline
      ++ "Content: " ++ str_take 200 content ++ "...").

Fixpoint format_hits (hits : list TavilyHit) : result (list string) :=
  match hits with
  | [] => Ok []
  | hit :: rest =>
      block <- format_hit hit ;;
      blocks <- format_hits rest ;;
      Ok (block :: blocks)
  end.

(** [tavily_search(query)].  [post] is the HTTP request with its decoded
    answer: the ["results"] list of the JSON body, [None] when the body has
    no such key. *)
Definition tavily_search_tool
    (post : string -> result (option (list TavilyHit))) (query : string)
  : result string :=
  data <- post query ;;
  blocks <- format_hits (dict_get [] data) ;;
  Ok (join (newline ++ newline) blocks).

(** ** The console runner ([runner.py]) *)

Definition node_eqb (a b : Node) : bool :=
  match a, b with
  | classification_node, classification_node => true
  | direct_answer_node, direct_answer_node => true
  | planning_node, planning_node => true
  | memory_check, memory_check => true
  | human_review_node, human_review_node => true
  | process_feedback, process_feedback => true
  | search, search => true
  | pre_summarize, pre_summarize => true
  | summarize, summarize => true
  | _, _ => false
  end.

(** A stream event in "updates" mode: the update of each node that ran,
    under the node's name. *)
Definition Event : Type := list (Node * AgentState).

(** [event[node_name]], [None] when [node_name not in event]. *)
Fixpoint event_get (n : Node) (event : Event) : option AgentState :=
  match event with
  | [] => None
  | (m, update) :: rest => if node_eqb m n then Some update else event_get n rest
  end.

(** What is handed to the callback: [{"type": ..., "content": ...}]. *)
Record Shown : Type := mkShown {
  shown_type : string;
  shown_content : string
}.

Definition results_banner : string :=
  "📊 Search completed" ++ newline ++ "----------------------------------------".

Definition final_answer_text (answer : string) : string :=
  newline ++ "🎯 Final Answer:" ++ newline ++ answer ++ newline.

(** One turn of the loop of [handle_custom_event]. *)
Definition handle_node (event : Event) (n : Node) : result (list Shown) :=
  match event_get n event with
  | None => Ok []
  | Some state =>
      msgs <- get_item "messages" (messages state) ;;
      match msgs with
      | [] => Ok []
      | _ :: _ =>
          last_msg <- py_index msgs (-1) ;;
          match msg_type last_msg with
          | Tool =>
              if node_eqb n search
              then Ok [mkShown "results" results_banner]
              else Ok []
          | AI =>
              if node_eqb n summarize
              then Ok [mkShown "final_answer"
                         (final_answer_text (content last_msg))]
              else Ok []
          | Human => Ok []
          end
      end
  end.

(** [handle_custom_event(event, stream_callback)]: what it shows, in
    order. *)
Definition handle_custom_event (event : Event) : result (list Shown) :=
  after_planning <- handle_node event planning_node ;;
  after_search <- handle_node event search ;;
  after_summarize <- handle_node event summarize ;;
  Ok (after_planning ++ after_search ++ after_summarize)%list.

(** ** Status lines of the API ([backend/app/utils.py]) *)

(** [get_status_message(chunk)], for a chunk with the given [event] name
    and, as [data], the updates of the nodes that ran. *)
Definition get_status_message (event : string) (data : Event) : option string :=
  if (event =? "metadata")%string then Some "🤖 Initializing agent..."
  else if (event =? "updates")%string then
    match event_get classification_node data with
    | Some update =>
        Some (if dict_get false (needs_search update)
              then "🔍 Query requires web search..."
              else "💬 Answering from history...")
    | None =>
        match event_get search data with
        | Some update =>
            let count := dict_get 0 (search_count update) in
            let total := len (dict_get [] (planned_queries update)) in
            Some ("🔍 Searching (" ++ str_of_Z count ++ "/" ++ str_of_Z total
                  ++ ")...")
        | None => None
        end
    end
  else None.

(** ** The thread view of the API ([backend/app/routes.py]) *)

(** A message of the thread state as the API receives it in JSON: the keys
    the view reads, [None] for a key the message does not have.  The
    values are taken to be strings. *)
Record JsonMessage : Type := mkJsonMessage {
  json_type : option string;
  json_content : option string;
  json_id : option string
}.

(** The keys of the thread state the view reads. *)
Record JsonState : Type := mkJsonState {
  json_messages : option (list JsonMessage);
  json_planned_queries : option (list string)
}.

(** [ChatMessage(id=..., type=..., content=..., search_results=...)], over
    the type [R] of the parsed search results; [timestamp] is never set. *)
Record ChatMessage (R : Type) : Type := mkChatMessage {
  chat_id : string;
  chat_type : string;
  chat_content : string;
  chat_search_results : option (list R)
}.

Arguments mkChatMessage {R} _ _ _ _.
Arguments chat_id {R} _.
Arguments chat_type {R} _.
Arguments chat_content {R} _.
Arguments chat_search_results {R} _.

(** The loop of [extract_messages_and_searches] over the messages still to
    visit, with the list built so far and the running [search_index].
    [parse] stands for [parse_tool_message_content], whose regular
    expressions are not modelled: what is proved of the view holds for
    every parser. *)
Fixpoint extract_loop {R : Type} (parse : string -> Z -> string -> list R)
    (planned : list string) (msgs : list JsonMessage)
    (shown : list (ChatMessage R)) (search_index : Z)
  : result (list (ChatMessage R)) :=
  match msgs with
  | [] => Ok shown
  | msg :: rest =>
      let msg_type := dict_get "" (json_type msg) in
      let content := dict_get "" (json_content msg) in
      if (msg_type =? "human")%string then
        extract_loop parse planned rest
          (shown ++ [mkChatMessage
                       (dict_get ("human_" ++ str_of_Z (len shown))%string
                                 (json_id msg))
                       "user" content None])%list
          search_index
      else if (msg_type =? "ai")%string then
        if negb (startswith content "Classification:"
                 || startswith content "Planned")
        then
          extract_loop parse planned rest
            (shown ++ [mkChatMessage
                         (dict_get ("ai_" ++ str_of_Z (len shown))%string
                                   (json_id msg))
                         "assistant" content None])%list
            search_index
        else extract_loop parse planned rest shown search_index
      else if (msg_type =? "tool")%string then
        query_name <-
          (if search_index <? len planned
           then py_index planned search_index
           else Ok ("Search " ++ str_of_Z (search_index + 1))) ;;
        let tool_results := parse content search_index query_name in
        extract_loop parse planned rest
          (shown ++ [mkChatMessage
                       (dict_get ("tool_" ++ str_of_Z (len shown))%string
                                 (json_id msg))
                       "tool" "" (Some tool_results)])%list
          (search_index + 1)
      else extract_loop parse planned rest shown search_index
  end.

(** [extract_messages_and_searches(state)]. *)
Definition extract_messages_and_searches {R : Type}
    (parse : string -> Z -> string -> list R) (state : JsonState)
  : result (list (ChatMessage R) * list R) :=
  let planned_queries := dict_get [] (json_planned_queries state) in
  shown <-
    extract_loop parse planned_queries (dict_get [] (json_messages state))
      [] 0 ;;
  Ok (shown, []).

(** ** Sample inputs

    A manager without [langmem], services that always answer, and the state
    of a run that has just planned two queries. *)

Definition no_memory : EpisodicMemoryManager := mkManager None None None.

Definition sample_services (label : ClassLabel) (plan : string)
    (resumed : PyVal) : Services :=
  mkServices
    (fun _ => Ok (mkQueryClassification label "why" 1%float))
    (fun _ => Ok ["From what we discussed"])
    (fun _ => Ok [plan])
    (fun _ => Ok ["Sunny"; ""; " and mild"])
    (fun q => Ok ("Title: " ++ q))
    (Ok None)
    no_memory
    (resumed_with resumed).

Definition paris_question : string := "What's the weather in Paris?".

Definition sample_input : AgentState :=
  mkState (Some [HumanMessage paris_question]) (Some 0) (Some "") (Some [])
          (Some []) (Some false) None.

Definition two_queries : string := "paris weather" ++ newline ++ " paris forecast ".

Definition planned_state : AgentState :=
  mkState (Some [mkMessage Human paris_question None (Some 1%nat);
                 mkMessage AI "Planned 2 search queries" None (Some 2%nat)])
          (Some 0) (Some paris_question)
          (Some ["paris weather"; "paris forecast"]) (Some []) (Some true)
          (Some (PyStr "")).

(** A state full of leftovers, and a model that answers four lines. *)
Definition stale_state : AgentState :=
  mkState (Some [HumanMessage paris_question]) (Some 7) None (Some ["old"])
          (Some [mkSearchResult "old" "stale"]) None
          (Some (PyStr "focus on 2024 data")).

Definition four_lines (prompt : PlanningPrompt) : result (list string) :=
  Ok ["a"; newline; "b"; newline; "c"; newline; "d"].

(** Services of a run whose user asks for a revision. *)
Definition pricing_review : Services :=
  sample_services NEEDS_SEARCH two_queries (PyStr "add more about pricing").

(** A store of one user: three well-formed episodes and, among them, a
    record whose [user_decision] is not one of the allowed strings; and a
    model that answers "approve" with confidence 0.9375. *)
Definition stored_episode (decided : string) : StoreItem :=
  mkStoreItem
    (Some (PyDict
       [("original_query", PyStr "weather in Rome");
        ("planned_searches", PyList [PyStr "rome weather"]);
        ("user_decision", PyStr decided);
        ("decision_context", PyStr "Searches were well-aligned.");
        ("query_complexity", PyStr "simple");
        ("search_quality", PyStr "focused");
        ("timestamp", PyStr "2025-01-01T00:00:00")])).

Definition sample_hits : list StoreItem :=
  [stored_episode "approve"; stored_episode "maybe";
   stored_episode "approve"; stored_episode "approve"].

Definition sample_store : Store := mkStore (fun _ _ _ => Ok sample_hits).

Definition sure_approval (prompt : DecisionPrompt) : result EpisodicDecision :=
  Ok (mkEpisodicDecision approve "always approved" 0x1.ep-1%float).

Definition sample_manager : EpisodicMemoryManager :=
  mkManager (Some (mkRunnableConfig (Some (Some "u1")) true)) (Some tt)
            (Some sure_approval).

(** The [Literal] fields of an episode hold one of their listed strings. *)
Definition well_formed_episode (episode : EpisodicReviewMemory) : bool :=
  existsb (String.eqb (erm_user_decision episode))
    ["approve"; "skip"; "feedback"]
  && existsb (String.eqb (erm_query_complexity episode))
       ["simple"; "moderate"; "complex"]
  && existsb (String.eqb (erm_search_quality episode))
       ["focused"; "broad"; "specific"; "comprehensive"].

(** A state waiting in [process_feedback] with a free-text review. *)
Definition reviewed_state : AgentState :=
  mkState (Some [HumanMessage paris_question]) (Some 0) (Some paris_question)
          (Some ["paris weather"; "paris forecast"]) (Some []) (Some true)
          (Some (PyStr "add more about pricing")).

(** Services with the advisor on, and nobody at the keyboard. *)
Definition advised_services : Services :=
  mkServices
    (fun _ => Ok (mkQueryClassification NEEDS_SEARCH "why" 1%float))
    (fun _ => Ok ["From what we discussed"])
    (fun _ => Ok [two_queries])
    (fun _ => Ok ["Sunny"])
    (fun q => Ok ("Title: " ++ q))
    (Ok (Some sample_store))
    sample_manager
    waiting_for_review.

(** The state a thread is left in by an approved cycle, with the next
    question appended. *)
Definition next_question_state : AgentState :=
  mkState (Some [mkMessage Human paris_question None (Some 1%nat);
                 mkMessage AI "Sunny and mild" None (Some 2%nat);
                 mkMessage Human "And in Rome?" None (Some 3%nat)])
          (Some 2) (Some paris_question)
          (Some ["paris weather"; "paris forecast"])
          (Some [mkSearchResult "paris weather" "Sunny";
                 mkSearchResult "paris forecast" "Mild"])
          (Some true) (Some (PyStr "approve")).

(** No plan, no search done, no result. *)
Definition nothing_to_search (state : AgentState) : Prop :=
  plan_of state = [] /\ count_of state = 0 /\ found_of state = [].

(** Services whose planner answers with blanks and whose user approves. *)
Definition blank_planner : Services :=
  mkServices
    (fun _ => Ok (mkQueryClassification NEEDS_SEARCH "why" 1%float))
    (fun _ => Ok ["From what we discussed"])
    (fun _ => Ok ["  "; newline; " "])
    (fun _ => Ok ["Sunny"])
    (fun q => Ok ("Title: " ++ q))
    (Ok None)
    no_memory
    (resumed_with (PyStr "Approve")).

(** The text starts with a white-space character (read from its last byte
    with [backwards]). *)
Definition space_ahead (backwards : bool) (s : string) : bool :=
  match s with
  | EmptyString => false
  | String a rest =>
      is_space a
      || match rest with
         | EmptyString => false
         | String b rest2 =>
             (if backwards then is_space2 b a else is_space2 a b)
             || match rest2 with
                | EmptyString => false
                | String c _ =>
                    if backwards then is_space3 c b a else is_space3 a b c
                end
         end
  end.

(** [c in s] for a character. *)
Fixpoint mentions (c : ascii) (s : string) : bool :=
  match s with
  | EmptyString => false
  | String d rest => Ascii.eqb d c || mentions c rest
  end.

(** What [planning] guarantees about a query it keeps: it is not empty,
    stripping leaves it as it is, and it holds no line feed. *)
Definition clean_query (q : string) : Prop :=
  q <> "" /\ strip q = q /\ mentions (ascii_of_nat 10) q = false.

(** The plan, the cursor and the results of a state. *)
Definition search_phase (state : AgentState)
  : list string * Z * list SearchResult :=
  (plan_of state, count_of state, found_of state).

(** An entry of Tavily's answer with its three keys. *)
Definition hit_complete (hit : TavilyHit) : bool :=
  match hit_title hit, hit_url hit, hit_content hit with
  | Some _, Some _, Some _ => true
  | _, _, _ => false
  end.

(** A provider's answers: one entry, an entry without its ["url"], no
    entry at all. *)
Definition paris_hit : TavilyHit :=
  mkTavilyHit (Some "Paris weather") (Some "https://example.org/paris")
              (Some "Sunny, 21 degrees").

Definition answers_with (hits : option (list TavilyHit)) (q : string)
  : result (option (list TavilyHit)) :=
  Ok hits.

Definition broken_hits : list TavilyHit :=
  [paris_hit; mkTavilyHit (Some "Forecast") None (Some "Mild")].

(** How many of the messages are tool messages. *)
Definition tool_count (msgs : list JsonMessage) : nat :=
  List.length
    (filter (fun m => (dict_get "" (json_type m) =? "tool")%string) msgs).

(** The name given to the [k]-th tool message: the [k]-th planned query,
    or a numbered fallback past the end of the plan. *)
Definition query_label (planned : list string) (k : nat) : string :=
  match nth_error planned k with
  | Some q => q
  | None => "Search " ++ str_of_Z (Z.of_nat k + 1)
  end.

(** A thread as the API reads it after a cycle with two searches. *)
Definition sample_thread : list JsonMessage :=
  [mkJsonMessage (Some "human") (Some paris_question) (Some "m1");
   mkJsonMessage (Some "ai") (Some "Planned 2 search queries") (Some "m2");
   mkJsonMessage (Some "tool") (Some "Title: paris weather") None;
   mkJsonMessage (Some "tool") (Some "Title: paris forecast") (Some "m4");
   mkJsonMessage (Some "ai") (Some "Sunny and mild") None].

(** A parser that keeps what it was called with. *)
Definition recording_parser (content : string) (search_index : Z)
    (query_name : string) : list (string * Z * string) :=
  [(content, search_index, query_name)].

(** * Properties *)

(** ** Reasoning about fallible code *)

Lemma bind_ok {A B : Type} (r : result A) (k : A -> result B) (b : B) :
  (x <- r ;; k x) = Ok b -> exists a, r = Ok a /\ k a = Ok b.
Proof.
  destruct r as [a | e]; simpl; intros H.
  - exists a. split; [reflexivity | exact H].
  - discriminate H.
Qed.

Lemma try_except_total {A : Type} (body : result A) (fallback : A) :
  exists a, try_except body (fun _ => Ok fallback) = Ok a.
Proof.
  destruct body as [a | e]; simpl; eauto.
Qed.

(** Splits a hypothesis [(x <- r ;; k) = Ok b] into its two halves. *)
Ltac unbind H :=
  let a := fresh "a" in
  let Ha := fresh "Ha" in
  apply bind_ok in H; destruct H as (a & Ha & H).

Lemma len_nonneg {A : Type} (l : list A) : 0 <= len l.
Proof. unfold len. lia. Qed.

Lemma len_app {A : Type} (l l' : list A) : len (l ++ l') = len l + len l'.
Proof. unfold len. rewrite length_app. lia. Qed.

Lemma py_index_in_range {A : Type} (l : list A) (i : Z) :
  0 <= i < len l -> exists x, py_index l i = Ok x.
Proof.
  intros Hi. unfold py_index.
  destruct (i <? 0) eqn:Hneg; [apply Z.ltb_lt in Hneg; lia |].
  rewrite Hneg.
  destruct (nth_error l (Z.to_nat i)) as [x |] eqn:Hnth; [eauto |].
  apply nth_error_None in Hnth. unfold len in Hi. lia.
Qed.

(** ** The search step *)

(** What the search step returns when a query is pending. *)
Lemma search_execution_pending (tavily : string -> result string)
    (state returned : AgentState) :
  count_of state < len (plan_of state) ->
  search_execution_node tavily state = Ok returned ->
  exists current_query found,
    py_index (plan_of state) (count_of state) = Ok current_query
    /\ tavily current_query = Ok found
    /\ returned =
       create_state_update state
         (set_messages
            [ToolMessage found ("search_" ++ str_of_Z (count_of state))]
            (set_search_count (count_of state + 1)
               (set_search_results
                  (found_of state ++ [mkSearchResult current_query found])
                  no_updates))).
Proof.
  intros Hlt Hrun. unfold search_execution_node in Hrun.
  fold (plan_of state) (count_of state) (found_of state) in Hrun.
  destruct (count_of state >=? len (plan_of state)) eqn:Hge.
  - apply Z.geb_le in Hge. lia.
  - unbind Hrun. unbind Hrun. injection Hrun as <-.
    exists a, a0. auto.
Qed.

(** What the search step returns when nothing is pending. *)
Lemma search_execution_exhausted (tavily : string -> result string)
    (state : AgentState) :
  count_of state >= len (plan_of state) ->
  search_execution_node tavily state = Ok state.
Proof.
  intros Hge. unfold search_execution_node.
  fold (plan_of state) (count_of state).
  destruct (count_of state >=? len (plan_of state)) eqn:Hcmp; [reflexivity |].
  rewrite Z.geb_leb in Hcmp. apply Z.leb_gt in Hcmp. lia.
Qed.

(** The search step goes through whenever the provider answers. *)
Lemma search_execution_completes (tavily : string -> result string)
    (state : AgentState) :
  0 <= count_of state ->
  (forall q, exists found, tavily q = Ok found) ->
  exists returned, search_execution_node tavily state = Ok returned.
Proof.
  intros Hpos Hanswers. unfold search_execution_node.
  fold (plan_of state) (count_of state) (found_of state).
  destruct (count_of state >=? len (plan_of state)) eqn:Hcmp; [eauto |].
  rewrite Z.geb_leb in Hcmp. apply Z.leb_gt in Hcmp.
  destruct (py_index_in_range (plan_of state) (count_of state)) as [q Hq];
    [lia |].
  rewrite Hq. simpl. destruct (Hanswers q) as [found Hfound].
  rewrite Hfound. simpl. eauto.
Qed.

(** ** Merging an update *)

Lemma count_of_apply_update (state u : AgentState) :
  count_of (apply_update state u) = dict_get (count_of state) (search_count u).
Proof.
  unfold count_of. simpl. destruct (search_count u); reflexivity.
Qed.

Lemma plan_of_apply_update (state u : AgentState) :
  plan_of (apply_update state u) = dict_get (plan_of state) (planned_queries u).
Proof.
  unfold plan_of. simpl. destruct (planned_queries u); reflexivity.
Qed.

Lemma found_of_apply_update (state u : AgentState) :
  found_of (apply_update state u)
  = dict_get (found_of state) (search_results u).
Proof.
  unfold found_of. simpl. destruct (search_results u); reflexivity.
Qed.

Lemma count_of_create_state_update (state updates : AgentState) :
  count_of (create_state_update state updates)
  = dict_get (count_of state) (search_count updates).
Proof.
  unfold count_of. simpl. destruct (search_count updates); reflexivity.
Qed.

Lemma plan_of_create_state_update (state updates : AgentState) :
  plan_of (create_state_update state updates)
  = dict_get (plan_of state) (planned_queries updates).
Proof.
  unfold plan_of. simpl. destruct (planned_queries updates); reflexivity.
Qed.

Lemma found_of_create_state_update (state updates : AgentState) :
  found_of (create_state_update state updates)
  = dict_get (found_of state) (search_results updates).
Proof.
  unfold found_of. simpl. destruct (search_results updates); reflexivity.
Qed.

(** Merging a dict that [create_state_update] built gives, for the search
    cursor, the plan and the results, the values of that dict. *)
Lemma merged_create_state_update (state updates : AgentState) :
  let merged := apply_update state (create_state_update state updates) in
  count_of merged = dict_get (count_of state) (search_count updates)
  /\ plan_of merged = dict_get (plan_of state) (planned_queries updates)
  /\ found_of merged = dict_get (found_of state) (search_results updates).
Proof.
  simpl. rewrite count_of_apply_update, plan_of_apply_update,
    found_of_apply_update.
  unfold count_of, plan_of, found_of. simpl.
  destruct (search_count updates), (planned_queries updates),
    (search_results updates); auto.
Qed.

(** C1: when the search step completes on a state with
    [len(search_results) == search_count] and a query still pending, the
    state it returns satisfies [len(search_results) == search_count] again,
    and so does the stored state once the engine has merged it, which is
    the state the next invocation starts from. *)
Theorem search_keeps_results_in_step (tavily : string -> result string)
    (state returned : AgentState) :
  results_match_count state ->
  count_of state < len (plan_of state) ->
  search_execution_node tavily state = Ok returned ->
  results_match_count returned
  /\ results_match_count (apply_update state returned).
Proof.
  intros Hmatch Hpending Hrun.
  destruct (search_execution_pending _ _ _ Hpending Hrun)
    as (q & found & _ & _ & ->).
  unfold results_match_count in *.
  destruct (merged_create_state_update state
    (set_messages [ToolMessage found ("search_" ++ str_of_Z (count_of state))]
       (set_search_count (count_of state + 1)
          (set_search_results (found_of state ++ [mkSearchResult q found])
             no_updates)))) as (Hc & _ & Hf).
  rewrite Hc, Hf, count_of_create_state_update, found_of_create_state_update.
  simpl. rewrite len_app, Hmatch. unfold len. simpl. lia.
Qed.

Lemma search_keeps_results_in_step_witness :
  exists returned,
    search_execution_node (tavily_search (sample_services NEEDS_SEARCH "" PyNone))
      planned_state = Ok returned
    /\ results_match_count returned
    /\ results_match_count (apply_update planned_state returned).
Proof.
  eexists. split; [reflexivity |].
  apply (search_keeps_results_in_step
           (tavily_search (sample_services NEEDS_SEARCH "" PyNone))
           planned_state).
  - reflexivity.
  - reflexivity.
  - reflexivity.
Defined.

(** C10: invoked with [search_count >= len(planned_queries)], the search
    step runs no search and returns the incoming state itself, every field
    as it came in. *)
Theorem search_without_pending_query_returns_state
    (tavily : string -> result string) (state : AgentState) :
  count_of state >= len (plan_of state) ->
  search_execution_node tavily state = Ok state.
Proof.
  apply search_execution_exhausted.
Qed.

Lemma search_without_pending_query_returns_state_witness :
  search_execution_node (fun _ => Raise (ServiceError "search")) sample_input
  = Ok sample_input.
Proof.
  apply (search_without_pending_query_returns_state _ sample_input).
  vm_compute. discriminate.
Defined.

(** ** The search cursor stays within the plan *)

(** Every node's update, once merged, keeps [search_count] within the
    plan. *)
Lemma run_node_keeps_count_within_plan (env : Services) (n : Node)
    (state u : AgentState) (target : option Node) :
  count_within_plan state ->
  run_node env n state = Ok (u, target) ->
  count_within_plan (apply_update state u).
Proof.
  unfold count_within_plan. intros Hinv Hrun.
  assert (Hframe : forall updates,
             search_count updates = None -> planned_queries updates = None ->
             u = create_state_update state updates ->
             count_of (apply_update state u) <= len (plan_of (apply_update state u))).
  { intros updates Hc Hp ->.
    destruct (merged_create_state_update state updates) as (-> & -> & _).
    rewrite Hc, Hp. exact Hinv. }
  destruct n; simpl in Hrun.
  - (* classification *)
    unbind Hrun. injection Hrun as <- <-.
    unfold classification in Ha. unbind Ha. unbind Ha. unbind Ha.
    rewrite count_of_apply_update, plan_of_apply_update.
    destruct (classification_label a2); injection Ha as <-; simpl.
    + unfold len. simpl. lia.
    + exact Hinv.
  - (* direct_answer *)
    unbind Hrun. injection Hrun as <- <-.
    unfold direct_answer in Ha. unbind Ha. unbind Ha. unbind Ha.
    injection Ha as <-. eapply Hframe; [| | reflexivity]; reflexivity.
  - (* planning *)
    unbind Hrun. injection Hrun as <- <-.
    unfold planning in Ha. unbind Ha. unbind Ha. injection Ha as <-.
    match goal with
    | |- context [create_state_update state ?upd] =>
        destruct (merged_create_state_update state upd) as (-> & -> & _)
    end.
    simpl. apply len_nonneg.
  - (* memory_check *)
    unbind Hrun. injection Hrun as <- <-.
    unfold memory_check_node in Ha.
    destruct (is_enabled (memory_manager env)
              && negb (dict_get "" (original_query state) =? "")%string
              && negb (len (dict_get [] (planned_queries state)) =? 0)).
    + unbind Ha. destruct a0; injection Ha as <-;
        (eapply Hframe; [| | reflexivity]; reflexivity).
    + injection Ha as <-. eapply Hframe; [| | reflexivity]; reflexivity.
  - (* human_review *)
    unbind Hrun. injection Hrun as <- <-.
    unfold human_review in Ha. unbind Ha. unbind Ha. injection Ha as <-.
    eapply Hframe; [| | reflexivity]; reflexivity.
  - (* process_feedback *)
    unbind Hrun. injection Hrun as <- <-.
    unfold process_feedback_node in Ha. unbind Ha. unbind Ha.
    destruct a1.
    + injection Ha as <-. simpl.
      eapply Hframe; [| | reflexivity]; reflexivity.
    + unbind Ha. destruct a1.
      * injection Ha as <-. simpl.
        eapply Hframe; [| | reflexivity]; reflexivity.
      * unbind Ha. injection Ha as <-. simpl.
        eapply Hframe; [| | reflexivity]; reflexivity.
  - (* search *)
    unbind Hrun. injection Hrun as <- <-.
    destruct (Z_lt_ge_dec (count_of state) (len (plan_of state))) as [Hlt | Hge].
    + destruct (search_execution_pending _ _ _ Hlt Ha) as (q & found & _ & _ & ->).
      match goal with
      | |- context [create_state_update state ?upd] =>
          destruct (merged_create_state_update state upd) as (-> & -> & _)
      end.
      simpl. lia.
    + rewrite (search_execution_exhausted _ _ Hge) in Ha. injection Ha as <-.
      rewrite count_of_apply_update, plan_of_apply_update.
      unfold count_of, plan_of in *.
      destruct (search_count state), (planned_queries state); exact Hinv.
  - (* pre_summarize *)
    injection Hrun as <- <-. unfold pre_summarize_node.
    eapply Hframe; [| | reflexivity]; reflexivity.
  - (* summarize *)
    unbind Hrun. injection Hrun as <- <-.
    unfold summarization_node in Ha. unbind Ha. injection Ha as <-.
    eapply Hframe; [| | reflexivity]; reflexivity.
Qed.

Lemma step_keeps_count_within_plan (env : Services) (n : Node)
    (state state' : AgentState) (next : Next) :
  count_within_plan state ->
  step env n state = Ok (state', next) ->
  count_within_plan state'.
Proof.
  intros Hinv Hstep. unfold step in Hstep. unbind Hstep.
  destruct a as [u target]. simpl in Hstep.
  pose proof (run_node_keeps_count_within_plan _ _ _ _ _ Hinv Ha) as Hkept.
  destruct target.
  - injection Hstep as <- _. exact Hkept.
  - unbind Hstep. injection Hstep as <- _. exact Hkept.
Qed.

Lemma reaches_keeps_count_within_plan (start_at end_at : Node * AgentState) :
  reaches start_at end_at ->
  count_within_plan (snd start_at) -> count_within_plan (snd end_at).
Proof.
  induction 1 as [n state | env n state state' n' final Hstep _ IH]; simpl.
  - auto.
  - intros Hinv. apply IH. simpl.
    exact (step_keeps_count_within_plan _ _ _ _ _ Hinv Hstep).
Qed.

Lemma after_search_loops_iff (state : AgentState) :
  after_search state = Goto search <-> count_of state < len (plan_of state).
Proof.
  unfold after_search. fold (plan_of state) (count_of state).
  destruct (count_of state <? len (plan_of state)) eqn:Hlt.
  - apply Z.ltb_lt in Hlt. split; auto.
  - apply Z.ltb_ge in Hlt. split.
    + destruct ((count_of state >=? len (plan_of state)) && (count_of state >? 0));
        discriminate.
    + lia.
Qed.

(** C2: [after_search] selects the search step again exactly when
    [search_count < len(planned_queries)]; the search step adds exactly 1
    to [search_count] when a query is pending and leaves the state alone
    otherwise; hence from a state with
    [search_count <= len(planned_queries)] every state a run reaches,
    whatever the services answer, keeps that bound. *)
Theorem search_count_never_exceeds_plan (state : AgentState) :
  count_within_plan state ->
  (after_search state = Goto search <-> count_of state < len (plan_of state))
  /\ (forall tavily returned,
        search_execution_node tavily state = Ok returned ->
        (count_of state < len (plan_of state) ->
         search_count returned = Some (count_of state + 1))
        /\ (count_of state >= len (plan_of state) -> returned = state))
  /\ (forall n n' state',
        reaches (n, state) (n', state') -> count_within_plan state').
Proof.
  intros Hinv. split; [apply after_search_loops_iff | split].
  - intros tavily returned Hrun. split.
    + intros Hlt.
      destruct (search_execution_pending _ _ _ Hlt Hrun)
        as (q & found & _ & _ & ->).
      reflexivity.
    + intros Hge. rewrite (search_execution_exhausted _ _ Hge) in Hrun.
      injection Hrun as <-. reflexivity.
  - intros n n' state' Hreach.
    exact (reaches_keeps_count_within_plan _ _ Hreach Hinv).
Qed.

Lemma search_count_never_exceeds_plan_witness :
  exists state',
    step pricing_review search planned_state = Ok (state', Goto search)
    /\ count_of state' = 1
    /\ count_within_plan state'.
Proof.
  eexists. split; [vm_compute; reflexivity |]. split; [reflexivity |].
  destruct (search_count_never_exceeds_plan planned_state)
    as (_ & _ & Hreach).
  - vm_compute. discriminate.
  - apply (Hreach search search).
    eapply (reaches_step pricing_review);
      [vm_compute; reflexivity | apply reaches_here].
Defined.

(** ** The defensive fallback of the search router *)

Lemma apply_update_self_plan (state : AgentState) :
  plan_of (apply_update state state) = plan_of state
  /\ count_of (apply_update state state) = count_of state.
Proof.
  rewrite plan_of_apply_update, count_of_apply_update.
  unfold plan_of, count_of.
  destruct (planned_queries state), (search_count state); auto.
Qed.

(** C8: a search step invoked with no planned query and [search_count] 0
    runs no search and does not raise, the router then answers
    ["__end__"], and the run is over after that one step however much
    fuel it is given. *)
Theorem search_with_empty_plan_ends (env : Services) (state : AgentState) :
  plan_of state = [] ->
  count_of state = 0 ->
  search_execution_node (tavily_search env) state = Ok state
  /\ after_search (apply_update state state) = END
  /\ forall fuel,
       run env (S fuel) search state = Ok (apply_update state state, END).
Proof.
  intros Hplan Hcount.
  assert (Hrun : search_execution_node (tavily_search env) state = Ok state).
  { apply search_execution_exhausted. rewrite Hplan, Hcount. unfold len.
    simpl. lia. }
  assert (Hroute : after_search (apply_update state state) = END).
  { unfold after_search.
    destruct (apply_update_self_plan state) as [Hp Hc].
    fold (plan_of (apply_update state state))
         (count_of (apply_update state state)).
    rewrite Hp, Hc, Hplan, Hcount. reflexivity. }
  split; [exact Hrun | split; [exact Hroute |]].
  intros fuel. simpl. unfold step. simpl. rewrite Hrun. simpl.
  rewrite Hroute. reflexivity.
Qed.

Lemma search_with_empty_plan_ends_witness :
  run (sample_services NEEDS_SEARCH "" (PyStr "approve")) 3 search sample_input
  = Ok (apply_update sample_input sample_input, END).
Proof.
  apply (search_with_empty_plan_ends _ sample_input); reflexivity.
Defined.

(** ** Planning *)

Lemma parse_queries_at_most_three (response_content : string) :
  (List.length (parse_queries response_content) <= 3)%nat.
Proof.
  unfold parse_queries, take. apply firstn_le_length.
Qed.

Lemma py_index_last {A : Type} (l : list A) (x : A) :
  py_index (l ++ [x]) (-1) = Ok x.
Proof.
  unfold py_index. change (-1 <? 0) with true. cbv iota.
  rewrite len_app. change (len [x]) with 1.
  pose proof (len_nonneg l) as Hl.
  replace (-1 + (len l + 1)) with (len l) by lia.
  destruct (len l <? 0) eqn:Hneg; [apply Z.ltb_lt in Hneg; lia |].
  unfold len. rewrite Nat2Z.id.
  rewrite nth_error_app2 by lia. rewrite Nat.sub_diag. reflexivity.
Qed.

Lemma py_index_last_nonempty {A : Type} (l : list A) :
  l <> [] -> exists x, py_index l (-1) = Ok x.
Proof.
  intros Hne. destruct (exists_last Hne) as (front & x & ->).
  exists x. apply py_index_last.
Qed.

(** Planning goes through on any state with a message, whenever the chat
    model answers. *)
Lemma planning_completes (astream : PlanningPrompt -> result (list string))
    (state : AgentState) (msgs : list Message) :
  messages state = Some msgs -> msgs <> [] ->
  (forall prompt, exists chunks, astream prompt = Ok chunks) ->
  exists returned, planning astream state = Ok returned.
Proof.
  intros Hmsgs Hne Hanswers. unfold planning, planning_prompt.
  rewrite Hmsgs. simpl.
  destruct (py_index_last_nonempty msgs Hne) as [m ->]. simpl.
  match goal with
  | |- context [astream ?p] => destruct (Hanswers p) as [chunks ->]
  end.
  simpl. eauto.
Qed.

(** C4: whatever the incoming state holds, a planning execution that
    completes returns at most 3 planned queries, an empty
    [search_results], [search_count] 0 and the empty string as
    [user_feedback]; the stored state holds the same four values once the
    update is merged. *)
Theorem planning_resets_search_phase
    (astream : PlanningPrompt -> result (list string))
    (state returned : AgentState) :
  planning astream state = Ok returned ->
  (exists queries,
      planned_queries returned = Some queries
      /\ (List.length queries <= 3)%nat
      /\ planned_queries (apply_update state returned) = Some queries)
  /\ search_results returned = Some []
  /\ search_count returned = Some 0
  /\ user_feedback returned = Some (PyStr "")
  /\ search_results (apply_update state returned) = Some []
  /\ search_count (apply_update state returned) = Some 0
  /\ user_feedback (apply_update state returned) = Some (PyStr "").
Proof.
  intros Hrun. unfold planning in Hrun. unbind Hrun. unbind Hrun.
  injection Hrun as <-. simpl.
  split; [| repeat split].
  exists (parse_queries (collect_stream a0)).
  repeat split. apply parse_queries_at_most_three.
Qed.

Lemma planning_resets_search_phase_witness :
  exists returned,
    planning four_lines stale_state = Ok returned
    /\ planned_queries returned = Some ["a"; "b"; "c"]
    /\ search_results returned = Some []
    /\ search_count returned = Some 0
    /\ user_feedback returned = Some (PyStr "").
Proof.
  eexists. split; [reflexivity |].
  split; [reflexivity |].
  pose proof (planning_resets_search_phase four_lines stale_state _ eq_refl)
    as (_ & Hfound & Hcount & Hfeedback & _).
  exact (conj Hfound (conj Hcount Hfeedback)).
Defined.

(** ** Review, feedback and the route taken *)

Lemma lower_equals_text (text target : string) :
  lower_equals (PyStr text) target
  = Ok (negb (text =? "")%string && (lower text =? target)%string).
Proof.
  unfold lower_equals, and_then. simpl.
  destruct (text =? "")%string; reflexivity.
Qed.

Lemma user_action_text (text : string) :
  exists action, user_action (PyStr text) = Ok action.
Proof.
  unfold user_action. rewrite !lower_equals_text. simpl.
  destruct (negb (text =? "")%string && (lower text =? "approve")%string);
    [eauto |].
  destruct (negb (text =? "")%string && (lower text =? "skip")%string); eauto.
Qed.

(** A resume value that is not a dict is stored as it is. *)
Lemma human_review_stores_text (text : string) (state : AgentState) :
  human_review (resumed_with (PyStr text)) state
  = Ok (create_state_update state (set_user_feedback (PyStr text) no_updates)).
Proof. reflexivity. Qed.

(** [process_feedback_node] on a textual feedback. *)
Lemma process_feedback_on_text (mgr : EpisodicMemoryManager)
    (state : AgentState) (text : string) (msgs : list Message) :
  user_feedback state = Some (PyStr text) ->
  messages state = Some msgs ->
  exists stored,
    process_feedback_node mgr state
    = Ok (if negb (text =? "")%string
             && ((lower text =? "approve")%string
                 || (lower text =? "skip")%string)
          then create_state_update state no_updates
          else create_state_update state
                 (set_messages
                    (msgs ++ [HumanMessage
                                ("User feedback on planned queries: "
                                 ++ feedback_text text)])
                    (set_user_feedback (PyStr (feedback_text text)) no_updates)),
          stored).
Proof.
  intros Hfeedback Hmsgs. unfold process_feedback_node.
  rewrite Hfeedback, Hmsgs. simpl dict_get.
  destruct (user_action_text text) as [action Haction].
  rewrite Haction, !lower_equals_text. unfold feedback_text.
  destruct (is_enabled mgr && negb (dict_get "" (original_query state) =? "")%string
            && negb (len (dict_get [] (planned_queries state)) =? 0));
    simpl; destruct (text =? "")%string eqn:Hempty; simpl;
    destruct (lower text =? "approve")%string; simpl; eauto;
    destruct (lower text =? "skip")%string; simpl; eauto.
Qed.

(** A truthy value on which [v and v.lower() == target] went through is a
    [str]. *)
Lemma lower_equals_text_only (v : PyVal) (target : string) (b : bool) :
  lower_equals v target = Ok b -> truthy v = true -> exists s, v = PyStr s.
Proof.
  unfold lower_equals, and_then. intros Hrun Htruthy. rewrite Htruthy in Hrun.
  destruct v; try discriminate Hrun. eauto.
Qed.

(** Whatever the user sent, the feedback [process_feedback_node]
    returns is a text: the value it formats into the feedback message is
    never a container. *)
Lemma process_feedback_leaves_text (mgr : EpisodicMemoryManager)
    (state u : AgentState) (stored : option EpisodeCall) :
  process_feedback_node mgr state = Ok (u, stored) ->
  exists s, user_feedback u = Some (PyStr s).
Proof.
  intros Hrun. unfold process_feedback_node in Hrun.
  unbind Hrun. unbind Hrun.
  set (user_input := dict_get (PyStr "") (user_feedback state)) in *.
  assert (Htext : truthy user_input = true -> exists s, user_input = PyStr s)
    by (apply (lower_equals_text_only _ _ _ Ha0)).
  assert (Hdecided : lower_equals user_input "approve" = Ok true
                     \/ lower_equals user_input "skip" = Ok true ->
                     exists s, user_input = PyStr s).
  { intros Hyes. apply Htext.
    destruct (truthy user_input) eqn:Htruthy; [reflexivity |].
    unfold lower_equals, and_then in Hyes. rewrite Htruthy in Hyes.
    destruct Hyes; discriminate. }
  destruct a0.
  - injection Hrun as <- _. simpl. fold user_input.
    destruct Hdecided as [s ->]; eauto.
  - unbind Hrun. destruct a0.
    + injection Hrun as <- _. simpl. fold user_input.
      destruct Hdecided as [s ->]; eauto.
    + unbind Hrun. injection Hrun as <- _. simpl.
      destruct (truthy user_input); [| eauto].
      destruct Htext as [s ->]; eauto.
Qed.

(** [after_process_feedback] on a textual feedback. *)
Lemma after_process_feedback_on_text (state : AgentState) (text : string) :
  user_feedback state = Some (PyStr text) ->
  after_process_feedback state
  = Ok (if (text =? "")%string then Goto search
        else if (lower text =? "approve")%string then Goto search
        else if (lower text =? "skip")%string then Goto direct_answer_node
        else Goto planning_node).
Proof.
  intros Hfeedback. unfold after_process_feedback.
  rewrite Hfeedback. simpl dict_get.
  rewrite lower_equals_text. unfold and_then. simpl.
  destruct (text =? "")%string; simpl; [reflexivity |].
  destruct (lower text =? "approve")%string eqn:Happrove; simpl;
    destruct (lower text =? "skip")%string eqn:Hskip; try reflexivity.
  apply String.eqb_eq in Happrove. apply String.eqb_eq in Hskip.
  rewrite Happrove in Hskip. discriminate Hskip.
Qed.

Lemma lower_empty (text : string) :
  (text =? "")%string = true -> lower text = "".
Proof.
  intros H. apply String.eqb_eq in H. subst. reflexivity.
Qed.

(** The Kelvin sign lower-cases to ["k"], so a review spelled with it reads
    as ["skip"]; white space outside ASCII is stripped like a blank. *)
Lemma lower_reads_kelvin_sign :
  lower "sKip" = "skip" /\ lower "SKIP" = "skip"
  /\ lower_equals (PyStr "sKip") "skip" = Ok true.
Proof. repeat split; reflexivity. Qed.

Lemma strip_removes_wide_space :
  strip " " = "" /\ strip "a " = "a"
  /\ parse_queries (" " ++ newline ++ " ") = [].
Proof. repeat split; reflexivity. Qed.

(** C3: resumed with a text, [human_review] stores it into
    [user_feedback] and [process_feedback_node] goes through; on the
    resulting state [after_process_feedback] answers ["search"] when the
    lower-cased text is ["approve"], ["direct_answer"] when it is ["skip"],
    and ["planning"] for any other non-empty text, which is then still in
    [user_feedback] and is the feedback the next planning prompt carries
    (given a last message to plan for).  An empty text also leads back to
    planning, with the stock request for a revision as feedback. *)
Theorem feedback_decides_route (mgr : EpisodicMemoryManager)
    (state : AgentState) (text : string) :
  exists reviewed processed stored,
    human_review (resumed_with (PyStr text)) state = Ok reviewed
    /\ user_feedback (apply_update state reviewed) = Some (PyStr text)
    /\ process_feedback_node mgr (apply_update state reviewed)
       = Ok (processed, stored)
    /\ let final := apply_update (apply_update state reviewed) processed in
       (lower text = "approve" ->
        after_process_feedback final = Ok (Goto search))
       /\ (lower text = "skip" ->
           after_process_feedback final = Ok (Goto direct_answer_node))
       /\ (lower text <> "approve" -> lower text <> "skip" ->
           after_process_feedback final = Ok (Goto planning_node)
           /\ user_feedback final = Some (PyStr (feedback_text text))
           /\ forall prompt,
                planning_prompt final = Ok prompt ->
                pp_user_feedback prompt = Some (PyStr (feedback_text text)))
       /\ (text <> "" -> feedback_text text = text).
Proof.
  set (reviewed :=
         create_state_update state (set_user_feedback (PyStr text) no_updates)).
  set (waiting := apply_update state reviewed).
  assert (Hfeedback : user_feedback waiting = Some (PyStr text)) by reflexivity.
  assert (Hmsgs : exists msgs, messages waiting = Some msgs)
    by (simpl; eauto).
  destruct Hmsgs as [msgs Hmsgs].
  destruct (process_feedback_on_text mgr waiting text msgs Hfeedback Hmsgs)
    as [stored Hrun].
  eexists reviewed, _, stored.
  split; [apply human_review_stores_text |].
  split; [exact Hfeedback |].
  split; [exact Hrun |].
  cbv zeta.
  assert (Hprompt : forall final prompt,
             planning_prompt final = Ok prompt ->
             pp_user_feedback prompt
             = (if truthy (dict_get (PyStr "") (user_feedback final))
                then Some (dict_get (PyStr "") (user_feedback final))
                else None)).
  { intros final prompt Hp. unfold planning_prompt in Hp.
    unbind Hp. unbind Hp. injection Hp as <-. reflexivity. }
  assert (Hnonempty : (feedback_text text =? "")%string = false).
  { unfold feedback_text. destruct (text =? "")%string eqn:E; [reflexivity | exact E]. }
  destruct (text =? "")%string eqn:Hempty; simpl negb; cbv iota beta.
  - (* empty text *)
    pose proof (lower_empty _ Hempty) as Hlow.
    simpl andb. cbv iota.
    refine (conj _ (conj _ (conj _ _))).
    + rewrite Hlow. discriminate.
    + rewrite Hlow. discriminate.
    + intros _ _. refine (conj _ (conj _ _)).
      * erewrite after_process_feedback_on_text by reflexivity.
        unfold feedback_text. rewrite Hempty. reflexivity.
      * reflexivity.
      * intros prompt Hp. rewrite (Hprompt _ _ Hp). simpl.
        rewrite Hnonempty. reflexivity.
    + apply String.eqb_eq in Hempty. congruence.
  - (* a non-empty text *)
    assert (Hkeep : feedback_text text = text)
      by (unfold feedback_text; rewrite Hempty; reflexivity).
    simpl andb.
    destruct (lower text =? "approve")%string eqn:Happrove;
      [| destruct (lower text =? "skip")%string eqn:Hskip];
      simpl orb; cbv iota;
      refine (conj _ (conj _ (conj _ _))); try (intros _; exact Hkeep).
    + (* approve *)
      intros _. erewrite after_process_feedback_on_text by reflexivity.
      rewrite Hempty, Happrove. reflexivity.
    + intros His_skip. apply String.eqb_eq in Happrove.
      rewrite Happrove in His_skip. discriminate His_skip.
    + intros Hnot. apply String.eqb_eq in Happrove. contradiction.
    + (* skip *)
      intros His_approve. apply String.eqb_neq in Happrove. contradiction.
    + intros _. erewrite after_process_feedback_on_text by reflexivity.
      rewrite Hempty, Happrove, Hskip. reflexivity.
    + intros _ Hnot. apply String.eqb_eq in Hskip. contradiction.
    + (* free text *)
      intros His_approve. apply String.eqb_neq in Happrove. contradiction.
    + intros His_skip. apply String.eqb_neq in Hskip. contradiction.
    + intros _ _. refine (conj _ (conj _ _)).
      * erewrite after_process_feedback_on_text
          by (rewrite Hkeep; reflexivity).
        rewrite Hempty, Happrove, Hskip. reflexivity.
      * reflexivity.
      * intros prompt Hp. rewrite (Hprompt _ _ Hp). simpl.
        rewrite Hnonempty. reflexivity.
Qed.

Lemma feedback_decides_route_witness :
  exists final,
    after_process_feedback final = Ok (Goto planning_node)
    /\ user_feedback final = Some (PyStr "add more about pricing").
Proof.
  destruct (feedback_decides_route no_memory planned_state
              "add more about pricing")
    as (reviewed & processed & stored & _ & _ & _ & _ & _ & Hfree & _).
  exists (apply_update (apply_update planned_state reviewed) processed).
  destruct Hfree as (Hroute & Hkept & _).
  - vm_compute. discriminate.
  - vm_compute. discriminate.
  - split; [exact Hroute | exact Hkept].
Defined.

(** ** The resume value *)

(** What [human_review] keeps of a resume value. *)
Lemma human_review_recovers (raw : PyVal) (state : AgentState) :
  raw <> PyDict [] ->
  human_review (resumed_with raw) state
  = Ok (create_state_update state
          (set_user_feedback
             match raw with
             | PyDict ((_, v) :: _) => v
             | _ => raw
             end
             no_updates)).
Proof.
  intros Hshape. unfold human_review, resumed_with. simpl.
  destruct raw as [| b | z | s | items | entries]; try reflexivity.
  destruct entries as [| [k v] rest]; [congruence | reflexivity].
Qed.

(** While the run waits, the step stops at [interrupt] with the review
    message. *)
Lemma human_review_suspends (state : AgentState) :
  human_review waiting_for_review state
  = Raise (GraphInterrupt (review_message state)).
Proof. reflexivity. Qed.

(** C7: resumed with the empty dict, [human_review] raises
    [StopIteration] instead of storing a feedback, whatever the state. *)
Theorem human_review_empty_dict_raises (state : AgentState) :
  human_review (resumed_with (PyDict [])) state = Raise StopIteration.
Proof. reflexivity. Qed.

(** ** The question a cycle is about *)

(** Planning takes the content of the last message as the question, and
    returns it as [original_query]. *)
Lemma planning_reads_last_message
    (astream : PlanningPrompt -> result (list string))
    (state returned : AgentState) (front : list Message) (m : Message) :
  messages state = Some (front ++ [m])%list ->
  planning astream state = Ok returned ->
  original_query returned = Some (human_content m).
Proof.
  intros Hmsgs Hrun. unfold planning in Hrun. unbind Hrun. unbind Hrun.
  injection Hrun as <-.
  unfold planning_prompt in Ha. rewrite Hmsgs in Ha.
  cbn [get_item bind] in Ha. rewrite py_index_last in Ha.
  cbn [bind] in Ha. injection Ha as <-. reflexivity.
Qed.

(** C9: a run on the Paris question, reviewed with the free text
    "add more about pricing", is back at planning after five steps with
    [original_query] still the question; the planning step that follows
    returns the feedback message as [original_query]. *)
Theorem replanning_overwrites_original_query :
  exists at_replanning replanned,
    run pricing_review 5 classification_node (start sample_input)
    = Ok (at_replanning, Goto planning_node)
    /\ original_query at_replanning = Some paris_question
    /\ planning (planning_stream pricing_review) at_replanning = Ok replanned
    /\ original_query replanned
       = Some "User feedback on planned queries: add more about pricing"
    /\ original_query (apply_update at_replanning replanned)
       = Some "User feedback on planned queries: add more about pricing".
Proof.
  do 2 eexists.
  split; [vm_compute; reflexivity |].
  split; [reflexivity |].
  split; [vm_compute; reflexivity |].
  split; reflexivity.
Qed.

(** ** Complete updates *)






Lemma classification_update_shape
    (llm : ClassificationPrompt -> result QueryClassification)
    (state : AgentState) (c : Command) :
  classification llm state = Ok c ->
  exists current_query,
    (goto c = planning_node
     /\ update c = mkState None (Some 0) (Some current_query) (Some [])
                     (Some []) (Some true) None)
    \/ (goto c = direct_answer_node
        /\ update c = mkState None None (Some current_query) None None
                        (Some false) None).
Proof.
  intros Hrun. unfold classification in Hrun.
  unbind Hrun. unbind Hrun. unbind Hrun.
  exists (human_content a0).
  destruct (classification_label a1); injection Hrun as <-; auto.
Qed.



(** ** The episodic advisor *)

Lemma find_similar_episodes_total (get_store : result (option Store))
    (self : EpisodicMemoryManager) (current_query : string)
    (planned_searches : list string) :
  exists episodes,
    find_similar_episodes get_store self current_query planned_searches
    = Ok episodes.
Proof.
  unfold find_similar_episodes. apply try_except_total.
Qed.

(** Hits that are not well-formed episodes are left out. *)
Lemma find_similar_episodes_hits (store : Store)
    (self : EpisodicMemoryManager) (current_query : string)
    (planned_searches : list string) (hits : list StoreItem) :
  config_given (config self) = true ->
  (forall namespace content limit,
      store_search store namespace content limit = Ok hits) ->
  find_similar_episodes (Ok (Some store)) self current_query planned_searches
  = Ok (flat_map episode_of hits).
Proof.
  intros Hconfig Hsearch. unfold find_similar_episodes.
  rewrite Hconfig. simpl. rewrite Hsearch. reflexivity.
Qed.

Lemma find_similar_episodes_without_store (get_store : result (option Store))
    (self : EpisodicMemoryManager) (current_query : string)
    (planned_searches : list string) :
  config_given (config self) = false
  \/ get_store = Ok None
  \/ (exists e, get_store = Raise e)
  \/ (exists store, get_store = Ok (Some store)
        /\ forall namespace content limit,
             exists e, store_search store namespace content limit = Raise e) ->
  find_similar_episodes get_store self current_query planned_searches = Ok [].
Proof.
  unfold find_similar_episodes.
  intros [Hconfig | [Hnone | [[e He] | (store & Hstore & Hfails)]]].
  - rewrite Hconfig. reflexivity.
  - rewrite Hnone. destruct (config_given (config self)); reflexivity.
  - rewrite He. destruct (config_given (config self)); reflexivity.
  - rewrite Hstore. destruct (config_given (config self)); [| reflexivity].
    simpl.
    match goal with
    | |- context [store_search store ?n ?c ?l] =>
        destruct (Hfails n c l) as [e ->]
    end.
    reflexivity.
Qed.

Lemma should_auto_decide_total (get_store : result (option Store))
    (self : EpisodicMemoryManager) (current_query : string)
    (planned_searches : list string) :
  exists outcome,
    should_auto_decide get_store self current_query planned_searches
    = Ok outcome.
Proof.
  unfold should_auto_decide.
  destruct (negb (is_enabled self)); [eauto | apply try_except_total].
Qed.

Lemma should_auto_decide_few_episodes (get_store : result (option Store))
    (self : EpisodicMemoryManager) (current_query : string)
    (planned_searches : list string) (episodes : list EpisodicReviewMemory) :
  find_similar_episodes get_store self current_query planned_searches
  = Ok episodes ->
  len episodes < 3 ->
  should_auto_decide get_store self current_query planned_searches = Ok None.
Proof.
  intros Hfound Hfew. unfold should_auto_decide.
  destruct (negb (is_enabled self)); [reflexivity |].
  rewrite Hfound. simpl.
  destruct (len episodes <? 3) eqn:Hcmp; [reflexivity |].
  apply Z.ltb_ge in Hcmp. lia.
Qed.

(** C6, as the code has it: a malformed stored episode among the hits does
    not keep the advisor from deciding. *)
Lemma malformed_episode_does_not_silence_advisor :
  episode_of (stored_episode "maybe") = []
  /\ In (stored_episode "maybe") sample_hits
  /\ should_auto_decide (Ok (Some sample_store)) sample_manager
       "weather in Paris" ["paris weather"]
     = Ok (Some approve).
Proof.
  split; [reflexivity |]. split; [simpl; auto |]. reflexivity.
Qed.

(** C6 (amended): [should_auto_decide] never raises.  When it returns a
    decision, at least 3 well-formed similar episodes were found, the chat
    model answered with that decision, the decision is approve or skip and
    its confidence, compared after the model call, is at least 0.8.  A
    manager without [langmem], a missing config or store, a failing lookup
    and a failing model call all give [None]; a malformed stored episode
    is left out of the similar episodes, and the advisor answers [None]
    whenever fewer than 3 well-formed ones remain. *)
Theorem advisor_decides_only_on_evidence (get_store : result (option Store))
    (self : EpisodicMemoryManager) (current_query : string)
    (planned_searches : list string) :
  let advice :=
    should_auto_decide get_store self current_query planned_searches in
  (exists outcome, advice = Ok outcome)
  /\ (forall d,
        advice = Ok (Some d) ->
        exists episodes invoke answer,
          find_similar_episodes get_store self current_query planned_searches
          = Ok episodes
          /\ 3 <= len episodes
          /\ llm self = Some invoke
          /\ invoke (mkDecisionPrompt current_query
                       (join ", " planned_searches)
                       (episodes_context episodes)) = Ok answer
          /\ decision answer = d
          /\ (d = approve \/ d = skip)
          /\ PrimFloat.leb confidence_threshold (ed_confidence answer) = true)
  /\ (is_enabled self = false -> advice = Ok None)
  /\ (config_given (config self) = false
      \/ get_store = Ok None
      \/ (exists e, get_store = Raise e)
      \/ (exists store, get_store = Ok (Some store)
            /\ forall namespace content limit,
                 exists e, store_search store namespace content limit = Raise e) ->
      advice = Ok None)
  /\ ((forall invoke prompt,
         llm self = Some invoke -> exists e, invoke prompt = Raise e) ->
      advice = Ok None)
  /\ (forall store hits,
        get_store = Ok (Some store) ->
        config_given (config self) = true ->
        (forall namespace content limit,
            store_search store namespace content limit = Ok hits) ->
        find_similar_episodes get_store self current_query planned_searches
        = Ok (flat_map episode_of hits)
        /\ (len (flat_map episode_of hits) < 3 -> advice = Ok None)).
Proof.
  cbv zeta.
  refine (conj _ (conj _ (conj _ (conj _ (conj _ _))))).
  - apply should_auto_decide_total.
  - intros d Hadvice. unfold should_auto_decide in Hadvice.
    destruct (negb (is_enabled self)); [discriminate Hadvice |].
    destruct (find_similar_episodes_total get_store self current_query
                planned_searches) as [episodes Hfound].
    rewrite Hfound in Hadvice. simpl in Hadvice.
    destruct (len episodes <? 3) eqn:Hcmp; [discriminate Hadvice |].
    apply Z.ltb_ge in Hcmp.
    unfold llm_decide_with_episodes in Hadvice.
    destruct (llm self) as [invoke |]; [| discriminate Hadvice].
    simpl in Hadvice.
    destruct (invoke (mkDecisionPrompt current_query
                        (join ", " planned_searches)
                        (episodes_context episodes)))
      as [answer | e] eqn:Hanswer; [| discriminate Hadvice].
    simpl in Hadvice.
    destruct (confident answer) eqn:Hconfident; [| discriminate Hadvice].
    injection Hadvice as <-.
    unfold confident in Hconfident. apply andb_prop in Hconfident.
    destruct Hconfident as [Hthreshold Hkind].
    exists episodes, invoke, answer.
    repeat split; auto.
    destruct (decision answer); auto. discriminate Hkind.
  - intros Hdisabled. unfold should_auto_decide. rewrite Hdisabled.
    reflexivity.
  - intros Hwithout.
    apply (should_auto_decide_few_episodes _ _ _ _ []).
    + apply find_similar_episodes_without_store. exact Hwithout.
    + reflexivity.
  - intros Hfails. unfold should_auto_decide.
    destruct (negb (is_enabled self)); [reflexivity |].
    destruct (find_similar_episodes_total get_store self current_query
                planned_searches) as [episodes ->].
    simpl. destruct (len episodes <? 3); [reflexivity |].
    unfold llm_decide_with_episodes.
    destruct (llm self) as [invoke |] eqn:Hllm; [| reflexivity].
    simpl.
    match goal with
    | |- context [invoke ?p] => destruct (Hfails invoke p eq_refl) as [e ->]
    end.
    reflexivity.
  - intros store hits -> Hconfig Hsearch.
    pose proof (find_similar_episodes_hits store self current_query
                  planned_searches hits Hconfig Hsearch) as Hfound.
    split; [exact Hfound |].
    intros Hfew. exact (should_auto_decide_few_episodes _ _ _ _ _ Hfound Hfew).
Qed.

Lemma advisor_decides_only_on_evidence_witness :
  exists episodes answer,
    find_similar_episodes (Ok (Some sample_store)) sample_manager
      "weather in Paris" ["paris weather"] = Ok episodes
    /\ 3 <= len episodes
    /\ decision answer = approve
    /\ PrimFloat.leb confidence_threshold (ed_confidence answer) = true.
Proof.
  destruct (advisor_decides_only_on_evidence (Ok (Some sample_store))
              sample_manager "weather in Paris" ["paris weather"])
    as (_ & Hdecided & _).
  destruct (Hdecided approve eq_refl)
    as (episodes & invoke & answer & Hfound & Hmany & _ & _ & Hd & _ & Hconf).
  exists episodes, answer. auto.
Defined.

(** ** The reducer appends a new message *)

Lemma max_id_bounds (ms : list Message) : ids_below (S (max_id ms)) ms.
Proof.
  unfold ids_below. induction ms as [| m rest IH]; [constructor |].
  simpl. constructor.
  - intros i Hi. rewrite Hi. lia.
  - eapply Forall_impl; [| exact IH].
    intros x Hx i Hi. specialize (Hx i Hi).
    destruct (msg_id m); lia.
Qed.

Lemma ids_below_weaken (low high : nat) (ms : list Message) :
  (low <= high)%nat -> ids_below low ms -> ids_below high ms.
Proof.
  intros Hle. unfold ids_below. apply Forall_impl.
  intros m Hm i Hi. specialize (Hm i Hi). lia.
Qed.

Lemma identified_below_weaken (low high : nat) (ms : list Message) :
  (low <= high)%nat -> identified_below low ms -> identified_below high ms.
Proof.
  intros Hle. unfold identified_below. apply Forall_impl.
  intros m (i & Hi & Hlt). exists i. split; [exact Hi | lia].
Qed.

Lemma max_id_app (front back : list Message) :
  (max_id front <= max_id (front ++ back))%nat.
Proof.
  induction front as [| m rest IH]; simpl; [lia |].
  destruct (msg_id m); lia.
Qed.

Lemma assign_ids_identifies (fresh : nat) (ms : list Message) :
  ids_below fresh ms ->
  (fresh <= fst (assign_ids fresh ms))%nat
  /\ identified_below (fst (assign_ids fresh ms)) (snd (assign_ids fresh ms)).
Proof.
  revert fresh. induction ms as [| m rest IH]; intros fresh Hbelow; simpl.
  - split; [lia | constructor].
  - inversion Hbelow as [| ? ? Hm Hrest]; subst.
    destruct (msg_id m) as [i |] eqn:Hid.
    + destruct (IH fresh Hrest) as [Hle Hids].
      destruct (assign_ids fresh rest) as [next rest']. simpl in *.
      split; [exact Hle |].
      constructor; [| exact Hids].
      exists i. split; [exact Hid |]. specialize (Hm i eq_refl). lia.
    + destruct (IH (S fresh)) as [Hle Hids].
      { eapply ids_below_weaken; [| exact Hrest]. lia. }
      destruct (assign_ids (S fresh) rest) as [next rest']. simpl in *.
      split; [lia |].
      constructor; [| exact Hids].
      exists fresh. split; [reflexivity | lia].
Qed.

Lemma assign_ids_new_last (fresh : nat) (front : list Message) (m : Message) :
  msg_id m = None ->
  assign_ids fresh (front ++ [m])
  = (S (fst (assign_ids fresh front)),
     snd (assign_ids fresh front) ++ [with_id (fst (assign_ids fresh front)) m])%list.
Proof.
  intros Hnew. revert fresh.
  induction front as [| x rest IH]; intros fresh; simpl.
  - rewrite Hnew. reflexivity.
  - destruct (msg_id x).
    + rewrite IH. destruct (assign_ids fresh rest). reflexivity.
    + rewrite IH. destruct (assign_ids (S fresh) rest). reflexivity.
Qed.

Lemma replace_by_id_absent (i : nat) (m : Message) (merged : list Message) :
  identified_below i merged -> replace_by_id i m merged = None.
Proof.
  induction 1 as [| x rest (j & Hj & Hlt) _ IH]; simpl; [reflexivity |].
  rewrite IH. unfold has_id. rewrite Hj.
  destruct (Nat.eqb_spec i j); [lia | reflexivity].
Qed.

Lemma replace_by_id_identified (bound i : nat) (m : Message)
    (merged merged' : list Message) :
  identified_below bound merged ->
  identified_below bound [m] ->
  replace_by_id i m merged = Some merged' ->
  identified_below bound merged'.
Proof.
  intros Hmerged Hm. revert merged'.
  induction Hmerged as [| x rest Hx Hrest IH]; intros merged' Hreplace;
    simpl in Hreplace; [discriminate |].
  destruct (replace_by_id i m rest) as [rest' |].
  - injection Hreplace as <-. constructor; [exact Hx | apply IH; reflexivity].
  - destruct (has_id i x); [| discriminate].
    injection Hreplace as <-. inversion Hm; subst.
    constructor; assumption.
Qed.

Lemma merge_message_identified (bound : nat) (merged : list Message)
    (m : Message) :
  identified_below bound merged ->
  identified_below bound [m] ->
  identified_below bound (merge_message merged m).
Proof.
  intros Hmerged Hm. unfold merge_message.
  assert (Happend : identified_below bound (merged ++ [m]))
    by (apply Forall_app; split; assumption).
  destruct (msg_id m) as [i |]; [| exact Happend].
  destruct (replace_by_id i m merged) as [merged' |] eqn:Hreplace;
    [| exact Happend].
  exact (replace_by_id_identified _ _ _ _ _ Hmerged Hm Hreplace).
Qed.

Lemma fold_merge_identified (bound : nat) (incoming merged : list Message) :
  identified_below bound merged ->
  identified_below bound incoming ->
  identified_below bound (fold_left merge_message incoming merged).
Proof.
  revert merged. induction incoming as [| m rest IH]; intros merged Hm Hin;
    simpl; [exact Hm |].
  inversion Hin; subst. apply IH; [| assumption].
  apply merge_message_identified; [exact Hm |].
  constructor; [assumption | constructor].
Qed.

(** A message without identifier at the end of the incoming list ends up
    last in the merged list, under a new identifier. *)
Lemma add_messages_appends_new (existing front : list Message) (m : Message) :
  msg_id m = None ->
  exists merged i,
    add_messages existing (front ++ [m]) = (merged ++ [with_id i m])%list.
Proof.
  intros Hnew. unfold add_messages.
  set (fresh := S (Nat.max (max_id existing) (max_id (front ++ [m])))).
  assert (Hexisting : ids_below fresh existing).
  { eapply ids_below_weaken; [| apply max_id_bounds]. unfold fresh. lia. }
  assert (Hfront : ids_below fresh front).
  { eapply ids_below_weaken; [| apply max_id_bounds].
    pose proof (max_id_app front [m]). unfold fresh. lia. }
  destruct (assign_ids_identifies fresh existing Hexisting) as [Hle Hids].
  destruct (assign_ids fresh existing) as [next existing'] eqn:Hassign.
  simpl in Hle, Hids.
  rewrite (assign_ids_new_last next front m Hnew).
  destruct (assign_ids_identifies next front) as [Hle' Hids'].
  { eapply ids_below_weaken; [exact Hle | exact Hfront]. }
  destruct (assign_ids next front) as [last_id front'] eqn:Hassign'.
  simpl in Hle', Hids'. simpl fst. simpl snd.
  rewrite fold_left_app. simpl.
  set (merged := fold_left merge_message front' existing').
  assert (Hmerged : identified_below last_id merged).
  { apply fold_merge_identified; [| exact Hids'].
    eapply identified_below_weaken; [exact Hle' | exact Hids]. }
  exists merged, last_id. unfold merge_message. simpl.
  rewrite (replace_by_id_absent _ _ _ Hmerged). reflexivity.
Qed.

(** After a free-text review, planning takes the feedback message for the
    user's question: the [original_query] it returns is that message. *)
Lemma replanning_takes_feedback_for_question (mgr : EpisodicMemoryManager)
    (astream : PlanningPrompt -> result (list string))
    (state returned : AgentState) (text : string) :
  lower text <> "approve" -> lower text <> "skip" ->
  exists reviewed processed stored,
    human_review (resumed_with (PyStr text)) state = Ok reviewed
    /\ process_feedback_node mgr (apply_update state reviewed)
       = Ok (processed, stored)
    /\ (planning astream
          (apply_update (apply_update state reviewed) processed) = Ok returned ->
        original_query returned
        = Some ("User feedback on planned queries: " ++ feedback_text text)).
Proof.
  intros Hnot_approve Hnot_skip.
  set (reviewed :=
         create_state_update state (set_user_feedback (PyStr text) no_updates)).
  set (waiting := apply_update state reviewed).
  assert (Hmsgs : exists msgs, messages waiting = Some msgs) by (simpl; eauto).
  destruct Hmsgs as [msgs Hmsgs].
  destruct (process_feedback_on_text mgr waiting text msgs eq_refl Hmsgs)
    as [stored Hrun].
  apply String.eqb_neq in Hnot_approve, Hnot_skip.
  rewrite Hnot_approve, Hnot_skip, andb_false_r in Hrun.
  eexists reviewed, _, stored.
  split; [reflexivity |]. split; [exact Hrun |].
  intros Hplan.
  destruct (add_messages_appends_new (dict_get [] (messages waiting)) msgs
              (HumanMessage ("User feedback on planned queries: "
                             ++ feedback_text text)) eq_refl)
    as (merged & i & Hmerged).
  refine (planning_reads_last_message astream _ returned merged
            (with_id i (HumanMessage ("User feedback on planned queries: "
                                      ++ feedback_text text))) _ Hplan).
  rewrite <- Hmerged. reflexivity.
Qed.

(** * Further properties of the code *)

(** ** Tags and episodes ([memory.py]) *)

Lemma assess_query_complexity_allowed (query : string) :
  existsb (String.eqb (assess_query_complexity query))
    ["simple"; "moderate"; "complex"] = true.
Proof.
  unfold assess_query_complexity.
  destruct (existsb (contains (lower query)) ["weather"; "time"; "what is"]);
    [reflexivity |].
  destruct (existsb (contains (lower query))
              ["compare"; "analyze"; "research"; "comprehensive"]);
    reflexivity.
Qed.

Lemma assess_search_quality_allowed (searches : list string) :
  existsb (String.eqb (assess_search_quality searches))
    ["focused"; "broad"; "specific"; "comprehensive"] = true.
Proof.
  unfold assess_search_quality.
  destruct (len searches <=? 1); [reflexivity |].
  destruct (len searches >=? 4); [reflexivity |].
  destruct (existsb (fun search => (50 <? str_len search)%nat) searches);
    reflexivity.
Qed.

Lemma str_items_of_strings (items : list string) :
  str_items (map PyStr items) = Ok items.
Proof.
  induction items as [| s rest IH]; simpl; [reflexivity |].
  rewrite IH. reflexivity.
Qed.

(** X1: a plan that [planning] parsed from the model's answer is never
    tagged "comprehensive": the tag needs 4 searches and a plan has at
    most 3. *)
Theorem planned_searches_never_comprehensive (response_content : string) :
  assess_search_quality (parse_queries response_content) <> "comprehensive".
Proof.
  unfold assess_search_quality.
  pose proof (parse_queries_at_most_three response_content) as Hshort.
  destruct (len (parse_queries response_content) <=? 1); [discriminate |].
  destruct (len (parse_queries response_content) >=? 4) eqn:Hmany.
  - apply Z.geb_le in Hmany. unfold len in Hmany. lia.
  - destruct (existsb (fun search => (50 <? str_len search)%nat)
                (parse_queries response_content)); discriminate.
Qed.

(** The shapes [Optional[str]] lets through. *)
Lemma validate_episode_fields (original_query : string)
    (planned_searches : list string) (user_decision : string)
    (user_feedback_text : option PyVal) (now : string) :
  existsb (String.eqb user_decision) ["approve"; "skip"; "feedback"] = true ->
  optional_text user_feedback_text = true ->
  validate_episode
    (episode_fields original_query planned_searches user_decision
       user_feedback_text now)
  = Ok (mkEpisodicReviewMemory original_query planned_searches user_decision
          match user_feedback_text with
          | Some (PyStr text) => Some text
          | _ => None
          end
          (generate_decision_context original_query planned_searches
             user_decision user_feedback_text)
          (assess_query_complexity original_query)
          (assess_search_quality planned_searches) now).
Proof.
  intros Hdecision Htext.
  unfold validate_episode, episode_fields, literal_field, str_list_field,
    optional_str_field.
  unfold str_field.
  cbn [lookup String.eqb Ascii.eqb Bool.eqb bind].
  rewrite str_items_of_strings. cbn [bind].
  rewrite Hdecision.
  rewrite assess_query_complexity_allowed, assess_search_quality_allowed.
  destruct user_feedback_text as [[| b | z | s | items | entries] |];
    try discriminate Htext; reflexivity.
Qed.

Lemma user_action_allowed (user_input : PyVal) (action : string) :
  user_action user_input = Ok action ->
  existsb (String.eqb action) ["approve"; "skip"; "feedback"] = true.
Proof.
  unfold user_action. intros Hrun. unbind Hrun.
  destruct a; [injection Hrun as <-; reflexivity |].
  unbind Hrun. destruct a; injection Hrun as <-; reflexivity.
Qed.

Lemma enabled_has_episode_manager (self : EpisodicMemoryManager) :
  is_enabled self = true -> exists m, episode_manager self = Some m.
Proof.
  unfold is_enabled. destruct (episode_manager self); [eauto | discriminate].
Qed.

(** X2: with the advisor enabled, a question and a plan in the state, every
    textual review is recorded: [process_feedback_node] asks for an episode
    with the question, the plan and the action it read off the text
    (approve, skip or feedback), and [store_episode] builds a valid episode
    from that call and hands it to the langmem manager. *)
Theorem textual_review_is_recorded (invoke : string -> result unit)
    (now : string) (mgr : EpisodicMemoryManager) (state : AgentState)
    (text : string) (msgs : list Message) :
  is_enabled mgr = true ->
  dict_get "" (original_query state) <> "" ->
  plan_of state <> [] ->
  user_feedback state = Some (PyStr text) ->
  messages state = Some msgs ->
  (forall message, invoke message = Ok tt) ->
  exists u call message,
    process_feedback_node mgr state = Ok (u, Some call)
    /\ user_action (PyStr text) = Ok (ec_user_decision call)
    /\ ec_original_query call = dict_get "" (original_query state)
    /\ ec_planned_searches call = plan_of state
    /\ store_call invoke now mgr call = Ok (store_sent message).
Proof.
  intros Henabled Hquery Hplan Hfeedback Hmsgs Hinvoke.
  destruct (process_feedback_on_text mgr state text msgs Hfeedback Hmsgs)
    as [stored Hrun].
  destruct (user_action_text text) as [action Haction].
  assert (Hstored :
            stored
            = Some (mkEpisodeCall (dict_get "" (original_query state))
                      (plan_of state) action
                      (if (action =? "feedback")%string
                       then Some (PyStr text) else None))).
  { unfold process_feedback_node in Hrun.
    rewrite Hfeedback, Hmsgs, Henabled in Hrun. simpl dict_get in Hrun.
    fold (plan_of state) in Hrun.
    apply String.eqb_neq in Hquery. rewrite Hquery in Hrun.
    assert (Hlen : (len (plan_of state) =? 0) = false).
    { apply Z.eqb_neq. unfold len. destruct (plan_of state);
        [congruence | simpl; lia]. }
    rewrite Hlen, Haction in Hrun. simpl in Hrun.
    rewrite !lower_equals_text in Hrun. simpl in Hrun.
    destruct (negb (text =? "")%string && (lower text =? "approve")%string);
      simpl in Hrun; [congruence |].
    destruct (negb (text =? "")%string && (lower text =? "skip")%string);
      simpl in Hrun; congruence. }
  subst stored.
  eexists _, _, _. split; [exact Hrun |]. simpl.
  split; [exact Haction |]. split; [reflexivity |]. split; [reflexivity |].
  unfold store_call, store_episode. simpl. rewrite Henabled. simpl.
  rewrite validate_episode_fields.
  - simpl. destruct (enabled_has_episode_manager mgr Henabled) as [m ->].
    rewrite Hinvoke. reflexivity.
  - exact (user_action_allowed _ _ Haction).
  - destruct (action =? "feedback")%string; reflexivity.
Qed.

Lemma textual_review_is_recorded_witness :
  exists u call message,
    process_feedback_node sample_manager reviewed_state = Ok (u, Some call)
    /\ ec_user_decision call = "feedback"
    /\ store_call (fun _ => Ok tt) "2025-01-01T00:00:00" sample_manager call
       = Ok (store_sent message).
Proof.
  destruct (textual_review_is_recorded (fun _ => Ok tt) "2025-01-01T00:00:00"
              sample_manager reviewed_state "add more about pricing"
              [HumanMessage paris_question])
    as (u & call & message & Hrun & Haction & _ & _ & Hstored);
    try reflexivity; try discriminate.
  exists u, call, message. split; [exact Hrun |]. split; [| exact Hstored].
  assert (Hread : user_action (PyStr "add more about pricing") = Ok "feedback")
    by reflexivity.
  rewrite Hread in Haction. injection Haction as <-. reflexivity.
Defined.

Lemma literal_field_allowed (key : string) (allowed : list string)
    (entries : list (string * PyVal)) (s : string) :
  literal_field key allowed entries = Ok s ->
  existsb (String.eqb s) allowed = true.
Proof.
  unfold literal_field. intros Hrun. unbind Hrun.
  destruct (existsb (String.eqb a) allowed) eqn:Hin; [| discriminate Hrun].
  injection Hrun as <-. exact Hin.
Qed.

Lemma validate_episode_sound (entries : list (string * PyVal))
    (episode : EpisodicReviewMemory) :
  validate_episode entries = Ok episode ->
  well_formed_episode episode = true.
Proof.
  unfold validate_episode. intros Hrun.
  repeat unbind Hrun. injection Hrun as <-.
  unfold well_formed_episode. cbn [erm_user_decision erm_query_complexity
                                     erm_search_quality].
  erewrite !literal_field_allowed by eassumption. reflexivity.
Qed.

Lemma episodes_of_hits_well_formed (hits : list StoreItem) :
  forallb well_formed_episode (flat_map episode_of hits) = true.
Proof.
  induction hits as [| item rest IH]; simpl; [reflexivity |].
  rewrite forallb_app, IH, andb_true_r.
  unfold episode_of.
  destruct (value item) as [[| b | z | s | l | entries] |]; try reflexivity.
  destruct (validate_episode entries) as [episode | e] eqn:Hvalid;
    [| reflexivity].
  simpl. rewrite (validate_episode_sound _ _ Hvalid). reflexivity.
Qed.

(** X3: whatever the store holds and however the lookup goes, every
    episode that [_find_similar_episodes] returns, and so every episode
    shown to the model, carries a decision, a complexity and a search
    quality from the declared lists. *)
Theorem similar_episodes_are_well_formed (get_store : result (option Store))
    (self : EpisodicMemoryManager) (current_query : string)
    (planned_searches : list string) (episodes : list EpisodicReviewMemory) :
  find_similar_episodes get_store self current_query planned_searches
  = Ok episodes ->
  forallb well_formed_episode episodes = true.
Proof.
  unfold find_similar_episodes. intros Hfound.
  destruct (if config_given (config self) then get_store else Ok None)
    as [[store |] | e]; simpl in Hfound.
  - match type of Hfound with
    | context [store_search ?st ?n ?c ?l] =>
        destruct (store_search st n c l) as [hits | e]; simpl in Hfound
    end.
    + injection Hfound as <-. apply episodes_of_hits_well_formed.
    + injection Hfound as <-. reflexivity.
  - injection Hfound as <-. reflexivity.
  - injection Hfound as <-. reflexivity.
Qed.

Lemma similar_episodes_are_well_formed_witness :
  exists episodes,
    find_similar_episodes (Ok (Some sample_store)) sample_manager
      "weather in Paris" ["paris weather"] = Ok episodes
    /\ List.length episodes = 3%nat
    /\ forallb well_formed_episode episodes = true.
Proof.
  eexists. split; [reflexivity |]. split; [reflexivity |].
  apply (similar_episodes_are_well_formed (Ok (Some sample_store))
           sample_manager "weather in Paris" ["paris weather"]).
  reflexivity.
Defined.

(** ** What each step does to the search phase ([agent.py]) *)

(** The effect of one step on the cursor, the plan and the results. *)
Lemma run_node_search_phase_effect (env : Services) (n : Node)
    (state u : AgentState) (target : option Node) :
  run_node env n state = Ok (u, target) ->
  let merged := apply_update state u in
  (count_of merged = count_of state
   /\ plan_of merged = plan_of state
   /\ found_of merged = found_of state)
  \/ ((n = classification_node \/ n = planning_node)
      /\ count_of merged = 0 /\ found_of merged = []
      /\ (n = classification_node -> plan_of merged = []))
  \/ (n = search
      /\ count_of state < len (plan_of state)
      /\ count_of merged = count_of state + 1
      /\ plan_of merged = plan_of state
      /\ exists current_query found,
           py_index (plan_of state) (count_of state) = Ok current_query
           /\ tavily_search env current_query = Ok found
           /\ found_of merged
              = (found_of state ++ [mkSearchResult current_query found])%list).
Proof.
  intros Hrun. cbv zeta.
  assert (Hframe : forall updates,
             search_count updates = None -> planned_queries updates = None ->
             search_results updates = None ->
             u = create_state_update state updates ->
             count_of (apply_update state u) = count_of state
             /\ plan_of (apply_update state u) = plan_of state
             /\ found_of (apply_update state u) = found_of state).
  { intros updates Hc Hp Hf ->.
    destruct (merged_create_state_update state updates) as (-> & -> & ->).
    rewrite Hc, Hp, Hf. auto. }
  destruct n; simpl in Hrun.
  - (* classification *)
    unbind Hrun. injection Hrun as <- <-.
    destruct (classification_update_shape _ _ _ Ha)
      as [current_query [[_ ->] | [_ ->]]].
    + right. left. repeat split; auto.
    + left. rewrite count_of_apply_update, plan_of_apply_update,
        found_of_apply_update. auto.
  - (* direct_answer *)
    unbind Hrun. injection Hrun as <- <-.
    unfold direct_answer in Ha. unbind Ha. unbind Ha. unbind Ha.
    injection Ha as <-. left. (eapply Hframe; [| | | reflexivity]; reflexivity).
  - (* planning *)
    unbind Hrun. injection Hrun as <- <-.
    unfold planning in Ha. unbind Ha. unbind Ha. injection Ha as <-.
    right. left.
    match goal with
    | |- context [create_state_update state ?upd] =>
        destruct (merged_create_state_update state upd) as (-> & _ & ->)
    end.
    repeat split; auto. discriminate.
  - (* memory_check *)
    unbind Hrun. injection Hrun as <- <-.
    unfold memory_check_node in Ha.
    destruct (is_enabled (memory_manager env)
              && negb (dict_get "" (original_query state) =? "")%string
              && negb (len (dict_get [] (planned_queries state)) =? 0)).
    + unbind Ha. left.
      destruct a0; injection Ha as <-; (eapply Hframe; [| | | reflexivity]; reflexivity).
    + injection Ha as <-. left. (eapply Hframe; [| | | reflexivity]; reflexivity).
  - (* human_review *)
    unbind Hrun. injection Hrun as <- <-.
    unfold human_review in Ha. unbind Ha. unbind Ha. injection Ha as <-.
    left. (eapply Hframe; [| | | reflexivity]; reflexivity).
  - (* process_feedback *)
    unbind Hrun. injection Hrun as <- <-.
    unfold process_feedback_node in Ha. unbind Ha. unbind Ha.
    left. destruct a1.
    + injection Ha as <-. simpl. (eapply Hframe; [| | | reflexivity]; reflexivity).
    + unbind Ha. destruct a1.
      * injection Ha as <-. simpl. (eapply Hframe; [| | | reflexivity]; reflexivity).
      * unbind Ha. injection Ha as <-. simpl. (eapply Hframe; [| | | reflexivity]; reflexivity).
  - (* search *)
    unbind Hrun. injection Hrun as <- <-.
    destruct (Z_lt_ge_dec (count_of state) (len (plan_of state))) as [Hlt | Hge].
    + right. right.
      destruct (search_execution_pending _ _ _ Hlt Ha)
        as (q & found & Hq & Hfound & ->).
      match goal with
      | |- context [create_state_update state ?upd] =>
          destruct (merged_create_state_update state upd) as (-> & -> & ->)
      end.
      simpl. repeat split; auto. exists q, found. auto.
    + left. rewrite (search_execution_exhausted _ _ Hge) in Ha.
      injection Ha as <-.
      rewrite count_of_apply_update, plan_of_apply_update,
        found_of_apply_update.
      unfold count_of, plan_of, found_of.
      destruct (search_count state), (planned_queries state),
        (search_results state); auto.
  - (* pre_summarize *)
    injection Hrun as <- <-. left. unfold pre_summarize_node.
    (eapply Hframe; [| | | reflexivity]; reflexivity).
  - (* summarize *)
    unbind Hrun. injection Hrun as <- <-.
    unfold summarization_node in Ha. unbind Ha. injection Ha as <-.
    left. (eapply Hframe; [| | | reflexivity]; reflexivity).
Qed.


(** X4: the effect of each step on the search cursor, the plan and the
    results, once its update is merged.  Classification that routes to
    planning resets the cursor to 0 and the plan and the results to the
    empty list, and classification that routes to direct_answer leaves the
    three as they were; planning resets the cursor to 0 and the results to
    the empty list and sets the plan to the queries parsed from the model's
    answer; a search step with a query pending adds 1 to the cursor and one
    result, for that query, at the end, keeping the plan, and a search step
    with nothing pending leaves the three as they were; so does every other
    step. *)
Theorem steps_frame_the_search_phase (env : Services) (n : Node)
    (state u : AgentState) (target : option Node) :
  run_node env n state = Ok (u, target) ->
  let merged := apply_update state u in
  let unchanged :=
    count_of merged = count_of state
    /\ plan_of merged = plan_of state
    /\ found_of merged = found_of state in
  match n with
  | classification_node =>
      (target = Some planning_node
       /\ count_of merged = 0 /\ plan_of merged = [] /\ found_of merged = [])
      \/ (target = Some direct_answer_node /\ unchanged)
  | planning_node =>
      count_of merged = 0
      /\ found_of merged = []
      /\ exists prompt chunks,
           planning_stream env prompt = Ok chunks
           /\ plan_of merged = parse_queries (collect_stream chunks)
  | search =>
      (count_of state < len (plan_of state)
       /\ count_of merged = count_of state + 1
       /\ plan_of merged = plan_of state
       /\ exists current_query found,
            py_index (plan_of state) (count_of state) = Ok current_query
            /\ tavily_search env current_query = Ok found
            /\ found_of merged
               = (found_of state ++ [mkSearchResult current_query found])%list)
      \/ (count_of state >= len (plan_of state) /\ unchanged)
  | direct_answer_node | memory_check | human_review_node | process_feedback
  | pre_summarize | summarize => unchanged
  end.
Proof.
  intros Hrun. cbv zeta.
  assert (Hframe : forall updates,
             search_count updates = None -> planned_queries updates = None ->
             search_results updates = None ->
             u = create_state_update state updates ->
             count_of (apply_update state u) = count_of state
             /\ plan_of (apply_update state u) = plan_of state
             /\ found_of (apply_update state u) = found_of state).
  { intros updates Hc Hp Hf ->.
    destruct (merged_create_state_update state updates) as (-> & -> & ->).
    rewrite Hc, Hp, Hf. auto. }
  destruct n; simpl in Hrun.
  - (* classification *)
    unbind Hrun. injection Hrun as <- <-.
    destruct (classification_update_shape _ _ _ Ha)
      as [current_query [[-> ->] | [-> ->]]].
    + left. repeat split; auto.
    + right. split; [reflexivity |].
      rewrite count_of_apply_update, plan_of_apply_update,
        found_of_apply_update. auto.
  - (* direct_answer *)
    unbind Hrun. injection Hrun as <- <-.
    unfold direct_answer in Ha. unbind Ha. unbind Ha. unbind Ha.
    injection Ha as <-. (eapply Hframe; [| | | reflexivity]; reflexivity).
  - (* planning *)
    unbind Hrun. injection Hrun as <- <-.
    unfold planning in Ha. unbind Ha. unbind Ha. injection Ha as <-.
    match goal with
    | |- context [create_state_update state ?upd] =>
        destruct (merged_create_state_update state upd) as (-> & -> & ->)
    end.
    split; [reflexivity |]. split; [reflexivity |].
    eexists _, a1. split; [exact Ha1 | reflexivity].
  - (* memory_check *)
    unbind Hrun. injection Hrun as <- <-.
    unfold memory_check_node in Ha.
    destruct (is_enabled (memory_manager env)
              && negb (dict_get "" (original_query state) =? "")%string
              && negb (len (dict_get [] (planned_queries state)) =? 0)).
    + unbind Ha.
      destruct a0; injection Ha as <-;
        (eapply Hframe; [| | | reflexivity]; reflexivity).
    + injection Ha as <-. (eapply Hframe; [| | | reflexivity]; reflexivity).
  - (* human_review *)
    unbind Hrun. injection Hrun as <- <-.
    unfold human_review in Ha. unbind Ha. unbind Ha. injection Ha as <-.
    (eapply Hframe; [| | | reflexivity]; reflexivity).
  - (* process_feedback *)
    unbind Hrun. injection Hrun as <- <-.
    unfold process_feedback_node in Ha. unbind Ha. unbind Ha.
    destruct a1.
    + injection Ha as <-. simpl.
      (eapply Hframe; [| | | reflexivity]; reflexivity).
    + unbind Ha. destruct a1.
      * injection Ha as <-. simpl.
        (eapply Hframe; [| | | reflexivity]; reflexivity).
      * unbind Ha. injection Ha as <-. simpl.
        (eapply Hframe; [| | | reflexivity]; reflexivity).
  - (* search *)
    unbind Hrun. injection Hrun as <- <-.
    destruct (Z_lt_ge_dec (count_of state) (len (plan_of state))) as [Hlt | Hge].
    + left.
      destruct (search_execution_pending _ _ _ Hlt Ha)
        as (q & found & Hq & Hfound & ->).
      match goal with
      | |- context [create_state_update state ?upd] =>
          destruct (merged_create_state_update state upd) as (-> & -> & ->)
      end.
      simpl. repeat split; auto. exists q, found. auto.
    + right. split; [exact Hge |].
      rewrite (search_execution_exhausted _ _ Hge) in Ha.
      injection Ha as <-.
      rewrite count_of_apply_update, plan_of_apply_update,
        found_of_apply_update.
      unfold count_of, plan_of, found_of.
      destruct (search_count state), (planned_queries state),
        (search_results state); auto.
  - (* pre_summarize *)
    injection Hrun as <- <-. unfold pre_summarize_node.
    (eapply Hframe; [| | | reflexivity]; reflexivity).
  - (* summarize *)
    unbind Hrun. injection Hrun as <- <-.
    unfold summarization_node in Ha. unbind Ha. injection Ha as <-.
    (eapply Hframe; [| | | reflexivity]; reflexivity).
Qed.

Lemma steps_frame_the_search_phase_witness :
  exists u,
    run_node pricing_review search planned_state = Ok (u, None)
    /\ count_of (apply_update planned_state u) = 1
    /\ plan_of (apply_update planned_state u) = plan_of planned_state.
Proof.
  eexists. split; [reflexivity |].
  destruct (steps_frame_the_search_phase pricing_review search planned_state
              _ None eq_refl)
    as [(_ & Hcount & Hplan & _) | (Hge & _)].
  - split; [exact Hcount | exact Hplan].
  - vm_compute in Hge. exfalso. apply Hge. reflexivity.
Defined.

Lemma step_search_phase_effect (env : Services) (n : Node)
    (state state' : AgentState) (next : Next) :
  step env n state = Ok (state', next) ->
  exists u target,
    run_node env n state = Ok (u, target) /\ state' = apply_update state u.
Proof.
  intros Hstep. unfold step in Hstep. unbind Hstep.
  destruct a as [u target]. exists u, target. split; [exact Ha |].
  simpl in Hstep. destruct target.
  - injection Hstep as <- _. reflexivity.
  - unbind Hstep. injection Hstep as <- _. reflexivity.
Qed.

Lemma step_keeps_results_match_count (env : Services) (n : Node)
    (state state' : AgentState) (next : Next) :
  results_match_count state ->
  step env n state = Ok (state', next) ->
  results_match_count state'.
Proof.
  unfold results_match_count. intros Hmatch Hstep.
  destruct (step_search_phase_effect _ _ _ _ _ Hstep) as (u & target & Hrun & ->).
  destruct (run_node_search_phase_effect _ _ _ _ _ Hrun)
    as [(-> & _ & ->) | [(_ & -> & -> & _) | (_ & _ & -> & _ & q & found & _ & _ & ->)]].
  - exact Hmatch.
  - reflexivity.
  - rewrite len_app, Hmatch. reflexivity.
Qed.

(** X5: [len(search_results) == search_count] is an invariant of the whole
    workflow, not only of the search step: from a state where it holds,
    every state a run reaches satisfies it, whatever the services answer;
    in particular [search_count] never becomes negative. *)
Theorem results_match_count_along_runs (n n' : Node)
    (state state' : AgentState) :
  results_match_count state ->
  reaches (n, state) (n', state') ->
  results_match_count state' /\ 0 <= count_of state'.
Proof.
  intros Hmatch Hreach.
  assert (Hkept : results_match_count state').
  { remember (n, state) as from eqn:Hfrom.
    remember (n', state') as to eqn:Hto.
    revert n state Hmatch Hfrom.
    induction Hreach as [m st | env m st st' m' final Hstep _ IH];
      intros n state Hmatch Hfrom.
    - rewrite Hto in Hfrom. injection Hfrom as _ <-. exact Hmatch.
    - injection Hfrom as -> ->.
      apply (IH Hto m' st'); [| reflexivity].
      exact (step_keeps_results_match_count _ _ _ _ _ Hmatch Hstep). }
  split; [exact Hkept |].
  unfold results_match_count in Hkept. rewrite <- Hkept. apply len_nonneg.
Qed.

Lemma results_match_count_along_runs_witness :
  exists state',
    step pricing_review search planned_state = Ok (state', Goto search)
    /\ results_match_count state' /\ 0 <= count_of state'.
Proof.
  eexists. split; [vm_compute; reflexivity |].
  apply (results_match_count_along_runs search search planned_state).
  - reflexivity.
  - eapply (reaches_step pricing_review);
      [vm_compute; reflexivity | apply reaches_here].
Defined.

(** ** The search loop *)

Lemma py_index_nth {A : Type} (l : list A) (i : Z) (x : A) :
  0 <= i -> py_index l i = Ok x -> nth_error l (Z.to_nat i) = Some x.
Proof.
  intros Hi. unfold py_index.
  destruct (i <? 0) eqn:Hneg; [apply Z.ltb_lt in Hneg; lia |].
  rewrite Hneg.
  destruct (nth_error l (Z.to_nat i)); [congruence | discriminate].
Qed.

Lemma skipn_nth {A : Type} (l : list A) (n : nat) (x : A) :
  nth_error l n = Some x -> skipn n l = x :: skipn (S n) l.
Proof.
  revert n. induction l as [| y rest IH]; intros [| n] Hnth;
    try discriminate Hnth.
  - injection Hnth as ->. reflexivity.
  - simpl in Hnth. rewrite (skipn_cons n y rest). rewrite (IH n Hnth).
    reflexivity.
Qed.

(** One turn of the loop while a query is pending. *)
Lemma step_search_pending (env : Services) (answers : string -> string)
    (state : AgentState) :
  (forall q, tavily_search env q = Ok (answers q)) ->
  0 <= count_of state < len (plan_of state) ->
  exists current_query state',
    nth_error (plan_of state) (Z.to_nat (count_of state)) = Some current_query
    /\ step env search state
       = Ok (state', if count_of state + 1 <? len (plan_of state)
                     then Goto search else Goto pre_summarize)
    /\ count_of state' = count_of state + 1
    /\ plan_of state' = plan_of state
    /\ found_of state'
       = (found_of state
          ++ [mkSearchResult current_query (answers current_query)])%list.
Proof.
  intros Hanswers [Hpos Hlt].
  destruct (search_execution_completes (tavily_search env) state Hpos)
    as [u Hrun]; [intros q; rewrite Hanswers; eauto |].
  destruct (search_execution_pending _ _ _ Hlt Hrun)
    as (q & found & Hq & Hfound & Hu).
  rewrite Hanswers in Hfound. injection Hfound as <-.
  exists q, (apply_update state u).
  assert (Hmerged : count_of (apply_update state u) = count_of state + 1
                    /\ plan_of (apply_update state u) = plan_of state
                    /\ found_of (apply_update state u)
                       = (found_of state ++ [mkSearchResult q (answers q)])%list).
  { rewrite Hu.
    match goal with
    | |- context [create_state_update state ?upd] =>
        destruct (merged_create_state_update state upd) as (-> & -> & ->)
    end.
    auto. }
  destruct Hmerged as (Hc & Hp & Hf).
  split; [exact (py_index_nth _ _ _ Hpos Hq) |].
  split; [| auto].
  unfold step. simpl. rewrite Hrun. simpl. unfold after_search.
  fold (plan_of (apply_update state u)) (count_of (apply_update state u)).
  rewrite Hc, Hp.
  destruct (count_of state + 1 <? len (plan_of state)) eqn:Hmore;
    [reflexivity |].
  apply Z.ltb_ge in Hmore.
  destruct (count_of state + 1 >=? len (plan_of state)) eqn:Hdone;
    [| rewrite Z.geb_leb in Hdone; apply Z.leb_gt in Hdone; lia].
  destruct (count_of state + 1 >? 0) eqn:Hsome; [reflexivity |].
  rewrite Z.gtb_ltb in Hsome. apply Z.ltb_ge in Hsome. lia.
Qed.

Lemma search_loop (env : Services) (answers : string -> string) (k : nat) :
  (forall q, tavily_search env q = Ok (answers q)) ->
  forall state,
    0 <= count_of state ->
    Z.of_nat (S k) = len (plan_of state) - count_of state ->
    exists final,
      run env (S k) search state = Ok (final, Goto pre_summarize)
      /\ count_of final = len (plan_of state)
      /\ plan_of final = plan_of state
      /\ found_of final
         = (found_of state
            ++ map (fun q => mkSearchResult q (answers q))
                 (skipn (Z.to_nat (count_of state)) (plan_of state)))%list.
Proof.
  intros Hanswers. induction k as [| k IH]; intros state Hpos Hleft.
  - destruct (step_search_pending env answers state Hanswers)
      as (q & state' & Hq & Hstep & Hc & Hp & Hf); [lia |].
    exists state'. simpl. rewrite Hstep. simpl.
    assert (Hlast : (count_of state + 1 <? len (plan_of state)) = false)
      by (apply Z.ltb_ge; lia).
    rewrite Hlast. simpl.
    split; [reflexivity |]. split; [lia |]. split; [exact Hp |].
    rewrite Hf, (skipn_nth _ _ _ Hq).
    rewrite skipn_all2 by (unfold len in Hleft; lia). reflexivity.
  - destruct (step_search_pending env answers state Hanswers)
      as (q & state' & Hq & Hstep & Hc & Hp & Hf); [lia |].
    assert (Hmore : (count_of state + 1 <? len (plan_of state)) = true)
      by (apply Z.ltb_lt; lia).
    rewrite Hmore in Hstep.
    destruct (IH state') as (final & Hrun & Hfc & Hfp & Hff);
      [lia | rewrite Hp, Hc; lia |].
    exists final.
    change (run env (S (S k)) search state)
      with (r <- step env search state ;;
            match snd r with
            | END => Ok (fst r, END)
            | Goto n' => run env (S k) n' (fst r)
            end).
    rewrite Hstep. simpl bind. cbv iota. simpl fst. simpl snd.
    split; [exact Hrun |].
    rewrite Hfc, Hfp, Hff, Hp, Hf, Hc. repeat split; auto.
    rewrite (skipn_nth _ _ _ Hq), <- app_assoc. simpl.
    replace (Z.to_nat (count_of state + 1)) with (S (Z.to_nat (count_of state)))
      by lia.
    reflexivity.
Qed.

(** X6: from a state with pending queries, and as long as the search
    provider answers, the run stays in the search step for exactly
    [len(planned_queries) - search_count] steps and then moves on to
    pre_summarize; by then [search_count] equals the number of planned
    queries and [search_results] has gained one entry per pending query,
    in plan order, each with the provider's answer to that query. *)
Theorem search_phase_runs_every_pending_query (env : Services)
    (answers : string -> string) (state : AgentState) :
  (forall q, tavily_search env q = Ok (answers q)) ->
  0 <= count_of state < len (plan_of state) ->
  exists final,
    run env (Z.to_nat (len (plan_of state) - count_of state)) search state
    = Ok (final, Goto pre_summarize)
    /\ count_of final = len (plan_of state)
    /\ plan_of final = plan_of state
    /\ found_of final
       = (found_of state
          ++ map (fun q => mkSearchResult q (answers q))
               (skipn (Z.to_nat (count_of state)) (plan_of state)))%list.
Proof.
  intros Hanswers [Hpos Hlt].
  destruct (Z.to_nat (len (plan_of state) - count_of state)) as [| k] eqn:Hleft;
    [lia |].
  apply (search_loop env answers k Hanswers state Hpos). lia.
Qed.

Lemma search_phase_runs_every_pending_query_witness :
  exists final,
    run pricing_review 2 search planned_state = Ok (final, Goto pre_summarize)
    /\ count_of final = 2
    /\ found_of final
       = [mkSearchResult "paris weather" "Title: paris weather";
          mkSearchResult "paris forecast" "Title: paris forecast"].
Proof.
  destruct (search_phase_runs_every_pending_query pricing_review
              (fun q => "Title: " ++ q) planned_state)
    as (final & Hrun & Hcount & _ & Hfound).
  - reflexivity.
  - split; [discriminate | reflexivity].
  - exists final. split; [exact Hrun |]. split; [exact Hcount | exact Hfound].
Defined.

(** ** Around the review ([agent.py], [memory.py]) *)

(** The episode [process_feedback_node] asks for on a textual review. *)
Lemma textual_review_recorded_call (mgr : EpisodicMemoryManager)
    (state : AgentState) (text : string) (msgs : list Message) :
  is_enabled mgr = true ->
  dict_get "" (original_query state) <> "" ->
  plan_of state <> [] ->
  user_feedback state = Some (PyStr text) ->
  messages state = Some msgs ->
  exists u action,
    user_action (PyStr text) = Ok action
    /\ process_feedback_node mgr state
       = Ok (u, Some (mkEpisodeCall (dict_get "" (original_query state))
                        (plan_of state) action
                        (if (action =? "feedback")%string
                         then Some (PyStr text) else None))).
Proof.
  intros Henabled Hquery Hplan Hfeedback Hmsgs.
  destruct (process_feedback_on_text mgr state text msgs Hfeedback Hmsgs)
    as [stored Hrun].
  destruct (user_action_text text) as [action Haction].
  eexists _, action. split; [exact Haction |].
  rewrite Hrun. f_equal. f_equal.
  unfold process_feedback_node in Hrun.
  rewrite Hfeedback, Hmsgs, Henabled in Hrun. simpl dict_get in Hrun.
  fold (plan_of state) in Hrun.
  apply String.eqb_neq in Hquery. rewrite Hquery in Hrun.
  assert (Hlen : (len (plan_of state) =? 0) = false).
  { apply Z.eqb_neq. unfold len. destruct (plan_of state);
      [congruence | simpl; lia]. }
  rewrite Hlen, Haction in Hrun. simpl in Hrun.
  rewrite !lower_equals_text in Hrun. simpl in Hrun.
  destruct (negb (text =? "")%string && (lower text =? "approve")%string);
    simpl in Hrun; [congruence |].
  destruct (negb (text =? "")%string && (lower text =? "skip")%string);
    simpl in Hrun; congruence.
Qed.


Lemma should_auto_decide_kind (get_store : result (option Store))
    (self : EpisodicMemoryManager) (current_query : string)
    (planned_searches : list string) (d : Decision) :
  should_auto_decide get_store self current_query planned_searches
  = Ok (Some d) ->
  d = approve \/ d = skip.
Proof.
  unfold should_auto_decide. intros Hadvice.
  destruct (negb (is_enabled self)); [discriminate Hadvice |].
  destruct (find_similar_episodes get_store self current_query planned_searches)
    as [episodes | e]; simpl in Hadvice; [| discriminate Hadvice].
  destruct (len episodes <? 3); [discriminate Hadvice |].
  unfold llm_decide_with_episodes in Hadvice.
  destruct (llm self) as [invoke |]; [| discriminate Hadvice].
  simpl in Hadvice.
  match type of Hadvice with
  | context [invoke ?p] => destruct (invoke p) as [answer | e]
  end; simpl in Hadvice; [| discriminate Hadvice].
  destruct (confident answer) eqn:Hconfident; [| discriminate Hadvice].
  injection Hadvice as <-. unfold confident in Hconfident.
  apply andb_prop in Hconfident. destruct Hconfident as [_ Hkind].
  destruct (decision answer); auto. discriminate Hkind.
Qed.

(** What a merged [create_state_update] dict holds besides the search
    phase. *)
Lemma merged_review_fields (state updates : AgentState) :
  let merged := apply_update state (create_state_update state updates) in
  user_feedback merged
  = Some (dict_get (dict_get (PyStr "") (user_feedback state))
            (user_feedback updates))
  /\ original_query merged
     = Some (dict_get (dict_get "" (original_query state))
               (original_query updates))
  /\ exists msgs, messages merged = Some msgs.
Proof.
  cbv zeta. simpl.
  destruct (user_feedback updates), (original_query updates),
    (messages updates);
    (split; [reflexivity | split; [reflexivity | eexists; reflexivity]]).
Qed.

(** The first step of the path an advisor's decision opens. *)
Lemma auto_decision_path_first_step (env : Services) (state : AgentState)
    (d : Decision) :
  is_enabled (memory_manager env) = true ->
  dict_get "" (original_query state) <> "" ->
  plan_of state <> [] ->
  should_auto_decide (get_store env) (memory_manager env)
    (dict_get "" (original_query state)) (plan_of state) = Ok (Some d) ->
  exists decided,
    step env memory_check state = Ok (decided, Goto process_feedback).
Proof.
  intros Henabled Hquery Hplan Hadvice.
  pose proof (should_auto_decide_kind _ _ _ _ _ Hadvice) as Hkind.
  eexists. unfold step. simpl. unfold memory_check_node. rewrite Henabled.
  apply String.eqb_neq in Hquery. rewrite Hquery.
  fold (plan_of state).
  assert (Hlen : (len (plan_of state) =? 0) = false).
  { apply Z.eqb_neq. unfold len. destruct (plan_of state);
      [congruence | simpl; lia]. }
  rewrite Hlen. simpl. rewrite Hadvice. simpl.
  unfold after_memory_check. simpl.
  destruct Hkind as [-> | ->]; reflexivity.
Qed.

(** X7: when the advisor is enabled, the state holds a question and a plan
    and the advisor decides, the run goes from memory_check through
    process_feedback straight to search (approve) or direct_answer (skip)
    without calling [interrupt]: the decision stands in [user_feedback] as
    if the user had typed it, and [process_feedback_node] asks for it to be
    recorded as a new episode. *)
Theorem auto_decision_skips_human_review (env : Services)
    (state : AgentState) (d : Decision) :
  is_enabled (memory_manager env) = true ->
  dict_get "" (original_query state) <> "" ->
  plan_of state <> [] ->
  should_auto_decide (get_store env) (memory_manager env)
    (dict_get "" (original_query state)) (plan_of state) = Ok (Some d) ->
  exists decided final call u,
    step env memory_check state = Ok (decided, Goto process_feedback)
    /\ run env 2 memory_check state
       = Ok (final, Goto match d with
                         | skip => direct_answer_node
                         | _ => search
                         end)
    /\ user_feedback final = Some (PyStr (decision_text d))
    /\ process_feedback_node (memory_manager env) decided = Ok (u, Some call)
    /\ ec_user_decision call = decision_text d.
Proof.
  intros Henabled Hquery Hplan Hadvice.
  pose proof (should_auto_decide_kind _ _ _ _ _ Hadvice) as Hkind.
  set (u1 := create_state_update state
               (set_user_feedback (PyStr (decision_text d)) no_updates)).
  set (decided := apply_update state u1).
  assert (Hnode : memory_check_node (get_store env) (memory_manager env) state
                  = Ok u1).
  { unfold memory_check_node. rewrite Henabled.
    apply String.eqb_neq in Hquery. rewrite Hquery.
    fold (plan_of state).
    assert (Hlen : (len (plan_of state) =? 0) = false).
    { apply Z.eqb_neq. unfold len. destruct (plan_of state);
        [congruence | simpl; lia]. }
    rewrite Hlen. simpl. rewrite Hadvice. reflexivity. }
  assert (Hfeedback : user_feedback decided = Some (PyStr (decision_text d)))
    by reflexivity.
  assert (Hstep1 : step env memory_check state
                   = Ok (decided, Goto process_feedback)).
  { unfold step. simpl. rewrite Hnode. simpl. unfold after_memory_check.
    fold u1. fold decided. rewrite Hfeedback. simpl.
    destruct Hkind as [-> | ->]; reflexivity. }
  assert (Hmsgs : exists msgs, messages decided = Some msgs)
    by (simpl; eauto).
  destruct Hmsgs as [msgs Hmsgs].
  assert (Hquery' : dict_get "" (original_query decided) <> "")
    by (simpl; exact Hquery).
  assert (Hplan' : plan_of decided <> []).
  { unfold decided. rewrite plan_of_apply_update. simpl. exact Hplan. }
  destruct (textual_review_recorded_call (memory_manager env) decided
              (decision_text d) msgs Henabled Hquery' Hplan' Hfeedback Hmsgs)
    as (u2 & action & Haction & Hrun2).
  assert (Hdecision : action = decision_text d).
  { assert (Hread : user_action (PyStr (decision_text d))
                    = Ok (decision_text d))
      by (destruct Hkind as [-> | ->]; reflexivity).
    rewrite Hread in Haction. injection Haction as <-. reflexivity. }
  assert (Hu2 : u2 = create_state_update decided no_updates).
  { destruct (process_feedback_on_text (memory_manager env) decided
                (decision_text d) msgs Hfeedback Hmsgs) as [stored Hrun].
    rewrite Hrun in Hrun2.
    destruct Hkind as [-> | ->]; simpl in Hrun2; congruence. }
  set (final := apply_update decided u2).
  assert (Hfinal : user_feedback final = Some (PyStr (decision_text d))).
  { unfold final. rewrite Hu2.
    destruct (merged_review_fields decided no_updates) as (-> & _).
    rewrite Hfeedback. reflexivity. }
  eexists decided, final, _, u2.
  split; [exact Hstep1 |].
  split; [| split; [exact Hfinal | split; [exact Hrun2 | exact Hdecision]]].
  change (run env 2 memory_check state)
    with (r <- step env memory_check state ;;
          match snd r with
          | END => Ok (fst r, END)
          | Goto n' => run env 1 n' (fst r)
          end).
  rewrite Hstep1. simpl bind. cbv iota. simpl fst. simpl snd.
  simpl run. unfold step. simpl run_node. rewrite Hrun2. simpl.
  fold final. rewrite (after_process_feedback_on_text final _ Hfinal).
  destruct Hkind as [-> | ->]; reflexivity.
Qed.

Lemma auto_decision_skips_human_review_witness :
  exists final,
    run advised_services 2 memory_check planned_state = Ok (final, Goto search)
    /\ user_feedback final = Some (PyStr "approve").
Proof.
  destruct (auto_decision_skips_human_review advised_services planned_state
              approve)
    as (decided & final & call & u & _ & Hrun & Hfeedback & _).
  - reflexivity.
  - discriminate.
  - discriminate.
  - reflexivity.
  - exists final. split; [exact Hrun | exact Hfeedback].
Defined.

(** X8: the memory_check step never fails a run, whatever the store and
    the advisor's model do.  On a state fresh from planning (empty
    [user_feedback]) it routes to process_feedback exactly when the advisor
    is enabled, the state holds a question and a plan, and the advisor
    decided; otherwise it routes to human_review. *)
Theorem memory_check_never_fails (env : Services) (state : AgentState) :
  user_feedback state = Some (PyStr "") ->
  exists state' next,
    step env memory_check state = Ok (state', next)
    /\ (next = Goto process_feedback \/ next = Goto human_review_node)
    /\ (next = Goto process_feedback <->
        is_enabled (memory_manager env) = true
        /\ dict_get "" (original_query state) <> ""
        /\ plan_of state <> []
        /\ exists d,
             should_auto_decide (get_store env) (memory_manager env)
               (dict_get "" (original_query state)) (plan_of state)
             = Ok (Some d)).
Proof.
  intros Hfresh.
  assert (Hundecided :
            step env memory_check state
            = Ok (apply_update state (create_state_update state no_updates),
                  Goto human_review_node)
            \/ exists d,
                 (is_enabled (memory_manager env) = true
                  /\ dict_get "" (original_query state) <> ""
                  /\ plan_of state <> []
                  /\ should_auto_decide (get_store env) (memory_manager env)
                       (dict_get "" (original_query state)) (plan_of state)
                     = Ok (Some d))).
  { destruct (is_enabled (memory_manager env)) eqn:Henabled.
    - destruct (dict_get "" (original_query state) =? "")%string eqn:Hquery.
      + left. unfold step. simpl. unfold memory_check_node.
        rewrite Henabled, Hquery. simpl. unfold after_memory_check. simpl.
        rewrite Hfresh. reflexivity.
      + destruct (len (plan_of state) =? 0) eqn:Hlen.
        * left. unfold step. simpl. unfold memory_check_node.
          fold (plan_of state). rewrite Henabled, Hquery, Hlen. simpl.
          unfold after_memory_check. simpl. rewrite Hfresh. reflexivity.
        * destruct (should_auto_decide_total (get_store env)
                      (memory_manager env)
                      (dict_get "" (original_query state)) (plan_of state))
            as [[d |] Hadvice].
          -- right. exists d. apply String.eqb_neq in Hquery.
             apply Z.eqb_neq in Hlen.
             repeat split; auto.
             intros Hempty. rewrite Hempty in Hlen. apply Hlen. reflexivity.
          -- left. unfold step. simpl. unfold memory_check_node.
             fold (plan_of state). rewrite Henabled, Hquery, Hlen. simpl.
             rewrite Hadvice. simpl. unfold after_memory_check. simpl.
             rewrite Hfresh. reflexivity.
    - left. unfold step. simpl. unfold memory_check_node.
      rewrite Henabled. simpl. unfold after_memory_check. simpl.
      rewrite Hfresh. reflexivity. }
  destruct Hundecided as [Hstep | (d & Henabled & Hquery & Hplan & Hadvice)].
  - eexists _, _. split; [exact Hstep |]. split; [auto |].
    split; [discriminate |].
    intros (Henabled & Hquery & Hplan & d & Hadvice).
    exfalso. revert Hstep. unfold step. simpl. unfold memory_check_node.
    fold (plan_of state). rewrite Henabled.
    apply String.eqb_neq in Hquery. rewrite Hquery.
    assert (Hlen : (len (plan_of state) =? 0) = false).
    { apply Z.eqb_neq. unfold len. destruct (plan_of state);
        [congruence | simpl; lia]. }
    rewrite Hlen. simpl. rewrite Hadvice. simpl.
    unfold after_memory_check. simpl.
    destruct (should_auto_decide_kind _ _ _ _ _ Hadvice) as [-> | ->];
      simpl; discriminate.
  - destruct (auto_decision_path_first_step env state d Henabled Hquery Hplan
                Hadvice) as [decided Hstep].
    exists decided, (Goto process_feedback).
    split; [exact Hstep |]. split; [auto |].
    split; [intros _ | reflexivity].
    repeat split; auto. exists d. exact Hadvice.
Qed.

Lemma memory_check_never_fails_witness :
  exists state',
    step pricing_review memory_check planned_state
    = Ok (state', Goto human_review_node).
Proof.
  destruct (memory_check_never_fails pricing_review planned_state eq_refl)
    as (state' & next & Hstep & _ & _).
  exists state'. rewrite Hstep.
  assert (Hnext : step pricing_review memory_check planned_state
                  = Ok (apply_update planned_state
                          (create_state_update planned_state no_updates),
                        Goto human_review_node)) by reflexivity.
  rewrite Hnext in Hstep. injection Hstep as <- <-. reflexivity.
Defined.

(** X9: a resume value that is truthy and neither a string nor a dict (a
    number, [True], a non-empty list) goes through [human_review], which
    stores it in [user_feedback] as it is; the next step,
    [process_feedback_node], then raises [AttributeError], and so would
    the router [after_process_feedback]: such a value ends the run with an
    error one step after the review. *)
Theorem non_text_resume_fails_after_review (mgr : EpisodicMemoryManager)
    (state : AgentState) (v : PyVal) :
  truthy v = true ->
  (forall s, v <> PyStr s) ->
  (forall entries, v <> PyDict entries) ->
  exists u,
    human_review (resumed_with v) state = Ok u
    /\ user_feedback (apply_update state u) = Some v
    /\ process_feedback_node mgr (apply_update state u)
       = Raise (AttributeError "lower")
    /\ after_process_feedback (apply_update state u)
       = Raise (AttributeError "lower").
Proof.
  intros Htruthy Hnot_text Hnot_dict.
  exists (create_state_update state (set_user_feedback v no_updates)).
  assert (Hreview : human_review (resumed_with v) state
                    = Ok (create_state_update state
                            (set_user_feedback v no_updates))).
  { unfold human_review, resumed_with. simpl.
    destruct v; try reflexivity. exfalso. exact (Hnot_dict _ eq_refl). }
  assert (Hlower : forall target,
             lower_equals v target = Raise (AttributeError "lower")).
  { intros target. unfold lower_equals, and_then. rewrite Htruthy.
    destruct v; try reflexivity. exfalso. exact (Hnot_text _ eq_refl). }
  split; [exact Hreview |]. split; [reflexivity |]. split.
  - unfold process_feedback_node. simpl dict_get.
    unfold user_action. rewrite !Hlower. simpl.
    match goal with
    | |- context [if ?c then _ else _] => destruct c; reflexivity
    end.
  - unfold after_process_feedback. simpl dict_get.
    unfold and_then. rewrite Htruthy.
    destruct v; try reflexivity. exfalso. exact (Hnot_text _ eq_refl).
Qed.

Lemma non_text_resume_fails_after_review_witness :
  exists u,
    human_review (resumed_with (PyInt 5)) planned_state = Ok u
    /\ process_feedback_node no_memory (apply_update planned_state u)
       = Raise (AttributeError "lower").
Proof.
  destruct (non_text_resume_fails_after_review no_memory planned_state
              (PyInt 5)) as (u & Hreview & _ & Hfails & _).
  - reflexivity.
  - discriminate.
  - discriminate.
  - exists u. split; [exact Hreview | exact Hfails].
Defined.

(** X10: classification never touches [user_feedback].  A feedback still
    in the thread state when a new cycle starts, such as the "approve" an
    earlier cycle ended with, is therefore the revision guidance the
    planning prompt of the new cycle carries. *)
Theorem leftover_feedback_reaches_next_plan
    (llm : ClassificationPrompt -> result QueryClassification)
    (state : AgentState) (c : Command) (v : PyVal)
    (prompt : PlanningPrompt) :
  classification llm state = Ok c ->
  user_feedback state = Some v ->
  truthy v = true ->
  planning_prompt (apply_update state (update c)) = Ok prompt ->
  user_feedback (apply_update state (update c)) = Some v
  /\ pp_user_feedback prompt = Some v.
Proof.
  intros Hclass Hfeedback Htruthy Hprompt.
  assert (Hkept : user_feedback (apply_update state (update c)) = Some v).
  { destruct (classification_update_shape _ _ _ Hclass)
      as [current_query [[_ ->] | [_ ->]]]; simpl; exact Hfeedback. }
  split; [exact Hkept |].
  unfold planning_prompt in Hprompt. unbind Hprompt. unbind Hprompt.
  injection Hprompt as <-. cbn [pp_user_feedback].
  cbn [user_feedback apply_update] in Hkept.
  rewrite Hkept. cbn [dict_get]. rewrite Htruthy. reflexivity.
Qed.

Lemma leftover_feedback_reaches_next_plan_witness :
  exists c prompt,
    classification (classify_llm advised_services) next_question_state = Ok c
    /\ planning_prompt (apply_update next_question_state (update c)) = Ok prompt
    /\ pp_current_query prompt = "And in Rome?"
    /\ pp_user_feedback prompt = Some (PyStr "approve").
Proof.
  eexists _, _. split; [reflexivity |]. split; [vm_compute; reflexivity |].
  split; [reflexivity |].
  eapply (leftover_feedback_reaches_next_plan (classify_llm advised_services)
            next_question_state _ (PyStr "approve")).
  - reflexivity.
  - reflexivity.
  - reflexivity.
  - vm_compute. reflexivity.
Defined.

(** ** A plan without queries *)

Lemma run_step (env : Services) (k : nat) (n n' : Node)
    (state state' : AgentState) :
  step env n state = Ok (state', Goto n') ->
  run env (S k) n state = run env k n' state'.
Proof.
  intros Hstep. simpl. rewrite Hstep. reflexivity.
Qed.

Lemma run_end (env : Services) (k : nat) (n : Node)
    (state state' : AgentState) :
  step env n state = Ok (state', END) ->
  run env (S k) n state = Ok (state', END).
Proof.
  intros Hstep. simpl. rewrite Hstep. reflexivity.
Qed.

Lemma nothing_to_search_kept (state updates : AgentState) :
  search_count updates = None -> planned_queries updates = None ->
  search_results updates = None ->
  nothing_to_search state ->
  nothing_to_search (apply_update state (create_state_update state updates)).
Proof.
  intros Hc Hp Hf (Hplan & Hcount & Hfound). unfold nothing_to_search.
  destruct (merged_create_state_update state updates) as (-> & -> & ->).
  rewrite Hc, Hp, Hf. auto.
Qed.

Lemma planning_with_answer (astream : PlanningPrompt -> result (list string))
    (state : AgentState) (msgs : list Message) (chunks : list string) :
  messages state = Some msgs -> msgs <> [] ->
  (forall prompt, astream prompt = Ok chunks) ->
  exists current_query note,
    planning astream state
    = Ok (create_state_update state
            (set_messages [AIMessage note]
               (set_original_query current_query
                  (set_planned_queries (parse_queries (collect_stream chunks))
                     (set_search_results []
                        (set_search_count 0
                           (set_user_feedback (PyStr "") no_updates))))))).
Proof.
  intros Hmsgs Hne Hanswers. unfold planning, planning_prompt.
  rewrite Hmsgs. cbn [get_item bind].
  destruct (py_index_last_nonempty msgs Hne) as [m ->]. cbn [bind].
  rewrite Hanswers. cbn [bind]. eauto.
Qed.

(** X11: when the model's planning answer holds no query (only blank
    lines) and the user approves the empty plan, the run goes planning,
    memory_check, human_review, process_feedback, search and stops there:
    the search step finds nothing pending, [after_search] answers
    ["__end__"], and neither pre_summarize nor summarize ever runs, so the
    run ends with no search done and no answer. *)
Theorem blank_plan_ends_without_answer (env : Services) (state : AgentState)
    (msgs : list Message) (chunks : list string) (text : string) :
  messages state = Some msgs ->
  msgs <> [] ->
  (forall prompt, planning_stream env prompt = Ok chunks) ->
  parse_queries (collect_stream chunks) = [] ->
  (forall payload, interrupt env payload = Ok (PyStr text)) ->
  lower text = "approve" ->
  exists planned waiting reviewed approved final,
    step env planning_node state = Ok (planned, Goto memory_check)
    /\ step env memory_check planned = Ok (waiting, Goto human_review_node)
    /\ step env human_review_node waiting = Ok (reviewed, Goto process_feedback)
    /\ step env process_feedback reviewed = Ok (approved, Goto search)
    /\ step env search approved = Ok (final, END)
    /\ run env 5 planning_node state = Ok (final, END)
    /\ nothing_to_search final.
Proof.
  intros Hmsgs Hne Hplanner Hblank Hresume Happrove.
  (* planning *)
  destruct (planning_with_answer (planning_stream env) state msgs chunks
              Hmsgs Hne Hplanner) as (current_query & note & Hplanning).
  rewrite Hblank in Hplanning.
  match type of Hplanning with
  | _ = Ok (create_state_update state ?upd) => set (u1 := upd) in *
  end.
  set (planned := apply_update state (create_state_update state u1)).
  assert (Hquiet1 : nothing_to_search planned).
  { unfold nothing_to_search, planned.
    destruct (merged_create_state_update state u1) as (-> & -> & ->).
    auto. }
  assert (Hfeedback1 : user_feedback planned = Some (PyStr "")).
  { unfold planned. destruct (merged_review_fields state u1) as (-> & _).
    reflexivity. }
  assert (Hstep1 : step env planning_node state = Ok (planned, Goto memory_check)).
  { unfold step. simpl. rewrite Hplanning. reflexivity. }
  (* memory_check *)
  set (waiting := apply_update planned (create_state_update planned no_updates)).
  assert (Hquiet2 : nothing_to_search waiting)
    by (apply nothing_to_search_kept; auto).
  assert (Hfeedback2 : user_feedback waiting = Some (PyStr "")).
  { unfold waiting.
    destruct (merged_review_fields planned no_updates) as (-> & _).
    rewrite Hfeedback1. reflexivity. }
  assert (Hstep2 : step env memory_check planned
                   = Ok (waiting, Goto human_review_node)).
  { unfold step. simpl. unfold memory_check_node.
    destruct Hquiet1 as (Hplan & _). unfold plan_of in Hplan. rewrite Hplan.
    change (len (@nil string) =? 0) with true.
    rewrite !andb_false_r. simpl. unfold after_memory_check.
    fold waiting. rewrite Hfeedback2. reflexivity. }
  (* human_review *)
  set (u3 := set_user_feedback (PyStr text) no_updates).
  set (reviewed := apply_update waiting (create_state_update waiting u3)).
  assert (Hquiet3 : nothing_to_search reviewed)
    by (apply nothing_to_search_kept; auto).
  assert (Hfeedback3 : user_feedback reviewed = Some (PyStr text)).
  { unfold reviewed. destruct (merged_review_fields waiting u3) as (-> & _).
    reflexivity. }
  assert (Hstep3 : step env human_review_node waiting
                   = Ok (reviewed, Goto process_feedback)).
  { unfold step. simpl. unfold human_review. rewrite Hresume. reflexivity. }
  (* process_feedback *)
  assert (Hnonempty : (text =? "")%string = false).
  { destruct text; [discriminate Happrove | reflexivity]. }
  destruct (merged_review_fields waiting u3) as (_ & _ & msgs3 & Hmsgs3).
  fold reviewed in Hmsgs3.
  destruct (process_feedback_on_text (memory_manager env) reviewed text msgs3
              Hfeedback3 Hmsgs3) as [stored Hnode4].
  rewrite Hnonempty, Happrove in Hnode4. simpl in Hnode4.
  set (approved := apply_update reviewed (create_state_update reviewed no_updates)).
  assert (Hquiet4 : nothing_to_search approved)
    by (apply nothing_to_search_kept; auto).
  assert (Hfeedback4 : user_feedback approved = Some (PyStr text)).
  { unfold approved.
    destruct (merged_review_fields reviewed no_updates) as (-> & _).
    rewrite Hfeedback3. reflexivity. }
  assert (Hstep4 : step env process_feedback reviewed
                   = Ok (approved, Goto search)).
  { unfold step. simpl run_node. rewrite Hnode4. simpl.
    fold approved. rewrite (after_process_feedback_on_text approved _ Hfeedback4).
    rewrite Hnonempty, Happrove. reflexivity. }
  (* search *)
  set (final := apply_update approved approved).
  destruct Hquiet4 as (Hplan4 & Hcount4 & Hfound4).
  assert (Hnode5 : search_execution_node (tavily_search env) approved
                   = Ok approved).
  { apply search_execution_exhausted. rewrite Hplan4, Hcount4.
    unfold len. simpl. lia. }
  destruct (apply_update_self_plan approved) as [Hplan5 Hcount5].
  fold final in Hplan5, Hcount5.
  assert (Hstep5 : step env search approved = Ok (final, END)).
  { unfold step. cbn [run_node]. rewrite Hnode5.
    cbn [bind fst snd route]. fold final.
    unfold after_search. fold (plan_of final) (count_of final).
    rewrite Hplan5, Hcount5, Hplan4, Hcount4. reflexivity. }
  exists planned, waiting, reviewed, approved, final.
  repeat (split; [assumption |]).
  split.
  - rewrite (run_step _ _ _ _ _ _ Hstep1), (run_step _ _ _ _ _ _ Hstep2),
      (run_step _ _ _ _ _ _ Hstep3), (run_step _ _ _ _ _ _ Hstep4).
    exact (run_end _ _ _ _ _ Hstep5).
  - unfold nothing_to_search. rewrite Hplan5, Hcount5, Hplan4, Hcount4.
    split; [reflexivity |]. split; [reflexivity |].
    unfold final. rewrite found_of_apply_update.
    unfold found_of in *. destruct (search_results approved); auto.
Qed.

Lemma blank_plan_ends_without_answer_witness :
  exists final,
    run blank_planner 5 planning_node sample_input = Ok (final, END)
    /\ nothing_to_search final.
Proof.
  destruct (blank_plan_ends_without_answer blank_planner sample_input
              [HumanMessage paris_question] ["  "; newline; " "] "Approve")
    as (planned & waiting & reviewed & approved & final & _ & _ & _ & _ & _
        & Hrun & Hquiet); try reflexivity.
  - discriminate.
  - exists final. split; [exact Hrun | exact Hquiet].
Defined.

(** ** Parsed queries ([agent.py]) *)

Lemma append_empty_r (s : string) : (s ++ "")%string = s.
Proof.
  induction s as [| c rest IH]; simpl; [reflexivity | rewrite IH; reflexivity].
Qed.

Lemma append_associative (x y z : string) :
  ((x ++ y) ++ z)%string = (x ++ y ++ z)%string.
Proof.
  induction x as [| c rest IH]; simpl; [reflexivity | rewrite IH; reflexivity].
Qed.

Lemma Forall_take {A : Type} (P : A -> Prop) (n : nat) (l : list A) :
  Forall P l -> Forall P (take n l).
Proof.
  intros Hall. unfold take. revert n.
  induction Hall as [| x rest Hx _ IH]; intros [| n]; simpl;
    constructor; auto.
Qed.

Lemma rev_string_twice (s a b : string) :
  rev_string (rev_string s a) b = rev_string a (s ++ b).
Proof.
  revert a b. induction s as [| c rest IH]; intros a b; simpl;
    [reflexivity |].
  rewrite IH. reflexivity.
Qed.

Lemma rev_string_involutive (s : string) :
  rev_string (rev_string s "") "" = s.
Proof.
  rewrite rev_string_twice. simpl. apply append_empty_r.
Qed.

Lemma rev_string_acc (s acc : string) :
  rev_string s acc = (rev_string s "" ++ acc)%string.
Proof.
  revert acc. induction s as [| c rest IH]; intros acc; simpl;
    [reflexivity |].
  rewrite (IH (String c acc)), (IH (String c "")).
  rewrite append_associative. reflexivity.
Qed.

Lemma rev_string_append (x y acc : string) :
  rev_string (x ++ y) acc = rev_string y (rev_string x acc).
Proof.
  revert acc. induction x as [| c rest IH]; intros acc; simpl;
    [reflexivity | apply IH].
Qed.

Lemma string_length_ind (P : string -> Prop) :
  (forall s, (forall t, (String.length t < String.length s)%nat -> P t) -> P s) ->
  forall s, P s.
Proof.
  intros Hstep s.
  assert (Hall : forall n t, (String.length t < n)%nat -> P t).
  { induction n as [| n IH]; intros t Hlt; [lia |].
    apply Hstep. intros t' Hlt'. apply IH. lia. }
  apply (Hall (S (String.length s))). lia.
Qed.

Lemma length_append (x y : string) :
  String.length (x ++ y) = (String.length x + String.length y)%nat.
Proof.
  induction x as [| c rest IH]; simpl; [reflexivity | rewrite IH; reflexivity].
Qed.

(** One round of [strip_head]: either nothing is ahead and the text stays,
    or a white-space character is cut and the rest is stripped. *)
Lemma strip_head_step (backwards : bool) (s : string) :
  (space_ahead backwards s = false /\ strip_head backwards s = s)
  \/ (space_ahead backwards s = true
      /\ exists cut rest,
           s = (cut ++ rest)%string /\ cut <> ""
           /\ strip_head backwards s = strip_head backwards rest).
Proof.
  destruct s as [| a [| b [| c rest3]]]; simpl.
  - left. auto.
  - destruct (is_space a); simpl.
    + right. split; [reflexivity |]. exists (String a ""), "".
      repeat split; discriminate.
    + left. auto.
  - destruct (is_space a); simpl.
    + right. split; [reflexivity |]. exists (String a ""), (String b "").
      repeat split; discriminate.
    + destruct (if backwards then is_space2 b a else is_space2 a b); simpl.
      * right. split; [reflexivity |].
        exists (String a (String b "")), "". repeat split; discriminate.
      * left. auto.
  - destruct (is_space a); simpl.
    + right. split; [reflexivity |].
      exists (String a ""), (String b (String c rest3)).
      repeat split; discriminate.
    + destruct (if backwards then is_space2 b a else is_space2 a b); simpl.
      * right. split; [reflexivity |].
        exists (String a (String b "")), (String c rest3).
        repeat split; discriminate.
      * destruct (if backwards then is_space3 c b a else is_space3 a b c).
        -- right. split; [reflexivity |].
           exists (String a (String b (String c ""))), rest3.
           repeat split; discriminate.
        -- left. auto.
Qed.

Lemma cut_is_shorter (cut rest : string) :
  cut <> "" -> (String.length rest < String.length (cut ++ rest))%nat.
Proof.
  intros Hcut. rewrite length_append.
  destruct cut; [congruence | simpl; lia].
Qed.

(** Nothing is ahead of a stripped text. *)
Lemma strip_head_clean (backwards : bool) (s : string) :
  space_ahead backwards (strip_head backwards s) = false.
Proof.
  induction s as [s IH] using string_length_ind.
  destruct (strip_head_step backwards s)
    as [[Hclean ->] | (_ & cut & rest & -> & Hcut & ->)]; [exact Hclean |].
  apply IH. apply cut_is_shorter. exact Hcut.
Qed.

Lemma strip_head_of_clean (backwards : bool) (s : string) :
  space_ahead backwards s = false -> strip_head backwards s = s.
Proof.
  intros Hclean.
  destruct (strip_head_step backwards s) as [[_ Hsame] | [Hahead _]];
    [exact Hsame | congruence].
Qed.

(** The stripped text is the end of the text. *)
Lemma strip_head_suffix (backwards : bool) (s : string) :
  exists cut, s = (cut ++ strip_head backwards s)%string.
Proof.
  induction s as [s IH] using string_length_ind.
  destruct (strip_head_step backwards s)
    as [[_ ->] | (_ & cut & rest & -> & Hcut & ->)]; [exists ""; reflexivity |].
  destruct (IH rest (cut_is_shorter _ _ Hcut)) as [cut' Hrest].
  exists (cut ++ cut')%string. rewrite append_associative, <- Hrest.
  reflexivity.
Qed.

(** A text with nothing ahead keeps that when it is cut at its end. *)
Lemma space_ahead_prefix (kept cut : string) :
  space_ahead false (kept ++ cut) = false -> space_ahead false kept = false.
Proof.
  destruct kept as [| a [| b [| c rest3]]]; simpl; [reflexivity | | |].
  - intros H. apply orb_false_iff in H. destruct H as [-> _]. reflexivity.
  - intros H. apply orb_false_iff in H. destruct H as [-> H].
    apply orb_false_iff in H. destruct H as [-> _]. reflexivity.
  - auto.
Qed.

(** [rstrip] cuts at the end. *)
Lemma rstrip_prefix (s : string) : exists cut, s = (rstrip s ++ cut)%string.
Proof.
  unfold rstrip.
  destruct (strip_head_suffix true (rev_string s "")) as [cut Hcut].
  exists (rev_string cut "").
  rewrite <- (rev_string_involutive s) at 1. rewrite Hcut at 1.
  rewrite rev_string_append. apply rev_string_acc.
Qed.

Lemma strip_idempotent (s : string) : strip (strip s) = strip s.
Proof.
  unfold strip, lstrip.
  set (t := strip_head false s).
  assert (Hstart : space_ahead false (rstrip t) = false).
  { destruct (rstrip_prefix t) as [cut Hcut].
    apply (space_ahead_prefix _ cut). rewrite <- Hcut.
    apply strip_head_clean. }
  rewrite (strip_head_of_clean _ _ Hstart).
  unfold rstrip. rewrite rev_string_involutive.
  rewrite (strip_head_of_clean true (strip_head true _))
    by apply strip_head_clean.
  reflexivity.
Qed.

Lemma mentions_append (c : ascii) (x y : string) :
  mentions c (x ++ y) = mentions c x || mentions c y.
Proof.
  induction x as [| d rest IH]; simpl; [reflexivity |].
  rewrite IH. apply orb_assoc.
Qed.

Lemma mentions_strip_head (backwards : bool) (c : ascii) (s : string) :
  mentions c s = false -> mentions c (strip_head backwards s) = false.
Proof.
  destruct (strip_head_suffix backwards s) as [cut Hcut].
  intros Hnone. rewrite Hcut, mentions_append in Hnone.
  apply orb_false_iff in Hnone. apply Hnone.
Qed.

Lemma mentions_rev_string (c : ascii) (s acc : string) :
  mentions c (rev_string s acc) = mentions c s || mentions c acc.
Proof.
  revert acc. induction s as [| d rest IH]; intros acc; simpl;
    [reflexivity |].
  rewrite IH. simpl.
  destruct (Ascii.eqb d c), (mentions c rest), (mentions c acc); reflexivity.
Qed.

Lemma mentions_strip (c : ascii) (s : string) :
  mentions c s = false -> mentions c (strip s) = false.
Proof.
  intros Hnone. unfold strip, rstrip, lstrip.
  rewrite mentions_rev_string, orb_false_r.
  apply mentions_strip_head. rewrite mentions_rev_string, orb_false_r.
  apply mentions_strip_head. exact Hnone.
Qed.

Lemma split_lines_aux_no_line_feed (s cur : string) :
  mentions (ascii_of_nat 10) cur = false ->
  Forall (fun piece => mentions (ascii_of_nat 10) piece = false)
    (split_lines_aux s cur).
Proof.
  revert cur. induction s as [| c rest IH]; intros cur Hcur; simpl.
  - constructor; [| constructor].
    rewrite mentions_rev_string, Hcur. reflexivity.
  - destruct (Ascii.eqb c (ascii_of_nat 10)) eqn:Hc.
    + constructor; [| apply IH; reflexivity].
      rewrite mentions_rev_string, Hcur. reflexivity.
    + apply IH. simpl. rewrite Hc, Hcur. reflexivity.
Qed.

(** X12: every query that [planning] keeps from the model's answer is
    non-empty, free of leading and trailing white space (stripping it again
    changes nothing) and on a single line. *)
Theorem planned_queries_are_clean (response_content : string) :
  Forall clean_query (parse_queries response_content).
Proof.
  unfold parse_queries. apply Forall_take.
  apply Forall_forall. intros q Hin.
  apply in_map_iff in Hin. destruct Hin as (piece & <- & Hpiece).
  apply filter_In in Hpiece. destruct Hpiece as [Hpiece Hkept].
  unfold clean_query. split; [| split].
  - apply negb_true_iff in Hkept. apply String.eqb_neq in Hkept. exact Hkept.
  - apply strip_idempotent.
  - apply mentions_strip.
    pose proof (split_lines_aux_no_line_feed (strip response_content) ""
                  eq_refl) as Hpieces.
    rewrite Forall_forall in Hpieces. apply Hpieces. exact Hpiece.
Qed.

(** ** Whole cycles *)

Lemma run_compose (env : Services) (a b : nat) (n n' : Node)
    (state state' : AgentState) :
  run env a n state = Ok (state', Goto n') ->
  run env (a + b) n state = run env b n' state'.
Proof.
  revert n state. induction a as [| a IH]; intros n state Hrun; simpl in *.
  - injection Hrun as <- <-. reflexivity.
  - destruct (step env n state) as [[mid next] | e]; simpl in *;
      [| discriminate Hrun].
    destruct next as [m |]; [| discriminate Hrun].
    apply IH. exact Hrun.
Qed.

(** The state is as [search_phase] describes: plan, cursor and results. *)
Lemma search_phase_framed (state updates : AgentState) (plan : list string)
    (count : Z) (found : list SearchResult) :
  search_count updates = None -> planned_queries updates = None ->
  search_results updates = None ->
  search_phase state = (plan, count, found) ->
  search_phase (apply_update state (create_state_update state updates))
  = (plan, count, found).
Proof.
  intros Hc Hp Hf Hphase. unfold search_phase in *.
  destruct (merged_create_state_update state updates) as (-> & -> & ->).
  rewrite Hc, Hp, Hf. exact Hphase.
Qed.

(** From planning to the step the user's review leads to, with the advisor
    off. *)
Lemma review_path (env : Services) (state : AgentState)
    (msgs : list Message) (chunks : list string) (text : string)
    (target : Node) :
  messages state = Some msgs ->
  msgs <> [] ->
  (forall prompt, planning_stream env prompt = Ok chunks) ->
  is_enabled (memory_manager env) = false ->
  (forall payload, interrupt env payload = Ok (PyStr text)) ->
  (lower text = "approve" /\ target = search)
  \/ (lower text = "skip" /\ target = direct_answer_node) ->
  exists approved,
    (forall k, run env (4 + k) planning_node state = run env k target approved)
    /\ search_phase approved = (parse_queries (collect_stream chunks), 0, [])
    /\ (exists question, original_query approved = Some question)
    /\ (exists kept, messages approved = Some kept).
Proof.
  intros Hmsgs Hne Hplanner Hoff Hresume Hcase.
  destruct (planning_with_answer (planning_stream env) state msgs chunks
              Hmsgs Hne Hplanner) as (current_query & note & Hplanning).
  match type of Hplanning with
  | _ = Ok (create_state_update state ?upd) => set (u1 := upd) in *
  end.
  set (planned := apply_update state (create_state_update state u1)).
  assert (Hphase1 : search_phase planned
                    = (parse_queries (collect_stream chunks), 0, [])).
  { unfold search_phase, planned.
    destruct (merged_create_state_update state u1) as (-> & -> & ->).
    reflexivity. }
  assert (Hfeedback1 : user_feedback planned = Some (PyStr "")).
  { unfold planned. destruct (merged_review_fields state u1) as (-> & _).
    reflexivity. }
  assert (Hstep1 : step env planning_node state = Ok (planned, Goto memory_check)).
  { unfold step. cbn [run_node]. rewrite Hplanning. reflexivity. }
  set (waiting := apply_update planned (create_state_update planned no_updates)).
  assert (Hphase2 : search_phase waiting
                    = (parse_queries (collect_stream chunks), 0, []))
    by (apply search_phase_framed; auto).
  assert (Hfeedback2 : user_feedback waiting = Some (PyStr "")).
  { unfold waiting.
    destruct (merged_review_fields planned no_updates) as (-> & _).
    rewrite Hfeedback1. reflexivity. }
  assert (Hstep2 : step env memory_check planned
                   = Ok (waiting, Goto human_review_node)).
  { unfold step. cbn [run_node]. unfold memory_check_node. rewrite Hoff.
    cbn [andb bind fst snd route]. unfold after_memory_check.
    fold waiting. rewrite Hfeedback2. reflexivity. }
  set (u3 := set_user_feedback (PyStr text) no_updates).
  set (reviewed := apply_update waiting (create_state_update waiting u3)).
  assert (Hphase3 : search_phase reviewed
                    = (parse_queries (collect_stream chunks), 0, []))
    by (apply search_phase_framed; auto).
  assert (Hfeedback3 : user_feedback reviewed = Some (PyStr text)).
  { unfold reviewed. destruct (merged_review_fields waiting u3) as (-> & _).
    reflexivity. }
  assert (Hstep3 : step env human_review_node waiting
                   = Ok (reviewed, Goto process_feedback)).
  { unfold step. cbn [run_node]. unfold human_review. rewrite Hresume.
    reflexivity. }
  assert (Hnonempty : (text =? "")%string = false).
  { destruct text; [| reflexivity].
    destruct Hcase as [[Hlow _] | [Hlow _]]; discriminate Hlow. }
  destruct (merged_review_fields waiting u3) as (_ & _ & msgs3 & Hmsgs3).
  fold reviewed in Hmsgs3.
  destruct (process_feedback_on_text (memory_manager env) reviewed text msgs3
              Hfeedback3 Hmsgs3) as [stored Hnode4].
  assert (Hdecided : ((lower text =? "approve")%string
                      || (lower text =? "skip")%string) = true)
    by (destruct Hcase as [[-> _] | [-> _]]; reflexivity).
  rewrite Hnonempty, Hdecided in Hnode4. simpl in Hnode4.
  set (approved := apply_update reviewed (create_state_update reviewed no_updates)).
  assert (Hphase4 : search_phase approved
                    = (parse_queries (collect_stream chunks), 0, []))
    by (apply search_phase_framed; auto).
  assert (Hfeedback4 : user_feedback approved = Some (PyStr text)).
  { unfold approved.
    destruct (merged_review_fields reviewed no_updates) as (-> & _).
    rewrite Hfeedback3. reflexivity. }
  assert (Hstep4 : step env process_feedback reviewed
                   = Ok (approved, Goto target)).
  { unfold step. cbn [run_node]. rewrite Hnode4. cbn [bind fst snd route].
    fold approved. rewrite (after_process_feedback_on_text approved _ Hfeedback4).
    rewrite Hnonempty.
    destruct Hcase as [[-> ->] | [-> ->]]; reflexivity. }
  exists approved. split; [| split; [exact Hphase4 |]].
  2: { unfold approved.
       destruct (merged_review_fields reviewed no_updates) as (_ & -> & Hkept).
       split; [eauto | exact Hkept]. }
  intros k.
  change (4 + k)%nat with (S (S (S (S k)))).
  rewrite (run_step _ _ _ _ _ _ Hstep1), (run_step _ _ _ _ _ _ Hstep2),
    (run_step _ _ _ _ _ _ Hstep3), (run_step _ _ _ _ _ _ Hstep4).
  reflexivity.
Qed.

(** From planning to the approved plan, with the advisor off. *)
Lemma approved_path (env : Services) (state : AgentState)
    (msgs : list Message) (chunks : list string) (text : string) :
  messages state = Some msgs ->
  msgs <> [] ->
  (forall prompt, planning_stream env prompt = Ok chunks) ->
  is_enabled (memory_manager env) = false ->
  (forall payload, interrupt env payload = Ok (PyStr text)) ->
  lower text = "approve" ->
  exists approved,
    (forall k, run env (4 + k) planning_node state = run env k search approved)
    /\ search_phase approved = (parse_queries (collect_stream chunks), 0, []).
Proof.
  intros Hmsgs Hne Hplanner Hoff Hresume Happrove.
  destruct (review_path env state msgs chunks text search Hmsgs Hne Hplanner
              Hoff Hresume) as (approved & Hpath & Hphase & _); [auto |].
  exists approved. auto.
Qed.

Lemma search_phase_parts (state : AgentState) (plan : list string) (count : Z)
    (found : list SearchResult) :
  search_phase state = (plan, count, found) ->
  plan_of state = plan /\ count_of state = count /\ found_of state = found.
Proof.
  unfold search_phase. intros Hphase. injection Hphase as -> -> ->. auto.
Qed.

(** The last two steps of a cycle with searches. *)
Lemma summary_path (env : Services) (state : AgentState) :
  (forall prompt, exists chunks, summary_stream env prompt = Ok chunks) ->
  exists final,
    run env 2 pre_summarize state = Ok (final, END)
    /\ search_phase final = search_phase state.
Proof.
  intros Hanswers.
  set (signalled := apply_update state (create_state_update state no_updates)).
  assert (Hphase1 : search_phase signalled = search_phase state)
    by (apply search_phase_framed; auto).
  assert (Hstep1 : step env pre_summarize state = Ok (signalled, Goto summarize))
    by reflexivity.
  destruct (Hanswers (mkSummaryPrompt (dict_get "" (original_query signalled))
                        (combine_results (dict_get [] (search_results signalled)))))
    as [chunks Hchunks].
  set (u2 := set_messages [AIMessage (collect_stream chunks)] no_updates).
  set (final := apply_update signalled (create_state_update signalled u2)).
  assert (Hstep2 : step env summarize signalled = Ok (final, END)).
  { unfold step. cbn [run_node]. unfold summarization_node.
    rewrite Hchunks. reflexivity. }
  exists final. split.
  - rewrite (run_step _ _ _ _ _ _ Hstep1). exact (run_end _ _ _ _ _ Hstep2).
  - rewrite <- Hphase1. apply search_phase_framed; auto.
Qed.

(** X13: a whole cycle with searches.  When classification asks for a
    search, the planner's answer holds at least one query, the advisor is
    off, the user approves and the search provider and the model answer,
    the run started at classification ends after 7 steps plus one per
    planned query; in the final state every planned query has been
    searched exactly once, in order, [search_count] equals the number of
    planned queries, and the plan is the one parsed from the planner's
    answer. *)
Theorem approved_cycle_searches_every_query (env : Services)
    (state : AgentState) (msgs : list Message) (chunks : list string)
    (text : string) (answers : string -> string) :
  messages state = Some msgs ->
  msgs <> [] ->
  (forall prompt, exists r,
      classify_llm env prompt = Ok r /\ classification_label r = NEEDS_SEARCH) ->
  (forall prompt, planning_stream env prompt = Ok chunks) ->
  parse_queries (collect_stream chunks) <> [] ->
  is_enabled (memory_manager env) = false ->
  (forall payload, interrupt env payload = Ok (PyStr text)) ->
  lower text = "approve" ->
  (forall q, tavily_search env q = Ok (answers q)) ->
  (forall prompt, exists answer, summary_stream env prompt = Ok answer) ->
  let queries := parse_queries (collect_stream chunks) in
  exists final,
    run env (7 + List.length queries) classification_node state
    = Ok (final, END)
    /\ search_phase final
       = (queries, len queries,
          map (fun q => mkSearchResult q (answers q)) queries).
Proof.
  intros Hmsgs Hne Hclassify Hplanner Hqueries Hoff Hresume Happrove
    Hsearch Hsummary queries.
  (* classification *)
  assert (Hstep0 : exists classified,
             step env classification_node state
             = Ok (classified, Goto planning_node)
             /\ messages classified = Some msgs).
  { unfold step. cbn [run_node]. unfold classification.
    rewrite Hmsgs. cbn [get_item bind].
    destruct (py_index_last_nonempty msgs Hne) as [m ->]. cbn [bind].
    match goal with
    | |- context [classify_llm env ?p] =>
        destruct (Hclassify p) as (r & -> & Hlabel)
    end.
    cbn [bind]. rewrite Hlabel. cbn [bind fst snd update goto].
    eexists. split; [reflexivity |]. simpl. exact Hmsgs. }
  destruct Hstep0 as (classified & Hstep0 & Hmsgs0).
  (* planning to approval *)
  destruct (approved_path env classified msgs chunks text Hmsgs0 Hne Hplanner
              Hoff Hresume Happrove) as (approved & Hpath & Hphase).
  fold queries in Hphase.
  destruct (search_phase_parts _ _ _ _ Hphase) as (Hplan & Hcount & Hfound).
  (* the search loop *)
  destruct (List.length queries) as [| k] eqn:Hlength.
  { apply length_zero_iff_nil in Hlength. contradiction. }
  destruct (search_loop env answers k Hsearch approved)
    as (searched & Hloop & Hcount' & Hplan' & Hfound').
  { rewrite Hcount. lia. }
  { rewrite Hplan, Hcount. unfold len. rewrite Hlength. lia. }
  rewrite Hplan, Hcount, Hfound in Hfound'. simpl in Hfound'.
  (* the summary *)
  destruct (summary_path env searched Hsummary) as (final & Hend & Hsame).
  exists final. split.
  - replace (7 + S k)%nat with (S (4 + (S k + 2))) by lia.
    rewrite (run_step _ _ _ _ _ _ Hstep0), Hpath.
    rewrite (run_compose _ _ _ _ _ _ _ Hloop). exact Hend.
  - rewrite Hsame. unfold search_phase.
    rewrite Hplan', Hcount', Hfound', Hplan.
    unfold len. rewrite Hlength. reflexivity.
Qed.

Lemma approved_cycle_searches_every_query_witness :
  exists final,
    run (sample_services NEEDS_SEARCH two_queries (PyStr "approve")) 9
      classification_node sample_input = Ok (final, END)
    /\ search_phase final
       = (["paris weather"; "paris forecast"], 2,
          [mkSearchResult "paris weather" "Title: paris weather";
           mkSearchResult "paris forecast" "Title: paris forecast"]).
Proof.
  destruct (approved_cycle_searches_every_query
              (sample_services NEEDS_SEARCH two_queries (PyStr "approve"))
              sample_input [HumanMessage paris_question] [two_queries]
              "approve" (fun q => "Title: " ++ q))
    as (final & Hrun & Hphase); try reflexivity; try discriminate.
  - intros prompt. eexists. split; reflexivity.
  - intros prompt. eexists. reflexivity.
  - exists final. split; [exact Hrun | exact Hphase].
Defined.

Lemma classification_step (env : Services) (state : AgentState)
    (msgs : list Message) (label : ClassLabel) :
  messages state = Some msgs ->
  msgs <> [] ->
  (forall prompt, exists r,
      classify_llm env prompt = Ok r /\ classification_label r = label) ->
  exists classified,
    step env classification_node state
    = Ok (classified, Goto match label with
                           | NEEDS_SEARCH => planning_node
                           | DIRECT_ANSWER => direct_answer_node
                           end)
    /\ messages classified = Some msgs
    /\ (exists question, original_query classified = Some question)
    /\ (label = DIRECT_ANSWER ->
        search_phase classified = search_phase state
        /\ needs_search classified = Some false).
Proof.
  intros Hmsgs Hne Hclassify.
  unfold step. cbn [run_node]. unfold classification.
  rewrite Hmsgs. cbn [get_item bind].
  destruct (py_index_last_nonempty msgs Hne) as [m ->]. cbn [bind].
  match goal with
  | |- context [classify_llm env ?p] =>
      destruct (Hclassify p) as (r & -> & Hlabel)
  end.
  cbn [bind]. rewrite Hlabel.
  destruct label; cbn [bind fst snd update goto];
    (eexists; split; [reflexivity |]).
  - split; [simpl; exact Hmsgs |]. split; [simpl; eauto | discriminate].
  - split; [simpl; exact Hmsgs |]. split; [simpl; eauto |].
    intros _. split; [| reflexivity].
    unfold search_phase.
    rewrite plan_of_apply_update, count_of_apply_update, found_of_apply_update.
    reflexivity.
Qed.

Lemma direct_answer_step (env : Services) (state : AgentState)
    (question : string) (msgs : list Message) :
  original_query state = Some question ->
  messages state = Some msgs ->
  (forall prompt, exists chunks, direct_answer_stream env prompt = Ok chunks) ->
  exists final,
    step env direct_answer_node state = Ok (final, END)
    /\ search_phase final = search_phase state
    /\ needs_search final = Some (dict_get false (needs_search state)).
Proof.
  intros Hquestion Hmsgs Hanswers.
  unfold step. cbn [run_node]. unfold direct_answer.
  rewrite Hquestion, Hmsgs. cbn [get_item bind].
  match goal with
  | |- context [direct_answer_stream env ?p] =>
      destruct (Hanswers p) as [chunks ->]
  end.
  cbn [bind fst snd route]. eexists. split; [reflexivity |].
  split; [apply search_phase_framed; auto | reflexivity].
Qed.

(** X14: a cycle answered from the conversation.  When classification
    answers DIRECT_ANSWER and the model answers, the run is classification,
    direct_answer, end: it never reaches the search step, whatever the
    search provider would do, and the plan, the cursor and the search
    results of the thread are exactly what they were before the cycle. *)
Theorem direct_cycle_never_searches (env : Services) (state : AgentState)
    (msgs : list Message) :
  messages state = Some msgs ->
  msgs <> [] ->
  (forall prompt, exists r,
      classify_llm env prompt = Ok r /\ classification_label r = DIRECT_ANSWER) ->
  (forall prompt, exists chunks, direct_answer_stream env prompt = Ok chunks) ->
  exists final,
    run env 2 classification_node state = Ok (final, END)
    /\ search_phase final = search_phase state
    /\ needs_search final = Some false.
Proof.
  intros Hmsgs Hne Hclassify Hanswers.
  destruct (classification_step env state msgs DIRECT_ANSWER Hmsgs Hne Hclassify)
    as (classified & Hstep1 & Hmsgs1 & [question Hquestion] & Hdirect).
  destruct (Hdirect eq_refl) as [Hphase1 Hneeds1].
  destruct (direct_answer_step env classified question msgs Hquestion Hmsgs1
              Hanswers) as (final & Hstep2 & Hphase2 & Hneeds2).
  exists final. split; [| split].
  - rewrite (run_step _ _ _ _ _ _ Hstep1). exact (run_end _ _ _ _ _ Hstep2).
  - rewrite Hphase2. exact Hphase1.
  - rewrite Hneeds2, Hneeds1. reflexivity.
Qed.

Lemma direct_cycle_never_searches_witness :
  exists final,
    run (sample_services DIRECT_ANSWER "" PyNone) 2 classification_node
      next_question_state = Ok (final, END)
    /\ search_phase final = search_phase next_question_state.
Proof.
  destruct (direct_cycle_never_searches (sample_services DIRECT_ANSWER "" PyNone)
              next_question_state
              [mkMessage Human paris_question None (Some 1%nat);
               mkMessage AI "Sunny and mild" None (Some 2%nat);
               mkMessage Human "And in Rome?" None (Some 3%nat)])
    as (final & Hrun & Hphase & _).
  - reflexivity.
  - discriminate.
  - intros prompt. eexists. split; reflexivity.
  - intros prompt. eexists. reflexivity.
  - exists final. split; [exact Hrun | exact Hphase].
Defined.

(** X15: a skipped plan.  When classification asks for a search, the
    advisor is off and the user answers "skip" (in any letter case), the
    run is classification, planning, memory_check, human_review,
    process_feedback, direct_answer, end: no search is made, whatever the
    search provider would do, and the thread keeps the plan with
    [search_count] 0 and no results. *)
Theorem skipped_plan_answers_directly (env : Services) (state : AgentState)
    (msgs : list Message) (chunks : list string) (text : string) :
  messages state = Some msgs ->
  msgs <> [] ->
  (forall prompt, exists r,
      classify_llm env prompt = Ok r /\ classification_label r = NEEDS_SEARCH) ->
  (forall prompt, planning_stream env prompt = Ok chunks) ->
  is_enabled (memory_manager env) = false ->
  (forall payload, interrupt env payload = Ok (PyStr text)) ->
  lower text = "skip" ->
  (forall prompt, exists answer, direct_answer_stream env prompt = Ok answer) ->
  exists final,
    run env 6 classification_node state = Ok (final, END)
    /\ search_phase final = (parse_queries (collect_stream chunks), 0, []).
Proof.
  intros Hmsgs Hne Hclassify Hplanner Hoff Hresume Hskip Hanswers.
  destruct (classification_step env state msgs NEEDS_SEARCH Hmsgs Hne Hclassify)
    as (classified & Hstep1 & Hmsgs1 & _).
  destruct (review_path env classified msgs chunks text direct_answer_node
              Hmsgs1 Hne Hplanner Hoff Hresume)
    as (skipped & Hpath & Hphase & [question Hquestion] & [kept Hkept]);
    [auto |].
  destruct (direct_answer_step env skipped question kept Hquestion Hkept
              Hanswers) as (final & Hstep6 & Hphase6 & _).
  exists final. split.
  - rewrite (run_step _ _ _ _ _ _ Hstep1).
    change 5%nat with (4 + 1)%nat. rewrite Hpath.
    exact (run_end _ _ _ _ _ Hstep6).
  - rewrite Hphase6. exact Hphase.
Qed.

Lemma skipped_plan_answers_directly_witness :
  exists final,
    run (sample_services NEEDS_SEARCH two_queries (PyStr "SKIP")) 6
      classification_node sample_input = Ok (final, END)
    /\ search_phase final = (["paris weather"; "paris forecast"], 0, []).
Proof.
  destruct (skipped_plan_answers_directly
              (sample_services NEEDS_SEARCH two_queries (PyStr "SKIP"))
              sample_input [HumanMessage paris_question] [two_queries] "SKIP")
    as (final & Hrun & Hphase); try reflexivity; try discriminate.
  - intros prompt. eexists. split; reflexivity.
  - intros prompt. eexists. reflexivity.
  - exists final. split; [exact Hrun | exact Hphase].
Defined.

(** ** Questions, histories and answers ([agent.py]) *)

(** X16: on the first planning of a cycle the question is kept.
    Classification adds no message, so the planning step that follows it
    reads the same last message: the [original_query] it returns is the
    one classification set. *)
Theorem first_plan_keeps_the_question
    (llm : ClassificationPrompt -> result QueryClassification)
    (astream : PlanningPrompt -> result (list string))
    (state u : AgentState) (c : Command) :
  classification llm state = Ok c ->
  planning astream (apply_update state (update c)) = Ok u ->
  original_query u = original_query (update c)
  /\ original_query (apply_update (apply_update state (update c)) u)
     = original_query (update c)
  /\ exists question, original_query (update c) = Some question.
Proof.
  intros Hclass Hplan.
  assert (Hsame : messages (apply_update state (update c)) = messages state).
  { destruct (classification_update_shape _ _ _ Hclass)
      as [current_query [[_ ->] | [_ ->]]]; reflexivity. }
  unfold classification in Hclass. unbind Hclass. unbind Hclass. unbind Hclass.
  assert (Hquestion : original_query (update c) = Some (human_content a0))
    by (destruct (classification_label a1); injection Hclass as <-; reflexivity).
  unfold planning in Hplan. unbind Hplan. unbind Hplan. injection Hplan as <-.
  unfold planning_prompt in Ha2. rewrite Hsame, Ha in Ha2.
  cbn [bind] in Ha2. rewrite Ha0 in Ha2. cbn [bind] in Ha2.
  injection Ha2 as <-. rewrite Hquestion.
  split; [reflexivity |]. split; [reflexivity | eauto].
Qed.

Lemma first_plan_keeps_the_question_witness :
  exists c u,
    classification (classify_llm pricing_review) sample_input = Ok c
    /\ planning (planning_stream pricing_review)
         (apply_update sample_input (update c)) = Ok u
    /\ original_query u = original_query (update c).
Proof.
  eexists _, _. split; [reflexivity |]. split; [reflexivity |].
  apply (first_plan_keeps_the_question (classify_llm pricing_review)
           (planning_stream pricing_review) sample_input);
    reflexivity.
Defined.

Lemma filter_without {A : Type} (keep : A -> bool) (before after : list A)
    (x : A) :
  keep x = false ->
  filter keep (before ++ x :: after) = filter keep (before ++ after).
Proof.
  intros Hdrop. rewrite !filter_app. simpl. rewrite Hdrop. reflexivity.
Qed.

(** X17: the conversation history put into the prompts never shows a tool
    message, nor an assistant message that starts with "Classification:":
    wherever such a message sits in the conversation, the history text is
    the one built without it. *)
Theorem history_leaves_out_tool_messages (before after : list Message)
    (m : Message) :
  msg_type m = Tool
  \/ (msg_type m = AI /\ startswith (content m) "Classification:" = true) ->
  format_history (before ++ m :: after) = format_history (before ++ after).
Proof.
  intros Hkind. unfold format_history.
  rewrite filter_without; [reflexivity |].
  unfold in_history.
  destruct Hkind as [-> | [-> ->]]; reflexivity.
Qed.

Lemma history_leaves_out_tool_messages_witness :
  format_history [HumanMessage paris_question;
                  ToolMessage "Title: Paris" "search_0";
                  AIMessage "Sunny"]
  = format_history [HumanMessage paris_question; AIMessage "Sunny"].
Proof.
  apply (history_leaves_out_tool_messages [HumanMessage paris_question]
           [AIMessage "Sunny"] (ToolMessage "Title: Paris" "search_0")).
  left. reflexivity.
Defined.

Lemma collect_stream_from (chunks : list string) (acc : string) :
  fold_left (fun acc c => if (c =? "")%string then acc else (acc ++ c)%string)
    chunks acc
  = (acc ++ join "" chunks)%string.
Proof.
  revert acc. induction chunks as [| c rest IH]; intros acc; simpl.
  - rewrite append_empty_r. reflexivity.
  - rewrite IH. destruct (String.eqb_spec c "") as [-> | Hc].
    + destruct rest; reflexivity.
    + rewrite append_associative. destruct rest; simpl;
        [rewrite append_empty_r |]; reflexivity.
Qed.

(** X18: the answer a cycle ends with is the text the model streamed: the
    update of [direct_answer] and of [summarization_node] holds exactly one
    message, an assistant message whose content is the concatenation of
    all streamed chunks in order. *)
Theorem answer_is_the_streamed_text (env : Services) (state u : AgentState) :
  (direct_answer (direct_answer_stream env) state = Ok u ->
   exists prompt chunks,
     direct_answer_stream env prompt = Ok chunks
     /\ messages u = Some [AIMessage (join "" chunks)])
  /\ (summarization_node (summary_stream env) state = Ok u ->
      exists prompt chunks,
        summary_stream env prompt = Ok chunks
        /\ messages u = Some [AIMessage (join "" chunks)]).
Proof.
  assert (Hcollect : forall chunks, collect_stream chunks = join "" chunks)
    by (intros chunks; unfold collect_stream; apply collect_stream_from).
  split; intros Hrun.
  - unfold direct_answer in Hrun. unbind Hrun. unbind Hrun. unbind Hrun.
    injection Hrun as <-. eexists _, a1. split; [exact Ha1 |].
    simpl. rewrite Hcollect. reflexivity.
  - unfold summarization_node in Hrun. unbind Hrun. injection Hrun as <-.
    match type of Ha with
    | try_except (summary_stream env ?p) _ = _ =>
        destruct (summary_stream env p) as [chunks | e] eqn:Hstream;
        simpl in Ha; [| discriminate Ha]
    end.
    injection Ha as <-. eexists _, chunks. split; [exact Hstream |].
    simpl. rewrite Hcollect. reflexivity.
Qed.

Lemma answer_is_the_streamed_text_witness :
  exists u chunks,
    summarization_node (summary_stream pricing_review) planned_state = Ok u
    /\ messages u = Some [AIMessage (join "" chunks)]
    /\ join "" chunks = "Sunny and mild".
Proof.
  destruct (summarization_node (summary_stream pricing_review) planned_state)
    as [u | e] eqn:Hrun; [| discriminate Hrun].
  destruct (proj2 (answer_is_the_streamed_text pricing_review planned_state u)
              Hrun) as (prompt & chunks & Hstream & Hmsgs).
  exists u, chunks. split; [reflexivity |]. split; [exact Hmsgs |].
  injection Hstream as <-. reflexivity.
Defined.

(** ** The console runner, the search tool and the status lines *)

Lemma event_get_absent (n : Node) (event : Event) :
  (forall m u, In (m, u) event -> m <> n) ->
  event_get n event = None.
Proof.
  induction event as [| [m u] rest IH]; intros Habsent; [reflexivity |].
  simpl. destruct (node_eqb m n) eqn:Hsame.
  - exfalso. apply (Habsent m u); [left; reflexivity |].
    destruct m, n; (reflexivity || discriminate Hsame).
  - apply IH. intros m' u' Hin. apply (Habsent m' u'). right. exact Hin.
Qed.

Lemma planning_writes_note (astream : PlanningPrompt -> result (list string))
    (state u : AgentState) :
  planning astream state = Ok u ->
  exists queries : list string,
    messages u =
    Some [AIMessage ("Planned " ++ str_of_Z (len queries) ++ " search queries")].
Proof.
  intros Hrun. unfold planning in Hrun.
  unbind Hrun. unbind Hrun. injection Hrun as <-.
  eexists. reflexivity.
Qed.

Lemma summarization_writes_answer
    (astream : SummaryPrompt -> result (list string)) (state u : AgentState) :
  summarization_node astream state = Ok u ->
  exists answer, messages u = Some [AIMessage answer].
Proof.
  intros Hrun. unfold summarization_node in Hrun. unbind Hrun.
  injection Hrun as <-. eexists. reflexivity.
Qed.

Lemma handle_event_of_one (n : Node) (u : AgentState) (m : Message) :
  messages u = Some [m] ->
  handle_custom_event [(n, u)] =
  Ok (match n, msg_type m with
      | search, Tool => [mkShown "results" results_banner]
      | summarize, AI =>
          [mkShown "final_answer" (final_answer_text (content m))]
      | _, _ => []
      end).
Proof.
  intros Hmsgs. unfold handle_custom_event, handle_node.
  destruct n; simpl; rewrite ?Hmsgs; simpl;
    destruct (msg_type m); reflexivity.
Qed.

(** X19: what the console handler shows for the update of one step.  The
    note [planning] writes is never shown; the update of a search step that
    ran a query shows the results banner, once; the update of
    [summarization_node] shows the final answer, and the text shown is the
    content of the message the step wrote.  None of the three raises the
    [KeyError] of [state["messages"]]. *)
Theorem console_reports_search_and_answer (env : Services)
    (state u : AgentState) :
  (planning (planning_stream env) state = Ok u ->
   handle_custom_event [(planning_node, u)] = Ok [])
  /\ (count_of state < len (plan_of state) ->
      search_execution_node (tavily_search env) state = Ok u ->
      handle_custom_event [(search, u)] = Ok [mkShown "results" results_banner])
  /\ (summarization_node (summary_stream env) state = Ok u ->
      exists answer,
        messages u = Some [AIMessage answer]
        /\ handle_custom_event [(summarize, u)] =
           Ok [mkShown "final_answer" (final_answer_text answer)]).
Proof.
  split; [| split].
  - intros Hrun. destruct (planning_writes_note _ _ _ Hrun) as [queries Hmsgs].
    rewrite (handle_event_of_one _ _ _ Hmsgs). reflexivity.
  - intros Hpending Hrun.
    destruct (search_execution_pending _ _ _ Hpending Hrun)
      as (q & found & _ & _ & ->).
    erewrite handle_event_of_one by reflexivity. reflexivity.
  - intros Hrun.
    destruct (summarization_writes_answer _ _ _ Hrun) as [answer Hmsgs].
    exists answer. split; [exact Hmsgs |].
    rewrite (handle_event_of_one _ _ _ Hmsgs). reflexivity.
Qed.

Lemma console_reports_search_and_answer_witness :
  exists u,
    search_execution_node (tavily_search pricing_review) planned_state = Ok u
    /\ handle_custom_event [(search, u)] = Ok [mkShown "results" results_banner].
Proof.
  destruct (search_execution_node (tavily_search pricing_review) planned_state)
    as [u | e] eqn:Hrun; [| discriminate Hrun].
  exists u. split; [reflexivity |].
  apply (proj1 (proj2 (console_reports_search_and_answer pricing_review
                         planned_state u))).
  - vm_compute. reflexivity.
  - exact Hrun.
Defined.

(** X20: the console handler looks at the updates of planning, search and
    summarize only.  An event that holds none of the three shows nothing
    and cannot fail, whatever the updates in it hold: the answer written by
    [direct_answer] is never printed by this handler. *)
Theorem console_skips_other_steps (event : Event) :
  (forall n u, In (n, u) event ->
     n <> planning_node /\ n <> search /\ n <> summarize) ->
  handle_custom_event event = Ok [].
Proof.
  intros Hother. unfold handle_custom_event, handle_node.
  rewrite !event_get_absent; [reflexivity | | |];
    intros m u Hin; destruct (Hother m u Hin) as (Hp & Hs & Hz); assumption.
Qed.

Lemma console_skips_other_steps_witness :
  handle_custom_event
    [(classification_node, no_updates);
     (direct_answer_node, set_messages [AIMessage "From what we discussed"]
                            no_updates)] = Ok [].
Proof.
  apply console_skips_other_steps.
  intros n u [Hin | [Hin | []]]; injection Hin as <- _;
    (split; [discriminate | split; discriminate]).
Defined.

Lemma startswith_append (p s : string) : startswith (p ++ s) p = true.
Proof.
  unfold startswith. induction p as [| c p IH]; simpl.
  - destruct s; reflexivity.
  - destruct (ascii_dec c c) as [_ | Hne]; [exact IH | congruence].
Qed.

Lemma format_hits_complete (hits : list TavilyHit) :
  forallb hit_complete hits = true ->
  exists blocks,
    format_hits hits = Ok blocks
    /\ List.length blocks = List.length hits
    /\ Forall (fun block => startswith block "Title: " = true) blocks.
Proof.
  induction hits as [| hit rest IH]; intros Hall.
  - exists []. simpl. auto.
  - simpl in Hall. apply andb_true_iff in Hall. destruct Hall as [Hhit Hrest].
    destruct (IH Hrest) as (blocks & Hblocks & Hlength & Hstart).
    unfold hit_complete in Hhit.
    destruct hit as [[title |] [url |] [body |]]; try discriminate Hhit.
    eexists. simpl. rewrite Hblocks. simpl.
    split; [reflexivity |]. split; [simpl; congruence |].
    constructor; [apply (startswith_append "Title: ") | exact Hstart].
Qed.

Lemma format_hits_incomplete (hits : list TavilyHit) :
  forallb hit_complete hits = false ->
  exists key,
    In key ["title"; "url"; "content"]
    /\ format_hits hits = Raise (KeyError key).
Proof.
  induction hits as [| hit rest IH]; intros Hsome; [discriminate Hsome |].
  simpl in Hsome. apply andb_false_iff in Hsome.
  destruct (hit_complete hit) eqn:Hhit.
  - destruct Hsome as [Hsome | Hsome]; [discriminate Hsome |].
    destruct (IH Hsome) as (key & Hkey & Hraise).
    exists key. split; [exact Hkey |].
    unfold hit_complete in Hhit.
    destruct hit as [[title |] [url |] [body |]]; try discriminate Hhit.
    simpl. rewrite Hraise. reflexivity.
  - unfold hit_complete in Hhit.
    destruct hit as [[title |] [url |] [body |]]; try discriminate Hhit;
      simpl; eexists; (split; [| reflexivity]); simpl; auto.
Qed.

Lemma search_execution_with (tavily : string -> result string)
    (state : AgentState) (q : string) :
  count_of state < len (plan_of state) ->
  py_index (plan_of state) (count_of state) = Ok q ->
  search_execution_node tavily state =
  (found <- tavily q ;;
   Ok (create_state_update state
         (set_messages
            [ToolMessage found ("search_" ++ str_of_Z (count_of state))]
            (set_search_count (count_of state + 1)
               (set_search_results
                  (found_of state ++ [mkSearchResult q found])
                  no_updates))))).
Proof.
  intros Hpending Hq. unfold search_execution_node.
  fold (plan_of state) (count_of state) (found_of state).
  destruct (count_of state >=? len (plan_of state)) eqn:Hge.
  - apply Z.geb_le in Hge. lia.
  - rewrite Hq. reflexivity.
Qed.

(** X21: a search that finds nothing still counts.  When the provider
    answers the pending query with no entry (no ["results"] key, or an
    empty list), the tool returns the empty string and the search step
    goes on as for any other answer: the cursor moves by one, an entry
    with empty results is recorded for the query, and an empty tool
    message is written. *)
Theorem search_without_hits_still_counts
    (post : string -> result (option (list TavilyHit)))
    (state : AgentState) (q : string) (data : option (list TavilyHit)) :
  count_of state < len (plan_of state) ->
  py_index (plan_of state) (count_of state) = Ok q ->
  post q = Ok data ->
  dict_get [] data = [] ->
  tavily_search_tool post q = Ok ""
  /\ search_execution_node (tavily_search_tool post) state =
     Ok (create_state_update state
           (set_messages
              [ToolMessage "" ("search_" ++ str_of_Z (count_of state))]
              (set_search_count (count_of state + 1)
                 (set_search_results
                    (found_of state ++ [mkSearchResult q ""])
                    no_updates)))).
Proof.
  intros Hpending Hq Hpost Hnone.
  assert (Htool : tavily_search_tool post q = Ok "").
  { unfold tavily_search_tool. rewrite Hpost. simpl. rewrite Hnone.
    reflexivity. }
  split; [exact Htool |].
  rewrite (search_execution_with _ _ _ Hpending Hq). rewrite Htool.
  reflexivity.
Qed.

Lemma search_without_hits_still_counts_witness :
  exists u,
    search_execution_node (tavily_search_tool (answers_with None))
      planned_state = Ok u
    /\ search_count u = Some 1
    /\ search_results u = Some [mkSearchResult "paris weather" ""].
Proof.
  eexists. split.
  - apply (search_without_hits_still_counts (answers_with None)
             planned_state "paris weather" None);
      [vm_compute; reflexivity | reflexivity | reflexivity | reflexivity].
  - split; reflexivity.
Defined.

(** X22: the search tool needs every entry of the provider's answer to
    hold ["title"], ["url"] and ["content"].  When all entries do, the tool
    returns one block per entry, each starting with the title line, joined
    by blank lines.  When one entry lacks a key, the tool raises [KeyError]
    for one of the three keys, no text is returned for the other entries,
    and a search step running that query raises the same error instead of
    returning an update. *)
Theorem search_tool_needs_complete_hits
    (post : string -> result (option (list TavilyHit)))
    (q : string) (data : option (list TavilyHit)) :
  post q = Ok data ->
  (forallb hit_complete (dict_get [] data) = true ->
   exists blocks,
     tavily_search_tool post q = Ok (join (newline ++ newline) blocks)
     /\ List.length blocks = List.length (dict_get [] data)
     /\ Forall (fun block => startswith block "Title: " = true) blocks)
  /\ (forallb hit_complete (dict_get [] data) = false ->
      exists key,
        In key ["title"; "url"; "content"]
        /\ tavily_search_tool post q = Raise (KeyError key)
        /\ forall state,
             count_of state < len (plan_of state) ->
             py_index (plan_of state) (count_of state) = Ok q ->
             search_execution_node (tavily_search_tool post) state =
             Raise (KeyError key)).
Proof.
  intros Hpost. split; intros Hhits.
  - destruct (format_hits_complete _ Hhits) as (blocks & Hblocks & Hrest).
    exists blocks. split; [| exact Hrest].
    unfold tavily_search_tool. rewrite Hpost. simpl. rewrite Hblocks.
    reflexivity.
  - destruct (format_hits_incomplete _ Hhits) as (key & Hkey & Hraise).
    assert (Htool : tavily_search_tool post q = Raise (KeyError key)).
    { unfold tavily_search_tool. rewrite Hpost. simpl. rewrite Hraise.
      reflexivity. }
    exists key. split; [exact Hkey |]. split; [exact Htool |].
    intros state Hpending Hq.
    rewrite (search_execution_with _ _ _ Hpending Hq). rewrite Htool.
    reflexivity.
Qed.

Lemma search_tool_needs_complete_hits_witness :
  (exists blocks,
     tavily_search_tool (answers_with (Some [paris_hit])) "paris weather" =
     Ok (join (newline ++ newline) blocks)
     /\ List.length blocks = 1%nat)
  /\ search_execution_node (tavily_search_tool (answers_with (Some broken_hits)))
       planned_state = Raise (KeyError "url").
Proof.
  split.
  - destruct (proj1 (search_tool_needs_complete_hits
                       (answers_with (Some [paris_hit])) "paris weather"
                       (Some [paris_hit]) eq_refl) eq_refl)
      as (blocks & Htool & Hlength & _).
    exists blocks. split; [exact Htool | exact Hlength].
  - reflexivity.
Defined.

(** X23: the status line of the API follows what the step did.  For the
    update of classification it announces a web search exactly when
    classification routes to planning; for the update of a search step that
    ran a query it shows the number of searches done, this one included,
    over the length of the plan. *)
Theorem status_line_follows_the_step (env : Services) (state : AgentState) :
  (forall c,
     classification (classify_llm env) state = Ok c ->
     get_status_message "updates" [(classification_node, update c)] =
     Some (if node_eqb (goto c) planning_node
           then "🔍 Query requires web search..."
           else "💬 Answering from history..."))
  /\ (forall u,
        count_of state < len (plan_of state) ->
        search_execution_node (tavily_search env) state = Ok u ->
        get_status_message "updates" [(search, u)] =
        Some ("🔍 Searching (" ++ str_of_Z (count_of state + 1) ++ "/"
              ++ str_of_Z (len (plan_of state)) ++ ")...")).
Proof.
  split.
  - intros c Hrun.
    destruct (classification_update_shape _ _ _ Hrun)
      as [current_query [[Hgoto Hupdate] | [Hgoto Hupdate]]];
      rewrite Hgoto, Hupdate; reflexivity.
  - intros u Hpending Hrun.
    destruct (search_execution_pending _ _ _ Hpending Hrun)
      as (q & found & _ & _ & ->).
    unfold get_status_message. simpl.
    unfold plan_of. destruct (planned_queries state); reflexivity.
Qed.

Lemma status_line_follows_the_step_witness :
  exists u,
    search_execution_node (tavily_search pricing_review) planned_state = Ok u
    /\ get_status_message "updates" [(search, u)] =
       Some "🔍 Searching (1/2)...".
Proof.
  destruct (search_execution_node (tavily_search pricing_review) planned_state)
    as [u | e] eqn:Hrun; [| discriminate Hrun].
  exists u. split; [reflexivity |].
  rewrite (proj2 (status_line_follows_the_step pricing_review planned_state) u);
    [reflexivity | vm_compute; reflexivity | exact Hrun].
Defined.

(** ** The thread view *)

Lemma query_name_at (planned : list string) (k : nat) :
  (if Z.of_nat k <? len planned
   then py_index planned (Z.of_nat k)
   else Ok ("Search " ++ str_of_Z (Z.of_nat k + 1))) =
  Ok (query_label planned k).
Proof.
  unfold query_label, py_index, len.
  destruct (Z.of_nat k <? Z.of_nat (List.length planned)) eqn:Hin.
  - apply Z.ltb_lt in Hin.
    destruct (Z.of_nat k <? 0) eqn:Hneg; [apply Z.ltb_lt in Hneg; lia |].
    rewrite Hneg, Nat2Z.id.
    destruct (nth_error planned k) as [q |] eqn:Hnth; [reflexivity |].
    apply nth_error_None in Hnth. lia.
  - apply Z.ltb_ge in Hin.
    destruct (nth_error planned k) as [q |] eqn:Hnth; [| reflexivity].
    assert (Hsome : nth_error planned k <> None) by congruence.
    apply nth_error_Some in Hsome. lia.
Qed.

Lemma tool_count_cons (m : JsonMessage) (rest : list JsonMessage) :
  tool_count (m :: rest) =
  if (dict_get "" (json_type m) =? "tool")%string
  then S (tool_count rest) else tool_count rest.
Proof.
  unfold tool_count. simpl.
  destruct (dict_get "" (json_type m) =? "tool")%string; reflexivity.
Qed.

(** The view of a list of messages followed by another: the second part is
    visited with the list built from the first and with the cursor moved
    by the tool messages of the first. *)
Lemma extract_loop_app {R : Type} (parse : string -> Z -> string -> list R)
    (planned : list string) (first rest : list JsonMessage) :
  forall (shown : list (ChatMessage R)) (k : nat),
    extract_loop parse planned (first ++ rest) shown (Z.of_nat k) =
    (built <- extract_loop parse planned first shown (Z.of_nat k) ;;
     extract_loop parse planned rest built (Z.of_nat (k + tool_count first))).
Proof.
  induction first as [| m first IH]; intros shown k.
  - simpl. unfold tool_count. simpl. rewrite Nat.add_0_r. reflexivity.
  - rewrite tool_count_cons. simpl.
    destruct (dict_get "" (json_type m) =? "human")%string eqn:Hhuman.
    { apply String.eqb_eq in Hhuman. rewrite Hhuman. simpl. apply IH. }
    destruct (dict_get "" (json_type m) =? "ai")%string eqn:Hai.
    { apply String.eqb_eq in Hai. rewrite Hai. simpl.
      destruct (negb _); apply IH. }
    destruct (dict_get "" (json_type m) =? "tool")%string eqn:Htool;
      [| apply IH].
    rewrite query_name_at. simpl.
    replace (Z.of_nat k + 1) with (Z.of_nat (S k)) by lia.
    rewrite IH. replace (S k + tool_count first)%nat
      with (k + S (tool_count first))%nat by lia.
    reflexivity.
Qed.

(** An internal note changes nothing in the view of the messages around
    it. *)
Lemma extract_loop_skips_note {R : Type}
    (parse : string -> Z -> string -> list R) (planned : list string)
    (m : JsonMessage) (note : string) (before after : list JsonMessage) :
  json_type m = Some "ai" ->
  json_content m = Some note ->
  startswith note "Classification:" || startswith note "Planned" = true ->
  forall (shown : list (ChatMessage R)) (k : nat),
    extract_loop parse planned (before ++ m :: after) shown (Z.of_nat k) =
    extract_loop parse planned (before ++ after) shown (Z.of_nat k).
Proof.
  intros Htype Hcontent Hnote shown k.
  rewrite !extract_loop_app.
  destruct (extract_loop parse planned before shown (Z.of_nat k))
    as [built | e]; [| reflexivity].
  simpl. rewrite Htype, Hcontent. simpl. rewrite Hnote. reflexivity.
Qed.

(** X24: the note [planning] writes never shows in the thread view of the
    API.  Wherever the note stands among the messages of the thread, and
    whatever the parser of tool messages is, the view is the one of the
    same thread without the note: the messages around it keep their
    generated identifiers and the tool messages their search index. *)
Theorem thread_view_hides_planning_note {R : Type}
    (parse : string -> Z -> string -> list R)
    (astream : PlanningPrompt -> result (list string))
    (state u : AgentState) :
  planning astream state = Ok u ->
  exists note,
    messages u = Some [note]
    /\ forall (m : JsonMessage) (before after : list JsonMessage)
              (planned : option (list string)),
         json_type m = Some "ai" ->
         json_content m = Some (content note) ->
         extract_messages_and_searches parse
           (mkJsonState (Some (before ++ m :: after)%list) planned) =
         extract_messages_and_searches parse
           (mkJsonState (Some (before ++ after)%list) planned).
Proof.
  intros Hrun. destruct (planning_writes_note _ _ _ Hrun) as [queries Hmsgs].
  eexists. split; [exact Hmsgs |].
  intros m before after planned Htype Hcontent.
  unfold extract_messages_and_searches. simpl.
  rewrite (extract_loop_skips_note parse _ m _ before after Htype Hcontent
             (orb_true_intro _ _ (or_intror
                (startswith_append "Planned"
                   (" " ++ str_of_Z (len queries) ++ " search queries"))))
             [] 0%nat).
  reflexivity.
Qed.

Lemma thread_view_hides_planning_note_witness :
  exists u note,
    planning (planning_stream pricing_review) sample_input = Ok u
    /\ messages u = Some [note]
    /\ extract_messages_and_searches recording_parser
         (mkJsonState (Some sample_thread) None) =
       extract_messages_and_searches recording_parser
         (mkJsonState
            (Some [mkJsonMessage (Some "human") (Some paris_question)
                     (Some "m1");
                   mkJsonMessage (Some "tool") (Some "Title: paris weather")
                     None;
                   mkJsonMessage (Some "tool") (Some "Title: paris forecast")
                     (Some "m4");
                   mkJsonMessage (Some "ai") (Some "Sunny and mild") None])
            None).
Proof.
  destruct (planning (planning_stream pricing_review) sample_input)
    as [u | e] eqn:Hrun; [| discriminate Hrun].
  destruct (thread_view_hides_planning_note recording_parser
              (planning_stream pricing_review) sample_input u Hrun)
    as (note & Hmsgs & Hview).
  exists u, note. split; [reflexivity |]. split; [exact Hmsgs |].
  injection Hrun as <-. injection Hmsgs as <-.
  apply (Hview (mkJsonMessage (Some "ai") (Some "Planned 2 search queries")
                  (Some "m2"))
               [mkJsonMessage (Some "human") (Some paris_question) (Some "m1")]);
    reflexivity.
Defined.

(** X25: the thread view names a tool message by its position among the
    tool messages of the whole thread.  For a thread whose messages hold a
    string, or nothing, under ["type"], ["content"] and ["id"], and whose
    plan is a list of strings or absent: a tool message that follows [k]
    tool messages is parsed with search index [k] and with the [k]-th query
    of the current plan, or with ["Search k+1"] when the plan is shorter;
    it is added to the view with an empty content, and the messages before
    it are shown as without it. *)
Theorem thread_view_names_tool_messages_by_position {R : Type}
    (parse : string -> Z -> string -> list R)
    (before : list JsonMessage) (m : JsonMessage)
    (planned : option (list string)) (shown : list (ChatMessage R))
    (found : list R) :
  extract_messages_and_searches parse
    (mkJsonState (Some before) planned) = Ok (shown, found) ->
  json_type m = Some "tool" ->
  extract_messages_and_searches parse
    (mkJsonState (Some (before ++ [m])%list) planned) =
  Ok ((shown ++
       [mkChatMessage
          (dict_get ("tool_" ++ str_of_Z (len shown))%string (json_id m))
          "tool" ""
          (Some (parse (dict_get "" (json_content m))
                       (Z.of_nat (tool_count before))
                       (query_label (dict_get [] planned)
                                    (tool_count before))))])%list,
      []).
Proof.
  intros Hview Htype.
  unfold extract_messages_and_searches in *. simpl in *.
  unbind Hview. injection Hview as <- <-.
  rewrite (extract_loop_app parse _ before [m] [] 0%nat).
  simpl. rewrite Ha. simpl. rewrite Htype. simpl.
  rewrite query_name_at. reflexivity.
Qed.

Lemma thread_view_names_tool_messages_by_position_witness :
  exists shown,
    extract_messages_and_searches recording_parser
      (mkJsonState
         (Some ([mkJsonMessage (Some "tool") (Some "old result") (Some "m0")]
                ++ [mkJsonMessage (Some "tool") (Some "new result") None])%list)
         (Some ["paris weather"])) = Ok (shown, [])
    /\ map chat_search_results shown =
       [Some [("old result", 0, "paris weather")];
        Some [("new result", 1, "Search 2")]]
    /\ map chat_id shown = ["m0"; "tool_1"].
Proof.
  destruct (extract_messages_and_searches recording_parser
              (mkJsonState
                 (Some [mkJsonMessage (Some "tool") (Some "old result")
                          (Some "m0")])
                 (Some ["paris weather"])))
    as [[shown found] | e] eqn:Hbefore; [| discriminate Hbefore].
  eexists. split.
  - apply (thread_view_names_tool_messages_by_position recording_parser
             [mkJsonMessage (Some "tool") (Some "old result") (Some "m0")]
             (mkJsonMessage (Some "tool") (Some "new result") None)
             (Some ["paris weather"]) shown found Hbefore eq_refl).
  - injection Hbefore as <- <-. split; reflexivity.
Defined.
